(** * Inter-skill communication runtime: dispatch core and outbound tools

    A shallow embedding of [dev/runtime/interop.py] and of the type
    definitions of [dev/types/interop_types.py].

    Python values that travel over the RPC channel are JSON documents.  The
    coroutines of the runtime call into code that lives outside of it (the
    skill's hook, the registered handlers, the host collaborator); each such
    call is recorded as an event, and the code outside is an environment
    that answers a call from the history of the calls made so far, which is
    how a stateful collaborator is described without fixing its state. *)

From Stdlib Require Import String Ascii List ZArith Bool Lia.
From Stdlib Require Import DecimalString.
Import ListNotations.
Open Scope string_scope.
Open Scope list_scope.
Set Warnings "-register-all".

(** ** JSON documents and Python dictionaries *)

Inductive Json : Type :=
| JNull                                   (* None *)
| JBool (b : bool)
| JNum (z : Z)
| JStr (s : string)
| JList (l : list Json)
| JObj (kv : list (string * Json)).       (* dict with str keys, in insertion order *)

(** A [dict[str, V]]: keys in insertion order. *)
Definition Dict (V : Type) : Type := list (string * V).

(** [d.get(k)]: [None] when the key is absent. *)
Fixpoint dict_get {V : Type} (k : string) (d : Dict V) : option V :=
  match d with
  | [] => None
  | (k', v) :: d' => if String.eqb k' k then Some v else dict_get k d'
  end.

(** [d.get(k, default)]. *)
Definition dict_get_default {V : Type} (k : string) (default : V) (d : Dict V) : V :=
  match dict_get k d with
  | Some v => v
  | None => default
  end.

(** [d.values()]. *)
Definition dict_values {V : Type} (d : Dict V) : list V := map snd d.

(** [d.keys()]. *)
Definition dict_keys {V : Type} (d : Dict V) : list string := map fst d.

(** [d[k] = v]: an existing key keeps its position. *)
Fixpoint dict_set {V : Type} (k : string) (v : V) (d : Dict V) : Dict V :=
  match d with
  | [] => [(k, v)]
  | (k', v') :: d' =>
      if String.eqb k' k then (k, v) :: d' else (k', v') :: dict_set k v d'
  end.

(** Truth value of a JSON document, as [if x:] and [not x] test it. *)
Definition truthy (j : Json) : bool :=
  match j with
  | JNull => false
  | JBool b => b
  | JNum z => negb (Z.eqb z 0)
  | JStr s => negb (String.eqb s "")
  | JList l => match l with [] => false | _ => true end
  | JObj kv => match kv with [] => false | _ => true end
  end.

(** [x is None]. *)
Definition is_None (j : Json) : bool :=
  match j with
  | JNull => true
  | _ => false
  end.

(** ** Exceptions and outcomes *)

(** An exception: its class, what [str(exc)] gives, and whether the class
    derives from [Exception], which is what [except Exception] catches; a
    cancellation, an interrupt or an exit derive from [BaseException]
    only. *)
Record Exn : Type := BuildExn {
  exn_class : string;
  exn_text : string;
  derives_Exception : bool
}.

(** An exception of a class that derives from [Exception]. *)
Definition mkExn (class text : string) : Exn := BuildExn class text true.

(** [asyncio.CancelledError], raised into a coroutine that is cancelled
    while it awaits. *)
Definition CancelledError : Exn := BuildExn "CancelledError" "" false.

Definition ValueError (msg : string) : Exn := mkExn "ValueError" msg.
Definition TypeError (msg : string) : Exn := mkExn "TypeError" msg.

Inductive Outcome (A : Type) : Type :=
| Ok (a : A)
| Raised (e : Exn).
Arguments Ok {A} a.
Arguments Raised {A} e.

(** ** Types of [interop_types.py] *)

(** [Literal["skills", "frontend"]] *)
Inductive VisibilityTag : Type := skills | frontend.

Definition Visibility : Type := list VisibilityTag.

Definition tag_name (v : VisibilityTag) : string :=
  match v with
  | skills => "skills"
  | frontend => "frontend"
  end.

(** A Python callable, known by its identity. *)
Inductive Callable : Type := Fn (id : nat).

Record ExposedDataDefinition : Type := {
  d_name : string;
  d_description : string;
  d_visibility : Visibility;
  schema_ : Dict Json;
  d_handler : Callable
}.

Record ExposedFunctionDefinition : Type := {
  f_name : string;
  f_description : string;
  f_visibility : Visibility;
  parameters : Dict Json;
  returns : Dict Json;
  f_handler : Callable
}.

Record InteropSchema : Type := {
  exposed_data : list ExposedDataDefinition;
  exposed_functions : list ExposedFunctionDefinition
}.

(** [InteropSchema(exposed_data=..., exposed_functions=...)]: a frozen
    model with two list fields, each defaulting to the empty list, and no
    validator; an argument left out is [None] here. *)
Definition InteropSchema_init
    (data : option (list ExposedDataDefinition))
    (functions : option (list ExposedFunctionDefinition)) : Outcome InteropSchema :=
  Ok {| exposed_data := match data with Some l => l | None => [] end;
        exposed_functions := match functions with Some l => l | None => [] end |}.

(** ** The server object, as the runtime helpers read it *)

(** The skill's hook object; a callback that is not supplied is [None]. *)
Record SkillHooks : Type := {
  on_interop_data : option Callable;
  on_interop_call : option Callable
}.

Record Server : Type := {
  _hooks : option SkillHooks;
  _exposed_data : Dict ExposedDataDefinition;
  _exposed_functions : Dict ExposedFunctionDefinition
}.

(** A [SkillContext] object, known by its identity. *)
Inductive Ctx : Type := Context (id : nat).

(** ** Calls that leave the runtime *)

Inductive Event : Type :=
| EvCreateContext (c : Ctx)
| EvOnInteropData (hook : Callable) (c : Ctx) (caller_skill_id data_name request_params : Json)
| EvOnInteropCall (hook : Callable) (c : Ctx) (caller_skill_id function_name arguments : Json)
| EvHandler (handler : Callable) (c : Ctx) (params : Json)
| EvListSkills
| EvListExposedData (skill_id : Json)
| EvListExposedFunctions (skill_id : Json)
| EvRequestSkillData (skill_id data_name params : Json)
| EvCallSkillFunction (skill_id function_name arguments : Json).

Definition Trace : Type := list Event.

(** What lies outside the runtime helpers: the callables of the skill and
    the methods of the server object that the helpers call
    ([_create_context], [list_skills], [list_exposed_data],
    [list_exposed_functions], [request_skill_data], [call_skill_function]),
    whose bodies belong to the server and to the host.  Every answer may
    depend on the calls made before it. *)
Record Env : Type := {
  create_context : Trace -> Ctx;
  (* awaiting a hook or a handler: the callable, the context and the
     remaining positional arguments; the answer is what the callable
     returns or raises, with what it has made of the arguments, which are
     objects it may rewrite in place *)
  call : Callable -> Ctx -> list Json -> Trace -> Outcome Json * list Json;
  (* the host collaborator *)
  list_skills : Trace -> Outcome Json;
  list_exposed_data : Json -> Trace -> Outcome Json;
  list_exposed_functions : Json -> Trace -> Outcome Json;
  request_skill_data : Json -> Json -> Json -> Trace -> Outcome Json;
  call_skill_function : Json -> Json -> Json -> Trace -> Outcome Json;
  (* json.dumps(value, indent=2) *)
  json_dumps : Json -> Outcome string
}.

(** ** A monad for coroutines: history in, outcome and new events out *)

Definition M (A : Type) : Type := Trace -> Outcome A * list Event.

Definition ret {A : Type} (a : A) : M A := fun _ => (Ok a, []).

Definition raise {A : Type} (e : Exn) : M A := fun _ => (Raised e, []).

Definition bind {A B : Type} (m : M A) (k : A -> M B) : M B :=
  fun h =>
    match m h with
    | (Ok a, evs) =>
        let '(r, evs') := k a (h ++ evs) in (r, evs ++ evs')
    | (Raised e, evs) => (Raised e, evs)
    end.

(** [try: body  except Exception as exc: handler exc]: an exception that
    does not derive from [Exception] is not caught. *)
Definition try_except {A : Type} (body : M A) (handler : Exn -> M A) : M A :=
  fun h =>
    match body h with
    | (Ok a, evs) => (Ok a, evs)
    | (Raised e, evs) =>
        if derives_Exception e then
          let '(r, evs') := handler e (h ++ evs) in (r, evs ++ evs')
        else (Raised e, evs)
    end.

(** An outside call: answered from the history, then recorded. *)
Definition perform {A : Type} (answer : Trace -> Outcome A) (ev : Event) : M A :=
  fun h => (answer h, [ev]).

(** A pure library call that may raise. *)
Definition lift {A : Type} (o : Outcome A) : M A := fun _ => (o, []).

(** What a callee can have made of an object it was passed: a dict is
    still a dict and a list still a list, with the content the callee left
    in it; any other value cannot be changed. *)
Definition left_as (before after : Json) : Json :=
  match before, after with
  | JObj _, JObj _ => after
  | JList _, JList _ => after
  | _, _ => before
  end.

(** The [i]-th argument of a call, as the callee left it. *)
Definition argument_after (passed left : list Json) (i : nat) : Json :=
  left_as (nth i passed JNull) (nth i left (nth i passed JNull)).

Declare Scope coro_scope.
Delimit Scope coro_scope with coro.
Notation "x <- m ;; k" := (bind m (fun x => k))
  (at level 100, m at next level, right associativity) : coro_scope.
Open Scope coro_scope.

(** ** Looking a name up in a registry *)

(** What [dict.get] accepts as a key.  Numbers of the model are the
    integers. *)
Inductive Hashable : Type :=
| HNone
| HBool (b : bool)
| HNum (z : Z)
| HStr (s : string).

(** A list or a dict has no hash: using one as a key raises. *)
Definition hash_key (j : Json) : Outcome Hashable :=
  match j with
  | JNull => Ok HNone
  | JBool b => Ok (HBool b)
  | JNum z => Ok (HNum z)
  | JStr s => Ok (HStr s)
  | JList _ => Raised (TypeError "unhashable type: 'list'")
  | JObj _ => Raised (TypeError "unhashable type: 'dict'")
  end.

(** The keys of a registry are strings: no other key is found. *)
Definition registry_get {V : Type} (k : Hashable) (d : Dict V) : option V :=
  match k with
  | HStr s => dict_get s d
  | _ => None
  end.

(** How an f-string renders the key. *)
Definition py_str (k : Hashable) : string :=
  match k with
  | HNone => "None"
  | HBool true => "True"
  | HBool false => "False"
  | HNum z => NilZero.string_of_int (Z.to_int z)
  | HStr s => s
  end.

(** ** Forward RPC handlers (host to skill) *)

(** [server._create_context()] *)
Definition new_context (env : Env) : M Ctx :=
  fun h => let c := create_context env h in (Ok c, [EvCreateContext c]).

(** Awaiting a hook or a handler: what it returns, with what it left of
    the arguments. *)
Definition await_call (env : Env) (f : Callable) (ctx : Ctx) (passed : list Json)
    (ev : Event) : M (Json * list Json) :=
  fun h =>
    (match fst (call env f ctx passed h) with
     | Ok r => Ok (r, snd (call env f ctx passed h))
     | Raised e => Raised e
     end, [ev]).

(** [hooks and hooks.on_interop_data] *)
Definition data_hook (server : Server) : option Callable :=
  match _hooks server with
  | Some hooks => on_interop_data hooks
  | None => None
  end.

(** [hooks and hooks.on_interop_call] *)
Definition call_hook (server : Server) : option Callable :=
  match _hooks server with
  | Some hooks => on_interop_call hooks
  | None => None
  end.

(** [{"data": value}] *)
Definition data_response (value : Json) : Json := JObj [("data", value)].

Definition handle_get_data (env : Env) (server : Server) (params : Dict Json) : M Json :=
  let caller_skill_id := dict_get_default "callerSkillId" (JStr "") params in
  let data_name := dict_get_default "dataName" (JStr "") params in
  let request_params := dict_get_default "params" (JObj []) params in
  (* Fall through to registered handler *)
  let fall_through (data_name request_params : Json) : M Json :=
    key <- lift (hash_key data_name);;
    match registry_get key (_exposed_data server) with
    | None => raise (ValueError ("Unknown data endpoint: " ++ py_str key)%string)
    | Some endpoint =>
        ctx <- new_context env;;
        answer <- await_call env (d_handler endpoint) ctx [request_params]
                             (EvHandler (d_handler endpoint) ctx request_params);;
        ret (data_response (fst answer))
    end in
  (* Try the optional hook first *)
  match data_hook server with
  | Some hook =>
      ctx <- new_context env;;
      let passed := [caller_skill_id; data_name; request_params] in
      answer <- await_call env hook ctx passed
                           (EvOnInteropData hook ctx caller_skill_id data_name
                                            request_params);;
      let hook_result := fst answer in
      if is_None hook_result then
        (* the name and the params are the objects the hook was passed *)
        fall_through (argument_after passed (snd answer) 1)
                     (argument_after passed (snd answer) 2)
      else ret (data_response hook_result)
  | None => fall_through data_name request_params
  end.

Definition handle_call_function (env : Env) (server : Server) (params : Dict Json) : M Json :=
  let caller_skill_id := dict_get_default "callerSkillId" (JStr "") params in
  let function_name := dict_get_default "functionName" (JStr "") params in
  let arguments := dict_get_default "arguments" (JObj []) params in
  (* Fall through to registered handler *)
  let fall_through (function_name arguments : Json) : M Json :=
    key <- lift (hash_key function_name);;
    match registry_get key (_exposed_functions server) with
    | None => raise (ValueError ("Unknown function: " ++ py_str key)%string)
    | Some func =>
        ctx <- new_context env;;
        answer <- await_call env (f_handler func) ctx [arguments]
                             (EvHandler (f_handler func) ctx arguments);;
        ret (data_response (fst answer))
    end in
  (* Try the optional hook first *)
  match call_hook server with
  | Some hook =>
      ctx <- new_context env;;
      let passed := [caller_skill_id; function_name; arguments] in
      answer <- await_call env hook ctx passed
                           (EvOnInteropCall hook ctx caller_skill_id function_name
                                            arguments);;
      let hook_result := fst answer in
      if is_None hook_result then
        (* the name and the arguments are the objects the hook was passed *)
        fall_through (argument_after passed (snd answer) 1)
                     (argument_after passed (snd answer) 2)
      else ret (data_response hook_result)
  | None => fall_through function_name arguments
  end.

(** The entry of a data endpoint in the [listExposed] payload. *)
Definition data_entry (d : ExposedDataDefinition) : Json :=
  JObj [ ("name", JStr (d_name d));
         ("description", JStr (d_description d));
         ("visibility", JList (map (fun v => JStr (tag_name v)) (d_visibility d)));
         ("schema", JObj (schema_ d)) ].

(** The entry of a function in the [listExposed] payload. *)
Definition function_entry (f : ExposedFunctionDefinition) : Json :=
  JObj [ ("name", JStr (f_name f));
         ("description", JStr (f_description f));
         ("visibility", JList (map (fun v => JStr (tag_name v)) (f_visibility f)));
         ("parameters", JObj (parameters f));
         ("returns", JObj (returns f)) ].

Definition handle_list_exposed (server : Server) : Json :=
  JObj [ ("data", JList (map data_entry (dict_values (_exposed_data server))));
         ("functions", JList (map function_entry (dict_values (_exposed_functions server)))) ].

(** ** Auto-generated interop tools (always present on every skill) *)

(** Modelled from the spec: the declarations of [ToolResult],
    [ToolDefinition] and [SkillTool] (dev/types/skill_types.py) are not
    part of the sources at hand.  A tool result is the structured result of
    the spec, success content or error content told apart by an [is_error]
    flag, which is [False] when the constructor call leaves it out; a tool
    definition and a tool carry the fields the constructor calls of
    [build_interop_tools] name. *)
Record ToolResult : Type := { content : string; is_error : bool }.

Record ToolDefinition : Type := {
  td_name : string;
  td_description : string;
  td_parameters : Json
}.

Record SkillTool : Type := {
  definition : ToolDefinition;
  execute : Dict Json -> M ToolResult
}.

(** [ToolResult(content=json.dumps(result, indent=2))] *)
Definition dumped (env : Env) (result : Json) : M ToolResult :=
  text <- lift (json_dumps env result);;
  ret {| content := text; is_error := false |}.

(** 1. list-skills *)
Definition _list_skills (env : Env) (args : Dict Json) : M ToolResult :=
  result <- perform (list_skills env) EvListSkills;;
  dumped env result.

(** 2. list-skill-data *)
Definition _list_skill_data (env : Env) (args : Dict Json) : M ToolResult :=
  let skill_id := dict_get_default "skill_id" JNull args in
  result <- perform (list_exposed_data env skill_id) (EvListExposedData skill_id);;
  dumped env result.

(** 3. list-skill-functions *)
Definition _list_skill_functions (env : Env) (args : Dict Json) : M ToolResult :=
  let skill_id := dict_get_default "skill_id" JNull args in
  result <- perform (list_exposed_functions env skill_id) (EvListExposedFunctions skill_id);;
  dumped env result.

(** 4. request-skill-data *)
Definition _request_skill_data (env : Env) (args : Dict Json) : M ToolResult :=
  let skill_id := dict_get_default "skill_id" (JStr "") args in
  let data_name := dict_get_default "data_name" (JStr "") args in
  let params := dict_get_default "params" JNull args in
  if negb (truthy skill_id) || negb (truthy data_name) then
    ret {| content := "skill_id and data_name are required"; is_error := true |}
  else
    try_except
      (result <- perform (request_skill_data env skill_id data_name params)
                         (EvRequestSkillData skill_id data_name params);;
       dumped env result)
      (fun exc => ret {| content := exn_text exc; is_error := true |}).

(** 5. call-skill-function *)
Definition _call_skill_function (env : Env) (args : Dict Json) : M ToolResult :=
  let skill_id := dict_get_default "skill_id" (JStr "") args in
  let function_name := dict_get_default "function_name" (JStr "") args in
  let arguments := dict_get_default "arguments" JNull args in
  if negb (truthy skill_id) || negb (truthy function_name) then
    ret {| content := "skill_id and function_name are required"; is_error := true |}
  else
    try_except
      (result <- perform (call_skill_function env skill_id function_name arguments)
                         (EvCallSkillFunction skill_id function_name arguments);;
       dumped env result)
      (fun exc => ret {| content := exn_text exc; is_error := true |}).

(** [{"type": "string", "description": text}] *)
Definition string_property (text : string) : Json :=
  JObj [("type", JStr "string"); ("description", JStr text)].

(** [{"type": "object", "description": text}] *)
Definition object_property (text : string) : Json :=
  JObj [("type", JStr "object"); ("description", JStr text)].

Definition skill_filter_parameters : Json :=
  JObj [ ("type", JStr "object");
         ("properties",
          JObj [("skill_id", string_property "Optional skill ID to filter by")]) ].

Definition build_interop_tools (env : Env) : Dict SkillTool :=
  let tools : Dict SkillTool := [] in
  let tools :=
    dict_set "list-skills"
      {| definition :=
           {| td_name := "list-skills";
              td_description := "Discover all registered skills and their online status";
              td_parameters := JObj [("type", JStr "object"); ("properties", JObj [])] |};
         execute := _list_skills env |} tools in
  let tools :=
    dict_set "list-skill-data"
      {| definition :=
           {| td_name := "list-skill-data";
              td_description :=
                "List exposed data endpoints from other skills (optionally filter by skill)";
              td_parameters := skill_filter_parameters |};
         execute := _list_skill_data env |} tools in
  let tools :=
    dict_set "list-skill-functions"
      {| definition :=
           {| td_name := "list-skill-functions";
              td_description :=
                "List exposed functions from other skills (optionally filter by skill)";
              td_parameters := skill_filter_parameters |};
         execute := _list_skill_functions env |} tools in
  let tools :=
    dict_set "request-skill-data"
      {| definition :=
           {| td_name := "request-skill-data";
              td_description := "Request data from another skill's exposed data endpoint";
              td_parameters :=
                JObj [ ("type", JStr "object");
                       ("properties",
                        JObj [ ("skill_id", string_property "Target skill ID");
                               ("data_name", string_property "Data endpoint name");
                               ("params",
                                object_property "Optional parameters for the data request") ]);
                       ("required", JList [JStr "skill_id"; JStr "data_name"]) ] |};
         execute := _request_skill_data env |} tools in
  let tools :=
    dict_set "call-skill-function"
      {| definition :=
           {| td_name := "call-skill-function";
              td_description := "Call a function exposed by another skill";
              td_parameters :=
                JObj [ ("type", JStr "object");
                       ("properties",
                        JObj [ ("skill_id", string_property "Target skill ID");
                               ("function_name", string_property "Function name to call");
                               ("arguments",
                                object_property "Arguments to pass to the function") ]);
                       ("required", JList [JStr "skill_id"; JStr "function_name"]) ] |};
         execute := _call_skill_function env |} tools in
  tools.

(** ** Observations on a run *)

(** The handler invocations among the events of a run, in order. *)
Definition handler_calls (evs : list Event) : list (Callable * Ctx * Json) :=
  flat_map (fun ev => match ev with
                      | EvHandler f c p => [(f, c, p)]
                      | _ => []
                      end) evs.

(** The arguments the data-hook is called with. *)
Definition data_hook_arguments (params : Dict Json) : list Json :=
  [ dict_get_default "callerSkillId" (JStr "") params;
    dict_get_default "dataName" (JStr "") params;
    dict_get_default "params" (JObj []) params ].

(** The arguments the call-hook is called with. *)
Definition call_hook_arguments (params : Dict Json) : list Json :=
  [ dict_get_default "callerSkillId" (JStr "") params;
    dict_get_default "functionName" (JStr "") params;
    dict_get_default "arguments" (JObj []) params ].

(** What the data-hook answers to a request, when one is registered. *)
Definition data_hook_answer (env : Env) (server : Server) (params : Dict Json)
    (h : Trace) : option (Outcome Json) :=
  match data_hook server with
  | Some hook =>
      let ctx := create_context env h in
      Some (fst (call env hook ctx (data_hook_arguments params)
                      (h ++ [EvCreateContext ctx])))
  | None => None
  end.

(** What the call-hook answers to a request, when one is registered. *)
Definition call_hook_answer (env : Env) (server : Server) (params : Dict Json)
    (h : Trace) : option (Outcome Json) :=
  match call_hook server with
  | Some hook =>
      let ctx := create_context env h in
      Some (fst (call env hook ctx (call_hook_arguments params)
                      (h ++ [EvCreateContext ctx])))
  | None => None
  end.

(** The arguments of the data-hook as the hook left them; those of the
    request when no data-hook is registered. *)
Definition data_hook_left (env : Env) (server : Server) (params : Dict Json)
    (h : Trace) : list Json :=
  match data_hook server with
  | Some hook =>
      let ctx := create_context env h in
      snd (call env hook ctx (data_hook_arguments params) (h ++ [EvCreateContext ctx]))
  | None => data_hook_arguments params
  end.

(** The arguments of the call-hook as the hook left them; those of the
    request when no call-hook is registered. *)
Definition call_hook_left (env : Env) (server : Server) (params : Dict Json)
    (h : Trace) : list Json :=
  match call_hook server with
  | Some hook =>
      let ctx := create_context env h in
      snd (call env hook ctx (call_hook_arguments params) (h ++ [EvCreateContext ctx]))
  | None => call_hook_arguments params
  end.

(** The params of a getData request once the data-hook has had them. *)
Definition data_params_after_hook (env : Env) (server : Server) (params : Dict Json)
    (h : Trace) : Json :=
  argument_after (data_hook_arguments params) (data_hook_left env server params h) 2.

(** The arguments of a callFunction request once the call-hook has had
    them. *)
Definition call_arguments_after_hook (env : Env) (server : Server) (params : Dict Json)
    (h : Trace) : Json :=
  argument_after (call_hook_arguments params) (call_hook_left env server params h) 2.



(** No hook is registered, or the registered hook returns [None]. *)
Definition defers (answer : option (Outcome Json)) : Prop :=
  answer = None \/ answer = Some (Ok JNull).

(** The events of the hook consultation of [getData]. *)
Definition data_hook_events (env : Env) (server : Server) (params : Dict Json)
    (h : Trace) : list Event :=
  match data_hook server with
  | Some hook =>
      let ctx := create_context env h in
      [ EvCreateContext ctx;
        EvOnInteropData hook ctx
          (dict_get_default "callerSkillId" (JStr "") params)
          (dict_get_default "dataName" (JStr "") params)
          (dict_get_default "params" (JObj []) params) ]
  | None => []
  end.

(** The events of the hook consultation of [callFunction]. *)
Definition call_hook_events (env : Env) (server : Server) (params : Dict Json)
    (h : Trace) : list Event :=
  match call_hook server with
  | Some hook =>
      let ctx := create_context env h in
      [ EvCreateContext ctx;
        EvOnInteropCall hook ctx
          (dict_get_default "callerSkillId" (JStr "") params)
          (dict_get_default "functionName" (JStr "") params)
          (dict_get_default "arguments" (JObj []) params) ]
  | None => []
  end.

(** The registry path of getData for a name and params: what it returns
    or raises, and the calls it makes. *)
Definition data_registry_run (env : Env) (server : Server) (data_name request_params : Json)
    (h : Trace) : Outcome Json * list Event :=
  match hash_key data_name with
  | Raised e => (Raised e, [])
  | Ok key =>
      match registry_get key (_exposed_data server) with
      | None => (Raised (ValueError ("Unknown data endpoint: " ++ py_str key)%string), [])
      | Some endpoint =>
          let ctx := create_context env h in
          (match fst (call env (d_handler endpoint) ctx [request_params]
                           (h ++ [EvCreateContext ctx])) with
           | Ok r => Ok (data_response r)
           | Raised e => Raised e
           end,
           [EvCreateContext ctx; EvHandler (d_handler endpoint) ctx request_params])
      end
  end.

(** The registry path of callFunction for a name and arguments. *)
Definition function_registry_run (env : Env) (server : Server)
    (function_name arguments : Json) (h : Trace) : Outcome Json * list Event :=
  match hash_key function_name with
  | Raised e => (Raised e, [])
  | Ok key =>
      match registry_get key (_exposed_functions server) with
      | None => (Raised (ValueError ("Unknown function: " ++ py_str key)%string), [])
      | Some func =>
          let ctx := create_context env h in
          (match fst (call env (f_handler func) ctx [arguments]
                           (h ++ [EvCreateContext ctx])) with
           | Ok r => Ok (data_response r)
           | Raised e => Raised e
           end,
           [EvCreateContext ctx; EvHandler (f_handler func) ctx arguments])
      end
  end.

(** The same server with no hook object. *)
Definition without_hooks (server : Server) : Server :=
  {| _hooks := None;
     _exposed_data := _exposed_data server;
     _exposed_functions := _exposed_functions server |}.

Definition data_with_visibility (f : Visibility -> Visibility)
    (d : ExposedDataDefinition) : ExposedDataDefinition :=
  {| d_name := d_name d;
     d_description := d_description d;
     d_visibility := f (d_visibility d);
     schema_ := schema_ d;
     d_handler := d_handler d |}.

Definition function_with_visibility (f : Visibility -> Visibility)
    (fn : ExposedFunctionDefinition) : ExposedFunctionDefinition :=
  {| f_name := f_name fn;
     f_description := f_description fn;
     f_visibility := f (f_visibility fn);
     parameters := parameters fn;
     returns := returns fn;
     f_handler := f_handler fn |}.

(** The same server, every visibility set rewritten by [f]. *)
Definition map_visibility (f : Visibility -> Visibility) (server : Server) : Server :=
  {| _hooks := _hooks server;
     _exposed_data :=
       map (fun kv => (fst kv, data_with_visibility f (snd kv))) (_exposed_data server);
     _exposed_functions :=
       map (fun kv => (fst kv, function_with_visibility f (snd kv)))
           (_exposed_functions server) |}.

Definition data_with_handler (g : Callable -> Callable)
    (d : ExposedDataDefinition) : ExposedDataDefinition :=
  {| d_name := d_name d;
     d_description := d_description d;
     d_visibility := d_visibility d;
     schema_ := schema_ d;
     d_handler := g (d_handler d) |}.

Definition function_with_handler (g : Callable -> Callable)
    (fn : ExposedFunctionDefinition) : ExposedFunctionDefinition :=
  {| f_name := f_name fn;
     f_description := f_description fn;
     f_visibility := f_visibility fn;
     parameters := parameters fn;
     returns := returns fn;
     f_handler := g (f_handler fn) |}.

(** The same server, every handler replaced through [g]. *)
Definition map_handlers (g : Callable -> Callable) (server : Server) : Server :=
  {| _hooks := _hooks server;
     _exposed_data :=
       map (fun kv => (fst kv, data_with_handler g (snd kv))) (_exposed_data server);
     _exposed_functions :=
       map (fun kv => (fst kv, function_with_handler g (snd kv)))
           (_exposed_functions server) |}.


(** Whether [key] names a field of an object anywhere inside a document. *)
Fixpoint has_field (key : string) (j : Json) : bool :=
  match j with
  | JList l => existsb (has_field key) l
  | JObj kv =>
      existsb (fun p => match p with
                        | (k, v) => String.eqb k key || has_field key v
                        end) kv
  | _ => false
  end.

(** Whether [needle] occurs in [text]. *)
Definition occurs_in (needle text : string) : bool :=
  match String.index 0 needle text with
  | Some _ => true
  | None => false
  end.

(** The params (or arguments) a hook was called with. *)
Definition hook_params (ev : Event) : option Json :=
  match ev with
  | EvOnInteropData _ _ _ _ p => Some p
  | EvOnInteropCall _ _ _ _ p => Some p
  | _ => None
  end.

(** The params (or arguments) a handler was called with. *)
Definition handler_params (ev : Event) : option Json :=
  match ev with
  | EvHandler _ _ p => Some p
  | _ => None
  end.

(** The caller identity a hook was called with. *)
Definition passed_caller (ev : Event) : option Json :=
  match ev with
  | EvOnInteropData _ _ caller _ _ => Some caller
  | EvOnInteropCall _ _ caller _ _ => Some caller
  | _ => None
  end.

(** The entry [j] is the projection of the data endpoint [E]: the four
    fields, each with E's value, and no other field. *)
Definition reflects_data (E : ExposedDataDefinition) (j : Json) : Prop :=
  exists kv,
    j = JObj kv
    /\ dict_keys kv = ["name"; "description"; "visibility"; "schema"]
    /\ dict_get "name" kv = Some (JStr (d_name E))
    /\ dict_get "description" kv = Some (JStr (d_description E))
    /\ dict_get "visibility" kv
       = Some (JList (map (fun v => JStr (tag_name v)) (d_visibility E)))
    /\ dict_get "schema" kv = Some (JObj (schema_ E))
    /\ dict_get "handler" kv = None.

(** The entry [j] is the projection of the function [F]: the five fields,
    each with F's value, and no other field. *)
Definition reflects_function (F : ExposedFunctionDefinition) (j : Json) : Prop :=
  exists kv,
    j = JObj kv
    /\ dict_keys kv = ["name"; "description"; "visibility"; "parameters"; "returns"]
    /\ dict_get "name" kv = Some (JStr (f_name F))
    /\ dict_get "description" kv = Some (JStr (f_description F))
    /\ dict_get "visibility" kv
       = Some (JList (map (fun v => JStr (tag_name v)) (f_visibility F)))
    /\ dict_get "parameters" kv = Some (JObj (parameters F))
    /\ dict_get "returns" kv = Some (JObj (returns F))
    /\ dict_get "handler" kv = None.

(** The tool registered under [name], run on [args]. *)
Definition run_tool (env : Env) (name : string) (args : Dict Json) (h : Trace)
    : option (Outcome ToolResult * list Event) :=
  match dict_get name (build_interop_tools env) with
  | Some tool => Some (execute tool args h)
  | None => None
  end.

(** ** The kitchen-sink skill ([examples/kitchen-sink/interop.py]) *)

Module KitchenSink.

Definition _get_notes_summary : Callable := Fn 1.
Definition _get_status : Callable := Fn 2.
Definition _add_note : Callable := Fn 3.
Definition on_interop_data_hook : Callable := Fn 4.
Definition on_interop_call_hook : Callable := Fn 5.

Definition type_only (t : string) : Json := JObj [("type", JStr t)].

Definition notes_summary : ExposedDataDefinition :=
  {| d_name := "notes-summary";
     d_description := "Summary of all stored notes (count and index)";
     d_visibility := [skills; frontend];
     schema_ :=
       [ ("type", JStr "object");
         ("properties",
          JObj [ ("count", type_only "integer");
                 ("notes", JObj [ ("type", JStr "array");
                                  ("items", type_only "object") ]) ]) ];
     d_handler := _get_notes_summary |}.

Definition connection_status : ExposedDataDefinition :=
  {| d_name := "connection-status";
     d_description := "Current kitchen-sink skill status";
     d_visibility := [skills; frontend];
     schema_ :=
       [ ("type", JStr "object");
         ("properties",
          JObj [ ("configured", type_only "boolean");
                 ("username", type_only "string");
                 ("tick_count", type_only "integer") ]) ];
     d_handler := _get_status |}.

Definition add_note : ExposedFunctionDefinition :=
  {| f_name := "add-note";
     f_description := "Add a note to the kitchen-sink skill's storage";
     f_visibility := [skills];
     parameters :=
       [ ("type", JStr "object");
         ("properties",
          JObj [ ("title", string_property "Note title");
                 ("body", string_property "Note content") ]);
         ("required", JList [JStr "title"]) ];
     returns :=
       [ ("type", JStr "object");
         ("properties",
          JObj [ ("note_id", type_only "string");
                 ("title", type_only "string") ]) ];
     f_handler := _add_note |}.

Definition hooks : SkillHooks :=
  {| on_interop_data := Some on_interop_data_hook;
     on_interop_call := Some on_interop_call_hook |}.

(** The registries of a server running the skill, keyed by name. *)
Definition server (hooks : option SkillHooks) : Server :=
  {| _hooks := hooks;
     _exposed_data :=
       [ ("notes-summary", notes_summary); ("connection-status", connection_status) ];
     _exposed_functions := [ ("add-note", add_note) ] |}.

End KitchenSink.

(** ** Test doubles and the scenarios of the spec *)

Module Doubles.

(** A private endpoint: its visibility set is empty. *)
Definition secret : ExposedDataDefinition :=
  {| d_name := "secret";
     d_description := "Not for other skills";
     d_visibility := [];
     schema_ := [];
     d_handler := Fn 6 |}.

(** A private function. *)
Definition wipe : ExposedFunctionDefinition :=
  {| f_name := "wipe";
     f_description := "Not for other skills";
     f_visibility := [];
     parameters := [("type", JStr "object"); ("properties", JObj [])];
     returns := [];
     f_handler := Fn 7 |}.

Definition private_server : Server :=
  {| _hooks := None;
     _exposed_data := [ ("secret", secret) ];
     _exposed_functions := [ ("wipe", wipe) ] |}.

(** A host that is down: every collaborator call raises. *)
Definition host_down : Exn := mkExn "RuntimeError" "host unreachable".

(** What the callables of the doubles return. *)
Definition answers (f : Callable) (args : list Json) : Outcome Json :=
  match f with
  | Fn 1 => Ok (JObj [("count", JNum 0); ("notes", JList [])])
  | Fn 2 => Ok (JObj [ ("configured", JBool false); ("username", JNull);
                       ("tick_count", JNum 0) ])
  | Fn 3 => Ok (JObj [ ("note_id", JStr "note_1");
                       ("title",
                        match args with
                        | [a] => match a with
                                 | JObj kv => dict_get_default "title" (JStr "Untitled") kv
                                 | _ => JStr "Untitled"
                                 end
                        | _ => JStr "Untitled"
                        end) ])
  | Fn 4 | Fn 5 => Ok JNull
  | Fn 6 => Ok (JObj [("token", JStr "s3cr3t")])
  | Fn 7 => Ok (JObj [("wiped", JBool true)])
  | Fn 8 => Ok (JObj [("short", JNum 1)])
  | Fn 9 => Ok (JObj [("ok", JBool true)])
  | Fn 30 => Ok JNull
  | Fn 31 => Ok (nth 0 args JNull)
  | _ => Raised (mkExn "RuntimeError" "handler failed")
  end.

(** What the callables of the doubles make of their arguments: hook 30
    writes into the params it is passed, the others leave everything as it
    is. *)
Definition leaves (f : Callable) (args : list Json) : list Json :=
  match f, args with
  | Fn 30, [caller; name; JObj kv] =>
      [caller; name; JObj (dict_set "injected" (JBool true) kv)]
  | _, _ => args
  end.

(** The hooks of the kitchen-sink skill defer, the handlers answer on a
    fresh store, the host is down. *)
Definition env : Env :=
  {| create_context := fun h => Context (length h);
     call := fun f _ args _ => (answers f args, leaves f args);
     list_skills := fun _ => Raised host_down;
     list_exposed_data := fun _ _ => Raised host_down;
     list_exposed_functions := fun _ _ => Raised host_down;
     request_skill_data := fun _ _ _ _ => Raised host_down;
     call_skill_function := fun _ _ _ _ => Raised host_down;
     json_dumps := fun j => match j with
                            | JNull => Ok "null"
                            | JList [] => Ok "[]"
                            | _ => Ok "{}"
                            end |}.


(** A skill whose hooks write into the params and the arguments they are
    passed and return [None], in front of a handler that returns what it
    is passed. *)
Definition echo : ExposedDataDefinition :=
  {| d_name := "echo";
     d_description := "Returns its params";
     d_visibility := [skills];
     schema_ := [];
     d_handler := Fn 31 |}.

Definition echo_function : ExposedFunctionDefinition :=
  {| f_name := "echo";
     f_description := "Returns its arguments";
     f_visibility := [skills];
     parameters := [("type", JStr "object"); ("properties", JObj [])];
     returns := [];
     f_handler := Fn 31 |}.

Definition rewriting_server : Server :=
  {| _hooks := Some {| on_interop_data := Some (Fn 30); on_interop_call := Some (Fn 30) |};
     _exposed_data := [ ("echo", echo) ];
     _exposed_functions := [ ("echo", echo_function) ] |}.

(** Scenario of the spec: one data endpoint ["status"] whose handler
    returns [{"ok": true}]. *)
Definition status : ExposedDataDefinition :=
  {| d_name := "status";
     d_description := "";
     d_visibility := [skills];
     schema_ := [];
     d_handler := Fn 9 |}.

Definition status_server : Server :=
  {| _hooks := None;
     _exposed_data := [ ("status", status) ];
     _exposed_functions := [] |}.

(** Scenario of the spec: function ["add-note"] behind a call-hook that
    always returns [{"short": 1}]. *)
Definition short_server : Server :=
  {| _hooks := Some {| on_interop_data := Some (Fn 8); on_interop_call := Some (Fn 8) |};
     _exposed_data := [ ("status", status) ];
     _exposed_functions := [ ("add-note", KitchenSink.add_note) ] |}.

(** A data endpoint whose declared schema describes a property that is
    itself called ["handler"]. *)
Definition event_log : ExposedDataDefinition :=
  {| d_name := "event-log";
     d_description := "Events and the handler that took each of them";
     d_visibility := [skills];
     schema_ :=
       [ ("type", JStr "object");
         ("properties",
          JObj [ ("event", KitchenSink.type_only "string");
                 ("handler", KitchenSink.type_only "string") ]) ];
     d_handler := Fn 10 |}.

Definition event_log_server : Server :=
  {| _hooks := None;
     _exposed_data := [ ("event-log", event_log) ];
     _exposed_functions := [] |}.

(** Two declarations of one name. *)
Definition status_again : ExposedDataDefinition :=
  {| d_name := "status";
     d_description := "A second endpoint under the same name";
     d_visibility := [];
     schema_ := [];
     d_handler := Fn 11 |}.

Definition add_note_again : ExposedFunctionDefinition :=
  {| f_name := "add-note";
     f_description := "A second function under the same name";
     f_visibility := [];
     parameters := [("type", JStr "object"); ("properties", JObj [])];
     returns := [];
     f_handler := Fn 12 |}.

End Doubles.

(** ** Further observations: the discovery payload and the tools, read back *)

(** The contexts created during a run. *)
Definition contexts_created (evs : list Event) : list Ctx :=
  flat_map (fun ev => match ev with
                      | EvCreateContext c => [c]
                      | _ => []
                      end) evs.

(** The hook consultations of a run. *)
Definition hook_calls (evs : list Event) : list Event :=
  filter (fun ev => match ev with
                    | EvOnInteropData _ _ _ _ _ | EvOnInteropCall _ _ _ _ _ => true
                    | _ => false
                    end) evs.

(** The calls to the host collaborator among the events of a run. *)
Definition collaborator_calls (evs : list Event) : list Event :=
  filter (fun ev => match ev with
                    | EvListSkills | EvListExposedData _ | EvListExposedFunctions _
                    | EvRequestSkillData _ _ _ | EvCallSkillFunction _ _ _ => true
                    | _ => false
                    end) evs.

(** The names that the entries of a discovery list carry, as a reader of
    the payload finds them. *)
Definition entry_names (entries : list Json) : list string :=
  flat_map (fun entry => match entry with
                         | JObj kv => match dict_get "name" kv with
                                      | Some (JStr n) => [n]
                                      | _ => []
                                      end
                         | _ => []
                         end) entries.

(** The names listed under field [field] of a [listExposed] payload. *)
Definition listed_names (field : string) (payload : Json) : list string :=
  match payload with
  | JObj kv => match dict_get field kv with
               | Some (JList entries) => entry_names entries
               | _ => []
               end
  | _ => []
  end.

(** A data registry whose every entry sits under its own name. *)
Definition data_keyed_by_name (reg : Dict ExposedDataDefinition) : Prop :=
  Forall (fun kv => fst kv = d_name (snd kv)) reg.

(** A function registry whose every entry sits under its own name. *)
Definition functions_keyed_by_name (reg : Dict ExposedFunctionDefinition) : Prop :=
  Forall (fun kv => fst kv = f_name (snd kv)) reg.

(** The argument names a tool definition declares as required. *)
Definition required_arguments (td : ToolDefinition) : list string :=
  match td_parameters td with
  | JObj kv => match dict_get "required" kv with
               | Some (JList names) =>
                   flat_map (fun n => match n with JStr s => [s] | _ => [] end) names
               | _ => []
               end
  | _ => []
  end.

(** The argument names a tool definition declares at all. *)
Definition declared_arguments (td : ToolDefinition) : list string :=
  match td_parameters td with
  | JObj kv => match dict_get "properties" kv with
               | Some (JObj props) => dict_keys props
               | _ => []
               end
  | _ => []
  end.

(** What the definition of a tool promises of its executor. *)
Definition tool_consistent (name : string) (tool : SkillTool) : Prop :=
  td_name (definition tool) = name
  /\ (forall a, In a (required_arguments (definition tool)) ->
                In a (declared_arguments (definition tool)))
  /\ (forall a args h,
         In a (required_arguments (definition tool)) ->
         dict_get a args = None ->
         exists msg, execute tool args h = (Ok {| content := msg; is_error := true |}, []))
  /\ (forall args h,
         (forall a, In a (required_arguments (definition tool)) ->
                    truthy (dict_get_default a JNull args) = true) ->
         length (collaborator_calls (snd (execute tool args h))) = 1%nat).

(** A host that answers. *)
Module Online.

Definition skills_listing : Json :=
  JList [ JObj [ ("id", JStr "notes"); ("name", JStr "Notes");
                 ("description", JStr "Keeps notes"); ("version", JStr "1.0.0");
                 ("online", JBool true) ] ].

(** Every collaborator call returns, but the request for the data named
    "cancelled", during which the task is cancelled; [json.dumps] fails on
    the number 13 only, which stands for a value that has no JSON form. *)
Definition env : Env :=
  {| create_context := fun h => Context (length h);
     call := call Doubles.env;
     list_skills := fun _ => Ok skills_listing;
     list_exposed_data := fun skill_id _ => Ok (JList [skill_id]);
     list_exposed_functions := fun skill_id _ => Ok (JList [skill_id; skill_id]);
     request_skill_data := fun _ data_name params _ =>
       match data_name with
       | JStr "unserialisable" => Ok (JNum 13)
       | JStr "cancelled" => Raised CancelledError
       | _ => Ok (JObj [("asked", data_name); ("with", params)])
       end;
     call_skill_function := fun _ function_name arguments _ =>
       Ok (JObj [("called", function_name); ("with", arguments)]);
     json_dumps := fun j =>
       match j with
       | JNum 13 => Raised (TypeError "Object of type set is not JSON serializable")
       | JList [] => Ok "[]"
       | JList _ => Ok "[...]"
       | JObj _ => Ok "{...}"
       | _ => Ok "null"
       end |}.

(** A skill whose hooks raise. *)
Definition failing_hooks_server : Server :=
  {| _hooks := Some {| on_interop_data := Some (Fn 20); on_interop_call := Some (Fn 20) |};
     _exposed_data := _exposed_data (KitchenSink.server None);
     _exposed_functions := _exposed_functions (KitchenSink.server None) |}.

(** The kitchen-sink data registry next to other functions and another
    call-hook. *)
Definition other_functions_server : Server :=
  {| _hooks := Some {| on_interop_data := Some KitchenSink.on_interop_data_hook;
                       on_interop_call := Some (Fn 8) |};
     _exposed_data := _exposed_data (KitchenSink.server None);
     _exposed_functions := [ ("wipe", Doubles.wipe) ] |}.

End Online.

(** ** The skill context, as the kitchen-sink skill uses it *)

(** A value a tool finds among its arguments: a JSON value or the context
    object that the runtime puts under ["__context__"]. *)
Inductive Arg : Type :=
| Value (j : Json)
| ContextObject.

(** The calls a handler or a tool makes on its context. *)
Inductive CtxEvent : Type :=
| CtxGetState
| CtxSetState (partial : Json)
| CtxWriteData (filename content : string)
| CtxSkillsListSkills
| CtxSkillsListData
| CtxSkillsListFunctions
| CtxSkillsRequestData (skill_id : Arg) (data_name : string).

(** What answers behind the context: the state store, the data directory
    and the skills manager, then the clock and the two library functions
    the skill calls.  Every answer may depend on the calls made before. *)
Record ContextOps : Type := {
  get_state : list CtxEvent -> Outcome Json;
  set_state : Json -> list CtxEvent -> Outcome unit;
  write_data : string -> string -> list CtxEvent -> Outcome unit;
  skills_list_skills : list CtxEvent -> Outcome Json;
  skills_list_data : list CtxEvent -> Outcome Json;
  skills_list_functions : list CtxEvent -> Outcome Json;
  skills_request_data : Arg -> string -> list CtxEvent -> Outcome Json;
  (* datetime.now(UTC).isoformat() *)
  now_isoformat : list CtxEvent -> string;
  (* json.dumps(value, indent=2) *)
  dumps : Json -> Outcome string;
  (* str(value), for a value that is not a string *)
  str_of : Arg -> string
}.

(** Coroutines over the context: history in, outcome and new calls out. *)
Definition Co (A : Type) : Type := list CtxEvent -> Outcome A * list CtxEvent.

Definition co_ret {A : Type} (a : A) : Co A := fun _ => (Ok a, []).

Definition co_bind {A B : Type} (m : Co A) (k : A -> Co B) : Co B :=
  fun h =>
    match m h with
    | (Ok a, evs) =>
        let '(r, evs') := k a (h ++ evs) in (r, evs ++ evs')
    | (Raised e, evs) => (Raised e, evs)
    end.

(** [try: body  except Exception as e: handler e]: an exception that does
    not derive from [Exception] is not caught. *)
Definition co_try {A : Type} (body : Co A) (handler : Exn -> Co A) : Co A :=
  fun h =>
    match body h with
    | (Ok a, evs) => (Ok a, evs)
    | (Raised e, evs) =>
        if derives_Exception e then
          let '(r, evs') := handler e (h ++ evs) in (r, evs ++ evs')
        else (Raised e, evs)
    end.

Definition co_perform {A : Type} (answer : list CtxEvent -> Outcome A) (ev : CtxEvent)
    : Co A :=
  fun h => (answer h, [ev]).

Definition co_lift {A : Type} (o : Outcome A) : Co A := fun _ => (o, []).

(** Reading the clock: no call on the context. *)
Definition co_read {A : Type} (f : list CtxEvent -> A) : Co A := fun h => (Ok (f h), []).

Declare Scope ctx_scope.
Delimit Scope ctx_scope with ctx.
Notation "x <~ m ;; k" := (co_bind m (fun x => k))
  (at level 100, m at next level, right associativity) : ctx_scope.
Open Scope ctx_scope.

(** The name of the type of a value, as error messages print it. *)
Definition type_name (j : Json) : string :=
  match j with
  | JNull => "NoneType"
  | JBool _ => "bool"
  | JNum _ => "int"
  | JStr _ => "str"
  | JList _ => "list"
  | JObj _ => "dict"
  end.

Definition AttributeError (j : Json) (attribute : string) : Exn :=
  mkExn "AttributeError"
        ("'" ++ type_name j ++ "' object has no attribute '" ++ attribute ++ "'")%string.

(** [x or default] *)
Definition py_or (x default : Json) : Json := if truthy x then x else default.

(** [obj.get(key, default)]: only a dict has the method. *)
Definition py_get (obj : Json) (key : string) (default : Json) : Outcome Json :=
  match obj with
  | JObj kv => Ok (dict_get_default key default kv)
  | _ => Raised (AttributeError obj "get")
  end.

(** Whether a byte of a UTF-8 text continues a character begun before
    it: the bytes [10xxxxxx]. *)
Definition continues_character (c : ascii) : bool :=
  match c with
  | Ascii _ _ _ _ _ _ b6 b7 => b7 && negb b6
  end.

(** The number of characters of a text held in UTF-8: the bytes that
    begin a character. *)
Fixpoint characters (s : string) : nat :=
  match s with
  | EmptyString => 0
  | String c s' => (if continues_character c then 0 else 1) + characters s'
  end.

(** [len(x)]; the length of a string is its number of characters. *)
Definition py_len (x : Json) : Outcome nat :=
  match x with
  | JStr s => Ok (characters s)
  | JList l => Ok (length l)
  | JObj kv => Ok (length kv)
  | _ => Raised (TypeError ("object of type '" ++ type_name x ++ "' has no len()")%string)
  end.

(** [lst.append(item)]: only a list has the method; the list comes back
    with the item at its end. *)
Definition py_append (lst item : Json) : Outcome Json :=
  match lst with
  | JList l => Ok (JList (l ++ [item]))
  | _ => Raised (AttributeError lst "append")
  end.

(** How an f-string renders an argument. *)
Definition format_arg (ops : ContextOps) (a : Arg) : string :=
  match a with
  | Value (JStr s) => s
  | _ => str_of ops a
  end.

(** Truth value of an argument: an object is true. *)
Definition arg_truthy (a : Arg) : bool :=
  match a with
  | Value j => truthy j
  | ContextObject => true
  end.

(** [examples/kitchen-sink/interop.py]: the handlers behind the exposed
    endpoints. *)
Module Handlers.

Definition _get_notes_summary (ops : ContextOps) (params : Json) : Co Json :=
  got <~ co_perform (get_state ops) CtxGetState;;
  let state := py_or got (JObj []) in
  notes <~ co_lift (py_get state "notes_index" (JList []));;
  count <~ co_lift (py_len notes);;
  co_ret (JObj [("count", JNum (Z.of_nat count)); ("notes", notes)]).

Definition _get_status (ops : ContextOps) (params : Json) : Co Json :=
  got <~ co_perform (get_state ops) CtxGetState;;
  let state := py_or got (JObj []) in
  config <~ co_lift (py_get state "config" JNull);;
  username <~ (if truthy config then co_lift (py_get config "username" JNull)
               else co_ret JNull);;
  tick_count <~ co_lift (py_get state "tick_count" (JNum 0));;
  co_ret (JObj [ ("configured", JBool (negb (is_None config)));
                 ("username", username);
                 ("tick_count", tick_count) ]).

Definition _add_note (ops : ContextOps) (args : Json) : Co Json :=
  title <~ co_lift (py_get args "title" (JStr "Untitled"));;
  body <~ co_lift (py_get args "body" (JStr ""));;
  got <~ co_perform (get_state ops) CtxGetState;;
  let state := py_or got (JObj []) in
  notes <~ co_lift (py_get state "notes_index" (JList []));;
  count <~ co_lift (py_len notes);;
  let note_id := ("note_" ++ py_str (HNum (Z.of_nat count + 1)))%string in
  created_at <~ co_read (now_isoformat ops);;
  let note := JObj [ ("id", JStr note_id); ("title", title); ("body", body);
                     ("created_at", JStr created_at) ] in
  text <~ co_lift (dumps ops note);;
  _ <~ co_perform (write_data ops (note_id ++ ".json")%string text)
                  (CtxWriteData (note_id ++ ".json")%string text);;
  notes <~ co_lift (py_append notes (JObj [("id", JStr note_id); ("title", title)]));;
  _ <~ co_perform (set_state ops (JObj [("notes_index", notes)]))
                  (CtxSetState (JObj [("notes_index", notes)]));;
  co_ret (JObj [("note_id", JStr note_id); ("title", title)]).

End Handlers.

(** [examples/kitchen-sink/tools/interop.py] *)
Module Tools.

(** [args.pop("__context__")]: the value under the key, which must be
    there. *)
Definition pop_context (args : Dict Arg) : Outcome Arg :=
  match dict_get "__context__" args with
  | Some ctx => Ok ctx
  | None => Raised (mkExn "KeyError" "'__context__'")
  end.

(** [ctx.skills]: an attribute of the context object only. *)
Definition skills_of (ctx : Arg) : Outcome unit :=
  match ctx with
  | ContextObject => Ok tt
  | Value j => Raised (AttributeError j "skills")
  end.

Definition execute_check_skill_status (ops : ContextOps) (args : Dict Arg) : Co ToolResult :=
  ctx <~ co_lift (pop_context args);;
  let skill_id := dict_get_default "skill_id" (Value (JStr "")) args in
  if negb (arg_truthy skill_id) then
    co_ret {| content := "skill_id is required"; is_error := true |}
  else
    co_try
      (_ <~ co_lift (skills_of ctx);;
       result <~ co_perform (skills_request_data ops skill_id "connection-status")
                            (CtxSkillsRequestData skill_id "connection-status");;
       text <~ co_lift (dumps ops result);;
       co_ret {| content := text; is_error := false |})
      (fun e =>
         co_ret {| content := ("Failed to get status from '" ++ format_arg ops skill_id
                               ++ "': " ++ exn_text e)%string;
                   is_error := true |}).

Definition execute_discover_skills (ops : ContextOps) (args : Dict Arg) : Co ToolResult :=
  ctx <~ co_lift (pop_context args);;
  co_try
    (_ <~ co_lift (skills_of ctx);;
     skills <~ co_perform (skills_list_skills ops) CtxSkillsListSkills;;
     data_endpoints <~ co_perform (skills_list_data ops) CtxSkillsListData;;
     functions <~ co_perform (skills_list_functions ops) CtxSkillsListFunctions;;
     let summary := JObj [ ("skills", skills);
                           ("available_data_endpoints", data_endpoints);
                           ("available_functions", functions) ] in
     text <~ co_lift (dumps ops summary);;
     co_ret {| content := text; is_error := false |})
    (fun e =>
       co_ret {| content := ("Discovery failed: " ++ exn_text e)%string;
                 is_error := true |}).

End Tools.


(** A context over a store kept in memory. *)
Module Store.

(** The state is what the last update carried, [None] before any. *)
Fixpoint last_state (current : Json) (h : list CtxEvent) : Json :=
  match h with
  | [] => current
  | CtxSetState s :: h' => last_state s h'
  | _ :: h' => last_state current h'
  end.

(** Skill ["ghost"] is not known to the skills manager, and the disk is
    full for a note called ["note_3.json"]; all else goes well. *)
Definition ops (initial : Json) : ContextOps :=
  {| get_state := fun h => Ok (last_state initial h);
     set_state := fun _ _ => Ok tt;
     write_data := fun filename _ _ =>
       if String.eqb filename "note_3.json"
       then Raised (mkExn "OSError" "No space left on device")
       else Ok tt;
     skills_list_skills := fun _ => Ok (JList [JStr "notes"]);
     skills_list_data := fun _ => Raised (mkExn "RuntimeError" "host unreachable");
     skills_list_functions := fun _ => Ok (JList []);
     skills_request_data := fun skill_id _ _ =>
       match skill_id with
       | Value (JStr "ghost") => Raised (mkExn "ValueError" "Unknown skill: ghost")
       | _ => Ok (JObj [("configured", JBool true)])
       end;
     now_isoformat := fun _ => "2026-01-01T00:00:00+00:00";
     dumps := fun j => match j with
                       | JObj _ => Ok "{...}"
                       | _ => Ok "null"
                       end;
     str_of := fun _ => "<object>" |}.

(** A store with two notes. *)
Definition two_notes : Json :=
  JObj [ ("notes_index",
          JList [ JObj [("id", JStr "note_1"); ("title", JStr "a")];
                  JObj [("id", JStr "note_2"); ("title", JStr "b")] ]);
         ("tick_count", JNum 7) ].

(** A store whose config is an empty object. *)
Definition empty_config : Json := JObj [("config", JObj [])].

(** The letter e with an acute accent (U+00E9) as Python's [str] holds it
    in UTF-8: one character, the two bytes C3 A9. *)
Definition e_acute : string :=
  String (Ascii.ascii_of_nat 195) (String (Ascii.ascii_of_nat 169) EmptyString).

(** A store whose notes index is a text, as another writer of the state
    may have left it. *)
Definition text_index : Json := JObj [("notes_index", JStr e_acute)].

(** The same context when the host is reachable: the skills manager
    answers every call. *)
Definition reachable (initial : Json) : ContextOps :=
  {| get_state := get_state (ops initial);
     set_state := set_state (ops initial);
     write_data := write_data (ops initial);
     skills_list_skills := skills_list_skills (ops initial);
     skills_list_data := fun _ => Ok (JList [JStr "connection-status"]);
     skills_list_functions := skills_list_functions (ops initial);
     skills_request_data := skills_request_data (ops initial);
     now_isoformat := now_isoformat (ops initial);
     dumps := dumps (ops initial);
     str_of := str_of (ops initial) |}.

(** The same context when the task is cancelled while it waits for the
    skills manager. *)
Definition cancelled (initial : Json) : ContextOps :=
  {| get_state := get_state (ops initial);
     set_state := set_state (ops initial);
     write_data := write_data (ops initial);
     skills_list_skills := skills_list_skills (ops initial);
     skills_list_data := fun _ => Raised CancelledError;
     skills_list_functions := skills_list_functions (ops initial);
     skills_request_data := fun _ _ _ => Raised CancelledError;
     now_isoformat := now_isoformat (ops initial);
     dumps := dumps (ops initial);
     str_of := str_of (ops initial) |}.

End Store.

(** ** Proof steps *)

Ltac run_coroutine :=
  unfold bind, perform, new_context, await_call, lift, ret, raise, try_except, dumped;
  cbn -[String.append]; rewrite ?app_nil_r.

(** A property of every event of a list written out: the events it does
    not bear on are dealt with, the others are left. *)
Ltac each_event :=
  repeat (apply Forall_cons; [cbn; try solve [intros ? [=]] |]); try apply Forall_nil.

(** A run on a skill context, unfolded. *)
Ltac run_context :=
  unfold co_bind, co_perform, co_lift, co_ret, co_try, co_read;
  cbn -[String.append py_str]; rewrite ?app_nil_r.

Ltac run_context_in H :=
  unfold co_bind, co_perform, co_lift, co_ret, co_try, co_read in H;
  cbn -[String.append py_str] in H; rewrite ?app_nil_r in H.

(** A run of add-note that stopped before it wrote anything. *)
Ltac stopped_early a :=
  split;
  [ first [ exists "", "", JNull; right; left; reflexivity
          | eexists _, _, JNull; right; right; left; reflexivity ]
  | split;
    [ intros update Hin; exfalso; cbn in Hin; intuition discriminate
    | intros Hnot; exfalso; exact (Hnot a eq_refl) ] ].

(** ** Dictionaries and registries *)

Lemma dict_get_map_values {V W : Type} (g : V -> W) (k : string) (d : Dict V) :
  dict_get k (map (fun kv => (fst kv, g (snd kv))) d) = option_map g (dict_get k d).
Proof.
  induction d as [| [k' v] d IH]; cbn; [reflexivity |].
  destruct (String.eqb k' k); [reflexivity | exact IH].
Qed.

Lemma registry_get_map_values {V W : Type} (g : V -> W) (k : Hashable) (d : Dict V) :
  registry_get k (map (fun kv => (fst kv, g (snd kv))) d) = option_map g (registry_get k d).
Proof.
  destruct k; cbn; try reflexivity. apply dict_get_map_values.
Qed.

Lemma dict_values_map_values {V W : Type} (g : V -> W) (d : Dict V) :
  dict_values (map (fun kv => (fst kv, g (snd kv))) d) = map g (dict_values d).
Proof.
  unfold dict_values. rewrite !map_map. reflexivity.
Qed.

Lemma dict_get_default_absent {V : Type} (k : string) (default : V) (d : Dict V) :
  dict_get k d = None -> dict_get_default k default d = default.
Proof.
  unfold dict_get_default. intros ->. reflexivity.
Qed.

Lemma dict_get_default_present {V : Type} (k : string) (default v : V) (d : Dict V) :
  dict_get k d = Some v -> dict_get_default k default d = v.
Proof.
  unfold dict_get_default. intros ->. reflexivity.
Qed.



(** ** The objects a hook is passed *)

(** An object keeps its kind, so that it is looked up, or fails to be, as
    before. *)
Lemma hash_key_left_as (before after : Json) :
  hash_key (left_as before after) = hash_key before.
Proof.
  destruct before, after; reflexivity.
Qed.

(** A string is left as it is. *)
Lemma left_as_string (s : string) (after : Json) : left_as (JStr s) after = JStr s.
Proof.
  destruct after; reflexivity.
Qed.

(** A dict is left a dict. *)
Lemma left_as_dict (kv : Dict Json) (after : Json) :
  exists kv', left_as (JObj kv) after = JObj kv'.
Proof.
  destruct after; eexists; reflexivity.
Qed.

Lemma data_registry_run_name env server before after request_params h :
  data_registry_run env server (left_as before after) request_params h
  = data_registry_run env server before request_params h.
Proof.
  unfold data_registry_run. rewrite hash_key_left_as. reflexivity.
Qed.

Lemma function_registry_run_name env server before after arguments h :
  function_registry_run env server (left_as before after) arguments h
  = function_registry_run env server before arguments h.
Proof.
  unfold function_registry_run. rewrite hash_key_left_as. reflexivity.
Qed.

Lemma data_params_without_hook env server params h :
  data_hook server = None ->
  data_params_after_hook env server params h = dict_get_default "params" (JObj []) params.
Proof.
  unfold data_params_after_hook, data_hook_left. intros ->.
  unfold argument_after. cbn. destruct (dict_get_default "params" (JObj []) params); reflexivity.
Qed.

Lemma call_arguments_without_hook env server params h :
  call_hook server = None ->
  call_arguments_after_hook env server params h
  = dict_get_default "arguments" (JObj []) params.
Proof.
  unfold call_arguments_after_hook, call_hook_left. intros ->.
  unfold argument_after. cbn.
  destruct (dict_get_default "arguments" (JObj []) params); reflexivity.
Qed.





(** ** How a run is made up *)

Lemma handler_calls_app (a b : list Event) :
  handler_calls (a ++ b) = handler_calls a ++ handler_calls b.
Proof.
  unfold handler_calls. apply flat_map_app.
Qed.

Lemma data_hook_events_no_handler env server params h :
  handler_calls (data_hook_events env server params h) = [].
Proof.
  unfold data_hook_events. destruct (data_hook server); reflexivity.
Qed.

Lemma call_hook_events_no_handler env server params h :
  handler_calls (call_hook_events env server params h) = [].
Proof.
  unfold call_hook_events. destruct (call_hook server); reflexivity.
Qed.

(** With no data-hook, getData is the registry path on the request. *)
Lemma get_data_registry_path env server params h :
  data_hook server = None ->
  handle_get_data env server params h
  = data_registry_run env server
      (dict_get_default "dataName" (JStr "") params)
      (dict_get_default "params" (JObj []) params) h.
Proof.
  intros Hhook. unfold handle_get_data, data_registry_run. rewrite Hhook. run_coroutine.
  destruct (hash_key _) as [key | e]; [| reflexivity].
  destruct (registry_get key (_exposed_data server)) as [endpoint |]; [| reflexivity].
  cbn. destruct (call env (d_handler endpoint) _ _ _) as [[r | e] left]; reflexivity.
Qed.

(** With no call-hook, callFunction is the registry path on the request. *)
Lemma call_function_registry_path env server params h :
  call_hook server = None ->
  handle_call_function env server params h
  = function_registry_run env server
      (dict_get_default "functionName" (JStr "") params)
      (dict_get_default "arguments" (JObj []) params) h.
Proof.
  intros Hhook. unfold handle_call_function, function_registry_run. rewrite Hhook.
  run_coroutine.
  destruct (hash_key _) as [key | e]; [| reflexivity].
  destruct (registry_get key (_exposed_functions server)) as [func |]; [| reflexivity].
  cbn. destruct (call env (f_handler func) _ _ _) as [[r | e] left]; reflexivity.
Qed.

(** getData, by what the hook answers: after a hook that returned [None],
    the registry path runs on the name of the request and on the params
    as the hook left them. *)
Lemma get_data_by_hook_answer env server params h :
  handle_get_data env server params h
  = let consulted := data_hook_events env server params h in
    match data_hook_answer env server params h with
    | None =>
        data_registry_run env server
          (dict_get_default "dataName" (JStr "") params)
          (dict_get_default "params" (JObj []) params) h
    | Some (Raised e) => (Raised e, consulted)
    | Some (Ok v) =>
        if is_None v then
          let after :=
            data_registry_run env server
              (dict_get_default "dataName" (JStr "") params)
              (data_params_after_hook env server params h) (h ++ consulted) in
          (fst after, consulted ++ snd after)
        else (Ok (data_response v), consulted)
    end.
Proof.
  cbv zeta. unfold data_hook_answer, data_hook_events.
  destruct (data_hook server) as [hook |] eqn:Hhook;
    [| apply get_data_registry_path; exact Hhook].
  unfold data_params_after_hook, data_hook_left. rewrite Hhook. cbv zeta.
  rewrite <- (data_registry_run_name env server
                (dict_get_default "dataName" (JStr "") params)
                (nth 1 (snd (call env hook (create_context env h) (data_hook_arguments params)
                                  (h ++ [EvCreateContext (create_context env h)])))
                     (dict_get_default "dataName" (JStr "") params))).
  unfold handle_get_data, data_registry_run, data_hook_arguments. rewrite Hhook.
  run_coroutine.
  destruct (call env hook _ _ _) as [[v | e] left]; cbn [fst snd]; [| reflexivity].
  destruct (is_None v); [| reflexivity].
  change (argument_after ?p left 1) with (left_as (nth 1 p JNull) (nth 1 left (nth 1 p JNull))).
  cbn [nth].
  destruct (hash_key _) as [key | e]; [| reflexivity].
  destruct (registry_get key (_exposed_data server)) as [endpoint |]; [| reflexivity].
  cbn. rewrite <- !app_assoc. cbn.
  destruct (call env (d_handler endpoint) _ _ _) as [[r | e] left']; reflexivity.
Qed.

(** callFunction, by what the hook answers. *)
Lemma call_function_by_hook_answer env server params h :
  handle_call_function env server params h
  = let consulted := call_hook_events env server params h in
    match call_hook_answer env server params h with
    | None =>
        function_registry_run env server
          (dict_get_default "functionName" (JStr "") params)
          (dict_get_default "arguments" (JObj []) params) h
    | Some (Raised e) => (Raised e, consulted)
    | Some (Ok v) =>
        if is_None v then
          let after :=
            function_registry_run env server
              (dict_get_default "functionName" (JStr "") params)
              (call_arguments_after_hook env server params h) (h ++ consulted) in
          (fst after, consulted ++ snd after)
        else (Ok (data_response v), consulted)
    end.
Proof.
  cbv zeta. unfold call_hook_answer, call_hook_events.
  destruct (call_hook server) as [hook |] eqn:Hhook;
    [| apply call_function_registry_path; exact Hhook].
  unfold call_arguments_after_hook, call_hook_left. rewrite Hhook. cbv zeta.
  rewrite <- (function_registry_run_name env server
                (dict_get_default "functionName" (JStr "") params)
                (nth 1 (snd (call env hook (create_context env h) (call_hook_arguments params)
                                  (h ++ [EvCreateContext (create_context env h)])))
                     (dict_get_default "functionName" (JStr "") params))).
  unfold handle_call_function, function_registry_run, call_hook_arguments. rewrite Hhook.
  run_coroutine.
  destruct (call env hook _ _ _) as [[v | e] left]; cbn [fst snd]; [| reflexivity].
  destruct (is_None v); [| reflexivity].
  change (argument_after ?p left 1) with (left_as (nth 1 p JNull) (nth 1 left (nth 1 p JNull))).
  cbn [nth].
  destruct (hash_key _) as [key | e]; [| reflexivity].
  destruct (registry_get key (_exposed_functions server)) as [func |]; [| reflexivity].
  cbn. rewrite <- !app_assoc. cbn.
  destruct (call env (f_handler func) _ _ _) as [[r | e] left']; reflexivity.
Qed.

(** ** The fall-through path, on its own *)

(** Dispatch with no hook object is the registry path alone. *)
Lemma get_data_without_hook env server params h :
  data_hook server = None ->
  handle_get_data env server params h
  = handle_get_data env (without_hooks server) params h.
Proof.
  intros Hk. unfold handle_get_data. rewrite Hk. reflexivity.
Qed.

Lemma call_function_without_hook env server params h :
  call_hook server = None ->
  handle_call_function env server params h
  = handle_call_function env (without_hooks server) params h.
Proof.
  intros Hk. unfold handle_call_function. rewrite Hk. reflexivity.
Qed.

Lemma data_registry_run_visibility env f server data_name request_params h :
  data_registry_run env (map_visibility f server) data_name request_params h
  = data_registry_run env server data_name request_params h.
Proof.
  unfold data_registry_run.
  destruct (hash_key data_name) as [key | e]; [| reflexivity].
  change (_exposed_data (map_visibility f server))
    with (map (fun kv => (fst kv, data_with_visibility f (snd kv))) (_exposed_data server)).
  rewrite (registry_get_map_values (data_with_visibility f)).
  destruct (registry_get key (_exposed_data server)); reflexivity.
Qed.

Lemma function_registry_run_visibility env f server function_name arguments h :
  function_registry_run env (map_visibility f server) function_name arguments h
  = function_registry_run env server function_name arguments h.
Proof.
  unfold function_registry_run.
  destruct (hash_key function_name) as [key | e]; [| reflexivity].
  change (_exposed_functions (map_visibility f server))
    with (map (fun kv => (fst kv, function_with_visibility f (snd kv)))
              (_exposed_functions server)).
  rewrite (registry_get_map_values (function_with_visibility f)).
  destruct (registry_get key (_exposed_functions server)); reflexivity.
Qed.

(** ** Visibility at inbound dispatch *)

(** C1, as the code has it: inbound dispatch of getData and of
    callFunction looks the requested capability up by name only.  The
    outcome and the calls made are the same whatever the visibility sets of
    the registry are, so the set is not consulted, and a capability whose
    visibility set is empty is reached like any other. *)
Theorem dispatch_ignores_visibility :
  forall (env : Env) (f : Visibility -> Visibility) (server : Server)
         (params : Dict Json) (h : Trace),
    handle_get_data env (map_visibility f server) params h
    = handle_get_data env server params h
    /\ handle_call_function env (map_visibility f server) params h
       = handle_call_function env server params h.
Proof.
  intros env f server params h. split.
  - rewrite !get_data_by_hook_answer. cbv zeta.
    change (data_hook_answer env (map_visibility f server) params h)
      with (data_hook_answer env server params h).
    change (data_hook_events env (map_visibility f server) params h)
      with (data_hook_events env server params h).
    change (data_params_after_hook env (map_visibility f server) params h)
      with (data_params_after_hook env server params h).
    rewrite !data_registry_run_visibility. reflexivity.
  - rewrite !call_function_by_hook_answer. cbv zeta.
    change (call_hook_answer env (map_visibility f server) params h)
      with (call_hook_answer env server params h).
    change (call_hook_events env (map_visibility f server) params h)
      with (call_hook_events env server params h).
    change (call_arguments_after_hook env (map_visibility f server) params h)
      with (call_arguments_after_hook env server params h).
    rewrite !function_registry_run_visibility. reflexivity.
Qed.

(** C1, as the spec states it, fails: the registry holds a data endpoint
    and a function whose visibility sets are empty, no hook is registered,
    and an inbound request of any caller reaches both handlers. *)
Lemma private_capability_reached :
  d_visibility Doubles.secret = []
  /\ f_visibility Doubles.wipe = []
  /\ handle_get_data Doubles.env Doubles.private_server
       [("callerSkillId", JStr "intruder"); ("dataName", JStr "secret")] []
     = (Ok (data_response (JObj [("token", JStr "s3cr3t")])),
        [EvCreateContext (Context 0); EvHandler (Fn 6) (Context 0) (JObj [])])
  /\ handle_call_function Doubles.env Doubles.private_server
       [("callerSkillId", JStr "intruder"); ("functionName", JStr "wipe")] []
     = (Ok (data_response (JObj [("wiped", JBool true)])),
        [EvCreateContext (Context 0); EvHandler (Fn 7) (Context 0) (JObj [])]).
Proof.
  repeat split.
Qed.

(** ** Dispatch to a registered data endpoint *)

(** C2: with no data-hook registered, getData for the name of a registered
    data endpoint E makes exactly one handler invocation, of E's handler,
    with the context created for the request and the request's params; it
    returns [{"data": r}] when the handler returns r (and fails as the
    handler fails when it raises). *)
Theorem get_data_invokes_registered_handler :
  forall (env : Env) (server : Server) (params : Dict Json) (h : Trace)
         (E : ExposedDataDefinition),
    data_hook server = None ->
    dict_get "dataName" params = Some (JStr (d_name E)) ->
    dict_get (d_name E) (_exposed_data server) = Some E ->
    let ctx := create_context env h in
    let request_params := dict_get_default "params" (JObj []) params in
    let run := handle_get_data env server params h in
    snd run = [EvCreateContext ctx; EvHandler (d_handler E) ctx request_params]
    /\ handler_calls (snd run) = [(d_handler E, ctx, request_params)]
    /\ fst run = match fst (call env (d_handler E) ctx [request_params]
                              (h ++ [EvCreateContext ctx])) with
                 | Ok r => Ok (data_response r)
                 | Raised e => Raised e
                 end.
Proof.
  intros env server params h E Hhook Hname Hreg ctx request_params run.
  subst run ctx request_params.
  rewrite (get_data_registry_path env server params h Hhook).
  rewrite (dict_get_default_present _ _ _ _ Hname).
  unfold data_registry_run. cbn [hash_key registry_get]. rewrite Hreg.
  repeat split.
Qed.

(** The first scenario of the spec. *)
Lemma get_data_status_scenario :
  handle_get_data Doubles.env Doubles.status_server
    [("callerSkillId", JStr "x"); ("dataName", JStr "status"); ("params", JObj [])] []
  = (Ok (JObj [("data", JObj [("ok", JBool true)])]),
     [EvCreateContext (Context 0); EvHandler (Fn 9) (Context 0) (JObj [])]).
Proof.
  pose proof (get_data_invokes_registered_handler
                Doubles.env Doubles.status_server
                [("callerSkillId", JStr "x"); ("dataName", JStr "status"); ("params", JObj [])]
                [] Doubles.status eq_refl eq_refl eq_refl) as [Hevs [_ Hres]].
  apply injective_projections; [exact Hres | exact Hevs].
Defined.

(** ** Names that are not registered *)

(** What a run for a name that is not registered comes to. *)
Lemma unregistered_name_fails_general env server params h N :
  (defers (data_hook_answer env server params h) ->
   dict_get "dataName" params = Some (JStr N) ->
   dict_get N (_exposed_data server) = None ->
   handle_get_data env server params h
   = (Raised (ValueError ("Unknown data endpoint: " ++ N)%string),
      data_hook_events env server params h))
  /\
  (defers (call_hook_answer env server params h) ->
   dict_get "functionName" params = Some (JStr N) ->
   dict_get N (_exposed_functions server) = None ->
   handle_call_function env server params h
   = (Raised (ValueError ("Unknown function: " ++ N)%string),
      call_hook_events env server params h)).
Proof.
  split; intros Hdefer Hname Hreg.
  - rewrite get_data_by_hook_answer. cbv zeta.
    rewrite (dict_get_default_present _ _ _ _ Hname).
    unfold data_registry_run. cbn [hash_key registry_get py_str]. rewrite Hreg.
    destruct Hdefer as [Hans | Hans]; rewrite Hans; cbn [is_None fst snd].
    + unfold data_hook_answer, data_hook_events in *.
      destruct (data_hook server); [discriminate | reflexivity].
    + rewrite app_nil_r. reflexivity.
  - rewrite call_function_by_hook_answer. cbv zeta.
    rewrite (dict_get_default_present _ _ _ _ Hname).
    unfold function_registry_run. cbn [hash_key registry_get py_str]. rewrite Hreg.
    destruct Hdefer as [Hans | Hans]; rewrite Hans; cbn [is_None fst snd].
    + unfold call_hook_answer, call_hook_events in *.
      destruct (call_hook server); [discriminate | reflexivity].
    + rewrite app_nil_r. reflexivity.
Qed.

(** C3, as the spec states it, fails on the text of the error: for a name
    that is not registered the failure reads "Unknown data endpoint: ghost"
    (resp. "Unknown function: ghost"); "UnknownEndpoint: ghost" (resp.
    "UnknownFunction: ghost") does not occur in it. *)
Lemma unknown_name_text_differs :
  dict_get "ghost" (_exposed_data (KitchenSink.server None)) = None
  /\ dict_get "ghost" (_exposed_functions (KitchenSink.server None)) = None
  /\ handle_get_data Doubles.env (KitchenSink.server None)
       [("callerSkillId", JStr "x"); ("dataName", JStr "ghost")] []
     = (Raised (ValueError "Unknown data endpoint: ghost"), [])
  /\ occurs_in "UnknownEndpoint: ghost" "Unknown data endpoint: ghost" = false
  /\ handle_call_function Doubles.env (KitchenSink.server None)
       [("callerSkillId", JStr "x"); ("functionName", JStr "ghost")] []
     = (Raised (ValueError "Unknown function: ghost"), [])
  /\ occurs_in "UnknownFunction: ghost" "Unknown function: ghost" = false.
Proof.
  repeat split.
Qed.

(** C3, as the code has it: when no hook is registered or the hook returns
    [None], getData for a name N that the data registry does not hold fails
    with a [ValueError] whose text is "Unknown data endpoint: N", and
    callFunction for a name N that the function registry does not hold
    fails with a [ValueError] whose text is "Unknown function: N"; in both
    cases the only calls made are those of the hook consultation, and no
    handler is invoked. *)
Theorem unregistered_name_fails :
  forall (env : Env) (server : Server) (params : Dict Json) (h : Trace) (N : string),
    (defers (data_hook_answer env server params h) ->
     dict_get "dataName" params = Some (JStr N) ->
     dict_get N (_exposed_data server) = None ->
     let run := handle_get_data env server params h in
     fst run = Raised (ValueError ("Unknown data endpoint: " ++ N)%string)
     /\ snd run = data_hook_events env server params h
     /\ handler_calls (snd run) = [])
    /\
    (defers (call_hook_answer env server params h) ->
     dict_get "functionName" params = Some (JStr N) ->
     dict_get N (_exposed_functions server) = None ->
     let run := handle_call_function env server params h in
     fst run = Raised (ValueError ("Unknown function: " ++ N)%string)
     /\ snd run = call_hook_events env server params h
     /\ handler_calls (snd run) = []).
Proof.
  intros env server params h N. split; intros Hdefer Hname Hreg run; subst run.
  - rewrite (proj1 (unregistered_name_fails_general env server params h N)
               Hdefer Hname Hreg).
    repeat split. apply data_hook_events_no_handler.
  - rewrite (proj2 (unregistered_name_fails_general env server params h N)
               Hdefer Hname Hreg).
    repeat split. apply call_hook_events_no_handler.
Qed.

(** The kitchen-sink skill, its hooks deferring, asked for names it does
    not expose. *)
Lemma unregistered_name_fails_kitchen_sink :
  fst (handle_get_data Doubles.env (KitchenSink.server (Some KitchenSink.hooks))
         [("callerSkillId", JStr "x"); ("dataName", JStr "ghost")] [])
  = Raised (ValueError "Unknown data endpoint: ghost")
  /\ fst (handle_call_function Doubles.env (KitchenSink.server (Some KitchenSink.hooks))
            [("callerSkillId", JStr "x"); ("functionName", JStr "ghost")] [])
     = Raised (ValueError "Unknown function: ghost").
Proof.
  split.
  - exact (proj1 (proj1 (unregistered_name_fails
                           Doubles.env (KitchenSink.server (Some KitchenSink.hooks))
                           [("callerSkillId", JStr "x"); ("dataName", JStr "ghost")]
                           [] "ghost")
                          (or_intror eq_refl) eq_refl eq_refl)).
  - exact (proj1 (proj2 (unregistered_name_fails
                           Doubles.env (KitchenSink.server (Some KitchenSink.hooks))
                           [("callerSkillId", JStr "x"); ("functionName", JStr "ghost")]
                           [] "ghost")
                          (or_intror eq_refl) eq_refl eq_refl)).
Defined.

(** ** A hook that answers *)

(** C4: when the registered data-hook (resp. call-hook) returns a value V
    other than [None], getData (resp. callFunction) returns exactly
    [{"data": V}]; the only calls made are the creation of the hook's
    context and the hook itself, so no handler is invoked; and the run is
    the same whatever the registries hold, names and visibility sets
    included: the hook comes before anything is looked up. *)
Theorem hook_short_circuits :
  forall (env : Env) (server : Server) (params : Dict Json) (h : Trace) (V : Json),
    V <> JNull ->
    (data_hook_answer env server params h = Some (Ok V) ->
     let run := handle_get_data env server params h in
     fst run = Ok (data_response V)
     /\ snd run = data_hook_events env server params h
     /\ handler_calls (snd run) = []
     /\ forall data functions,
          handle_get_data env
            {| _hooks := _hooks server;
               _exposed_data := data;
               _exposed_functions := functions |} params h = run)
    /\
    (call_hook_answer env server params h = Some (Ok V) ->
     let run := handle_call_function env server params h in
     fst run = Ok (data_response V)
     /\ snd run = call_hook_events env server params h
     /\ handler_calls (snd run) = []
     /\ forall data functions,
          handle_call_function env
            {| _hooks := _hooks server;
               _exposed_data := data;
               _exposed_functions := functions |} params h = run).
Proof.
  intros env server params h V HV.
  assert (Hnone : is_None V = false) by (destruct V; [contradiction | reflexivity ..]).
  split; intros Hans run; subst run.
  - rewrite get_data_by_hook_answer. cbv zeta. rewrite Hans, Hnone. cbn [fst snd].
    split; [reflexivity |]. split; [reflexivity |].
    split; [apply data_hook_events_no_handler |].
    intros data functions. rewrite get_data_by_hook_answer. cbv zeta.
    change (data_hook_answer env {| _hooks := _hooks server; _exposed_data := data;
                                     _exposed_functions := functions |} params h)
      with (data_hook_answer env server params h).
    rewrite Hans, Hnone. reflexivity.
  - rewrite call_function_by_hook_answer. cbv zeta. rewrite Hans, Hnone. cbn [fst snd].
    split; [reflexivity |]. split; [reflexivity |].
    split; [apply call_hook_events_no_handler |].
    intros data functions. rewrite call_function_by_hook_answer. cbv zeta.
    change (call_hook_answer env {| _hooks := _hooks server; _exposed_data := data;
                                     _exposed_functions := functions |} params h)
      with (call_hook_answer env server params h).
    rewrite Hans, Hnone. reflexivity.
Qed.

(** The second scenario of the spec: the call-hook always returns
    [{"short": 1}], and the handler of ["add-note"] is not invoked. *)
Lemma call_function_short_scenario :
  handle_call_function Doubles.env Doubles.short_server
    [ ("callerSkillId", JStr "x"); ("functionName", JStr "add-note");
      ("arguments", JObj [("title", JStr "t")]) ] []
  = (Ok (JObj [("data", JObj [("short", JNum 1)])]),
     [ EvCreateContext (Context 0);
       EvOnInteropCall (Fn 8) (Context 0) (JStr "x") (JStr "add-note")
         (JObj [("title", JStr "t")]) ])
  /\ fst (handle_get_data Doubles.env Doubles.short_server
            [("callerSkillId", JStr "x"); ("dataName", JStr "status")] [])
     = Ok (JObj [("data", JObj [("short", JNum 1)])]).
Proof.
  assert (HV : JObj [("short", JNum 1)] <> JNull) by discriminate.
  split.
  - destruct (proj2 (hook_short_circuits
                       Doubles.env Doubles.short_server
                       [ ("callerSkillId", JStr "x"); ("functionName", JStr "add-note");
                         ("arguments", JObj [("title", JStr "t")]) ]
                       [] (JObj [("short", JNum 1)]) HV) eq_refl)
      as [Hres [Hevs _]].
    apply injective_projections; [exact Hres | exact Hevs].
  - exact (proj1 (proj1 (hook_short_circuits
                           Doubles.env Doubles.short_server
                           [("callerSkillId", JStr "x"); ("dataName", JStr "status")]
                           [] (JObj [("short", JNum 1)]) HV) eq_refl)).
Defined.

(** ** A hook that defers *)











(** ** Fields left out of the request *)

(** The calls of a run of getData: those of the hook consultation, then at
    most the creation of a context and one handler call, on the params as
    the hook left them. *)
Lemma get_data_events env server params h :
  exists tail,
    snd (handle_get_data env server params h)
    = data_hook_events env server params h ++ tail
    /\ (tail = []
        \/ exists f c,
             tail = [EvCreateContext c;
                     EvHandler f c (data_params_after_hook env server params h)]).
Proof.
  rewrite get_data_by_hook_answer. cbv zeta.
  assert (Hpath : forall p h',
             snd (data_registry_run env server
                    (dict_get_default "dataName" (JStr "") params) p h') = []
             \/ exists f c,
                  snd (data_registry_run env server
                         (dict_get_default "dataName" (JStr "") params) p h')
                  = [EvCreateContext c; EvHandler f c p]).
  { intros p h'. unfold data_registry_run.
    destruct (hash_key _) as [key | e]; [| left; reflexivity].
    destruct (registry_get key (_exposed_data server)) as [endpoint |]; [| left; reflexivity].
    right. eexists _, _. reflexivity. }
  destruct (data_hook_answer env server params h) as [[v | e] |] eqn:Hans.
  - destruct (is_None v).
    + eexists. split; [reflexivity |]. apply Hpath.
    + exists []. split; [cbn [snd]; rewrite app_nil_r; reflexivity | left; reflexivity].
  - exists []. split; [cbn [snd]; rewrite app_nil_r; reflexivity | left; reflexivity].
  - assert (Hhook : data_hook server = None).
    { unfold data_hook_answer in Hans. destruct (data_hook server); [discriminate | auto]. }
    unfold data_hook_events. rewrite Hhook. cbn [app].
    rewrite (data_params_without_hook env server params h Hhook).
    eexists. split; [reflexivity |]. apply Hpath.
Qed.

(** The calls of a run of callFunction. *)
Lemma call_function_events env server params h :
  exists tail,
    snd (handle_call_function env server params h)
    = call_hook_events env server params h ++ tail
    /\ (tail = []
        \/ exists f c,
             tail = [EvCreateContext c;
                     EvHandler f c (call_arguments_after_hook env server params h)]).
Proof.
  rewrite call_function_by_hook_answer. cbv zeta.
  assert (Hpath : forall p h',
             snd (function_registry_run env server
                    (dict_get_default "functionName" (JStr "") params) p h') = []
             \/ exists f c,
                  snd (function_registry_run env server
                         (dict_get_default "functionName" (JStr "") params) p h')
                  = [EvCreateContext c; EvHandler f c p]).
  { intros p h'. unfold function_registry_run.
    destruct (hash_key _) as [key | e]; [| left; reflexivity].
    destruct (registry_get key (_exposed_functions server)) as [func |];
      [| left; reflexivity].
    right. eexists _, _. reflexivity. }
  destruct (call_hook_answer env server params h) as [[v | e] |] eqn:Hans.
  - destruct (is_None v).
    + eexists. split; [reflexivity |]. apply Hpath.
    + exists []. split; [cbn [snd]; rewrite app_nil_r; reflexivity | left; reflexivity].
  - exists []. split; [cbn [snd]; rewrite app_nil_r; reflexivity | left; reflexivity].
  - assert (Hhook : call_hook server = None).
    { unfold call_hook_answer in Hans. destruct (call_hook server); [discriminate | auto]. }
    unfold call_hook_events. rewrite Hhook. cbn [app].
    rewrite (call_arguments_without_hook env server params h Hhook).
    eexists. split; [reflexivity |]. apply Hpath.
Qed.

(** What a run starts with when a data-hook (resp. call-hook) is
    registered. *)
Lemma get_data_consults_hook_first env server params h :
  exists rest,
    snd (handle_get_data env server params h)
    = data_hook_events env server params h ++ rest.
Proof.
  destruct (get_data_events env server params h) as (tail & Hevs & _).
  exists tail. exact Hevs.
Qed.

Lemma call_function_consults_hook_first env server params h :
  exists rest,
    snd (handle_call_function env server params h)
    = call_hook_events env server params h ++ rest.
Proof.
  destruct (call_function_events env server params h) as (tail & Hevs & _).
  exists tail. exact Hevs.
Qed.

(** The default map, once a hook has had it, is a map. *)
Lemma default_params_after_hook env server params h :
  dict_get "params" params = None ->
  exists kv, data_params_after_hook env server params h = JObj kv.
Proof.
  intros Habs. unfold data_params_after_hook, argument_after, data_hook_arguments.
  cbn [nth]. rewrite (dict_get_default_absent "params" _ _ Habs). apply left_as_dict.
Qed.

Lemma default_arguments_after_hook env server params h :
  dict_get "arguments" params = None ->
  exists kv, call_arguments_after_hook env server params h = JObj kv.
Proof.
  intros Habs. unfold call_arguments_after_hook, argument_after, call_hook_arguments.
  cbn [nth]. rewrite (dict_get_default_absent "arguments" _ _ Habs). apply left_as_dict.
Qed.

(** C10, as the spec states it, fails for the handler: the request has no
    params (resp. no arguments), the hook is passed the empty map, writes
    into it and returns [None], and the handler is passed a map that is not
    empty. *)
Lemma hook_fills_default_map :
  dict_get "params" [("dataName", JStr "echo")] = None
  /\ snd (handle_get_data Doubles.env Doubles.rewriting_server
            [("dataName", JStr "echo")] [])
     = [ EvCreateContext (Context 0);
         EvOnInteropData (Fn 30) (Context 0) (JStr "") (JStr "echo") (JObj []);
         EvCreateContext (Context 2);
         EvHandler (Fn 31) (Context 2) (JObj [("injected", JBool true)]) ]
  /\ dict_get "arguments" [("functionName", JStr "echo")] = None
  /\ snd (handle_call_function Doubles.env Doubles.rewriting_server
            [("functionName", JStr "echo")] [])
     = [ EvCreateContext (Context 0);
         EvOnInteropCall (Fn 30) (Context 0) (JStr "") (JStr "echo") (JObj []);
         EvCreateContext (Context 2);
         EvHandler (Fn 31) (Context 2) (JObj [("injected", JBool true)]) ].
Proof.
  repeat split.
Qed.

(** C10, as the code has it: when the payload of getData has no ["params"]
    field (resp. that of callFunction no ["arguments"] field), every hook
    call of the run is passed the empty map [{}], and every handler call is
    passed a map, never [None]: that same map as the hook left it, which is
    the empty map when no hook is registered, and also when the hook wrote
    nothing into it.  When the payload has no ["callerSkillId"] field,
    every hook call of the run is passed the empty string as the caller. *)
Theorem omitted_fields_default_map :
  forall (env : Env) (server : Server) (params : Dict Json) (h : Trace),
    (dict_get "params" params = None ->
     let evs := snd (handle_get_data env server params h) in
     Forall (fun ev => forall p, hook_params ev = Some p -> p = JObj []) evs
     /\ Forall (fun ev => forall p, handler_params ev = Some p ->
                  p = data_params_after_hook env server params h
                  /\ exists kv, p = JObj kv) evs
     /\ (data_hook server = None
         \/ data_params_after_hook env server params h = JObj [] ->
         Forall (fun ev => forall p, handler_params ev = Some p -> p = JObj []) evs))
    /\ (dict_get "arguments" params = None ->
        let evs := snd (handle_call_function env server params h) in
        Forall (fun ev => forall p, hook_params ev = Some p -> p = JObj []) evs
        /\ Forall (fun ev => forall p, handler_params ev = Some p ->
                     p = call_arguments_after_hook env server params h
                     /\ exists kv, p = JObj kv) evs
        /\ (call_hook server = None
            \/ call_arguments_after_hook env server params h = JObj [] ->
            Forall (fun ev => forall p, handler_params ev = Some p -> p = JObj []) evs))
    /\ (dict_get "callerSkillId" params = None ->
        Forall (fun ev => forall c, passed_caller ev = Some c -> c = JStr "")
               (snd (handle_get_data env server params h))
        /\ Forall (fun ev => forall c, passed_caller ev = Some c -> c = JStr "")
                  (snd (handle_call_function env server params h))).
Proof.
  intros env server params h. split; [| split].
  - intros Habs evs. subst evs.
    destruct (get_data_events env server params h) as (tail & -> & Htail).
    destruct (default_params_after_hook env server params h Habs) as [kv Hkv].
    assert (Hhooks : data_hook_events env server params h = []
                     \/ exists hook c caller name,
                          data_hook_events env server params h
                          = [EvCreateContext c; EvOnInteropData hook c caller name (JObj [])]).
    { unfold data_hook_events. rewrite (dict_get_default_absent "params" _ _ Habs).
      destruct (data_hook server); [right; eexists _, _, _, _; reflexivity | left; reflexivity]. }
    split; [| split].
    + apply Forall_app. split.
      * destruct Hhooks as [-> | (hook & c & caller & name & ->)]; each_event.
        intros p [= <-]. reflexivity.
      * destruct Htail as [-> | (f & c & ->)]; each_event.
    + apply Forall_app. split.
      * destruct Hhooks as [-> | (hook & c & caller & name & ->)]; each_event.
      * destruct Htail as [-> | (f & c & ->)]; each_event.
        intros p [= <-]. split; [reflexivity | exists kv; exact Hkv].
    + intros Hempty.
      assert (Hp : data_params_after_hook env server params h = JObj []).
      { destruct Hempty as [Hhook | Hp]; [| exact Hp].
        rewrite (data_params_without_hook env server params h Hhook).
        apply (dict_get_default_absent "params" _ _ Habs). }
      apply Forall_app. split.
      * destruct Hhooks as [-> | (hook & c & caller & name & ->)]; each_event.
      * destruct Htail as [-> | (f & c & ->)]; each_event.
        intros p [= <-]. exact Hp.
  - intros Habs evs. subst evs.
    destruct (call_function_events env server params h) as (tail & -> & Htail).
    destruct (default_arguments_after_hook env server params h Habs) as [kv Hkv].
    assert (Hhooks : call_hook_events env server params h = []
                     \/ exists hook c caller name,
                          call_hook_events env server params h
                          = [EvCreateContext c; EvOnInteropCall hook c caller name (JObj [])]).
    { unfold call_hook_events. rewrite (dict_get_default_absent "arguments" _ _ Habs).
      destruct (call_hook server); [right; eexists _, _, _, _; reflexivity | left; reflexivity]. }
    split; [| split].
    + apply Forall_app. split.
      * destruct Hhooks as [-> | (hook & c & caller & name & ->)]; each_event.
        intros p [= <-]. reflexivity.
      * destruct Htail as [-> | (f & c & ->)]; each_event.
    + apply Forall_app. split.
      * destruct Hhooks as [-> | (hook & c & caller & name & ->)]; each_event.
      * destruct Htail as [-> | (f & c & ->)]; each_event.
        intros p [= <-]. split; [reflexivity | exists kv; exact Hkv].
    + intros Hempty.
      assert (Hp : call_arguments_after_hook env server params h = JObj []).
      { destruct Hempty as [Hhook | Hp]; [| exact Hp].
        rewrite (call_arguments_without_hook env server params h Hhook).
        apply (dict_get_default_absent "arguments" _ _ Habs). }
      apply Forall_app. split.
      * destruct Hhooks as [-> | (hook & c & caller & name & ->)]; each_event.
      * destruct Htail as [-> | (f & c & ->)]; each_event.
        intros p [= <-]. exact Hp.
  - intros Habs. split.
    + destruct (get_data_events env server params h) as (tail & -> & Htail).
      apply Forall_app. split.
      * unfold data_hook_events. rewrite (dict_get_default_absent "callerSkillId" _ _ Habs).
        destruct (data_hook server); each_event.
        intros p [= <-]. reflexivity.
      * destruct Htail as [-> | (f & c & ->)]; each_event.
    + destruct (call_function_events env server params h) as (tail & -> & Htail).
      apply Forall_app. split.
      * unfold call_hook_events. rewrite (dict_get_default_absent "callerSkillId" _ _ Habs).
        destruct (call_hook server); each_event.
        intros p [= <-]. reflexivity.
      * destruct Htail as [-> | (f & c & ->)]; each_event.
Qed.

(** A request that names the endpoint and nothing else, on the kitchen-sink
    skill with its hooks, which leave the map as it is: the hook is passed
    [""] and [{}], the handler [{}]. *)
Lemma omitted_fields_kitchen_sink :
  snd (handle_get_data Doubles.env (KitchenSink.server (Some KitchenSink.hooks))
         [("dataName", JStr "notes-summary")] [])
  = [ EvCreateContext (Context 0);
      EvOnInteropData (Fn 4) (Context 0) (JStr "") (JStr "notes-summary") (JObj []);
      EvCreateContext (Context 2);
      EvHandler (Fn 1) (Context 2) (JObj []) ]
  /\ Forall (fun ev => forall p, hook_params ev = Some p -> p = JObj [])
            (snd (handle_get_data Doubles.env
                    (KitchenSink.server (Some KitchenSink.hooks))
                    [("dataName", JStr "notes-summary")] []))
  /\ Forall (fun ev => forall p, handler_params ev = Some p -> p = JObj [])
            (snd (handle_get_data Doubles.env
                    (KitchenSink.server (Some KitchenSink.hooks))
                    [("dataName", JStr "notes-summary")] []))
  /\ Forall (fun ev => forall p, handler_params ev = Some p -> p = JObj [])
            (snd (handle_call_function Doubles.env
                    (KitchenSink.server None)
                    [("functionName", JStr "add-note")] []))
  /\ Forall (fun ev => forall c, passed_caller ev = Some c -> c = JStr "")
            (snd (handle_call_function Doubles.env
                    (KitchenSink.server (Some KitchenSink.hooks))
                    [("functionName", JStr "add-note")] [])).
Proof.
  split; [reflexivity |]. split; [| split; [| split]].
  - exact (proj1 (proj1 (omitted_fields_default_map
                           Doubles.env (KitchenSink.server (Some KitchenSink.hooks))
                           [("dataName", JStr "notes-summary")] []) eq_refl)).
  - exact (proj2 (proj2 (proj1 (omitted_fields_default_map
                                  Doubles.env (KitchenSink.server (Some KitchenSink.hooks))
                                  [("dataName", JStr "notes-summary")] []) eq_refl))
                 (or_intror eq_refl)).
  - exact (proj2 (proj2 (proj1 (proj2 (omitted_fields_default_map
                                         Doubles.env (KitchenSink.server None)
                                         [("functionName", JStr "add-note")] [])) eq_refl))
                 (or_introl eq_refl)).
  - exact (proj2 (proj2 (proj2 (omitted_fields_default_map
                                  Doubles.env
                                  (KitchenSink.server (Some KitchenSink.hooks))
                                  [("functionName", JStr "add-note")] [])) eq_refl)).
Defined.

(** ** The discovery payload *)

Lemma data_entry_reflects (E : ExposedDataDefinition) : reflects_data E (data_entry E).
Proof.
  eexists. repeat split.
Qed.

Lemma function_entry_reflects (F : ExposedFunctionDefinition) :
  reflects_function F (function_entry F).
Proof.
  eexists. repeat split.
Qed.

Lemma Forall2_map_reflects {A : Type} (R : A -> Json -> Prop) (f : A -> Json) (l : list A) :
  (forall a, R a (f a)) -> Forall2 R l (map f l).
Proof.
  intros HR. induction l as [| a l IH]; cbn; constructor; auto.
Qed.

(** A visibility set is rendered as a list of strings: no field in it. *)
Lemma visibility_has_no_field (key : string) (vis : Visibility) :
  existsb (has_field key) (map (fun v => JStr (tag_name v)) vis) = false.
Proof.
  induction vis as [| v vis IH]; cbn; [reflexivity | exact IH].
Qed.

Lemma data_entry_handler_field (E : ExposedDataDefinition) :
  has_field "handler" (data_entry E) = has_field "handler" (JObj (schema_ E)).
Proof.
  unfold data_entry.
  cbn [has_field existsb String.eqb Ascii.eqb Bool.eqb orb].
  rewrite visibility_has_no_field. cbn [orb].
  fold (has_field "handler" (JObj (schema_ E))).
  apply orb_false_r.
Qed.

Lemma function_entry_handler_field (F : ExposedFunctionDefinition) :
  has_field "handler" (function_entry F)
  = has_field "handler" (JObj (parameters F)) || has_field "handler" (JObj (returns F)).
Proof.
  unfold function_entry.
  cbn [has_field existsb String.eqb Ascii.eqb Bool.eqb orb].
  rewrite visibility_has_no_field. cbn [orb].
  fold (has_field "handler" (JObj (parameters F))).
  fold (has_field "handler" (JObj (returns F))).
  rewrite orb_false_r. reflexivity.
Qed.

Lemma existsb_map_ext {A B : Type} (p : B -> bool) (q : A -> bool) (f : A -> B) (l : list A) :
  (forall a, p (f a) = q a) -> existsb p (map f l) = existsb q l.
Proof.
  intros Hpq. induction l as [| a l IH]; cbn; [reflexivity |].
  rewrite Hpq, IH. reflexivity.
Qed.

(** C6, as the spec states it, fails for one registry state: a field named
    ["handler"] occurs inside the listExposed payload, in the schema
    document that the endpoint declared. *)
Lemma list_exposed_schema_handler_field :
  has_field "handler" (handle_list_exposed Doubles.event_log_server) = true
  /\ handle_list_exposed Doubles.event_log_server
     = JObj [ ("data",
               JList [ JObj [ ("name", JStr "event-log");
                              ("description",
                               JStr "Events and the handler that took each of them");
                              ("visibility", JList [JStr "skills"]);
                              ("schema",
                               JObj [ ("type", JStr "object");
                                      ("properties",
                                       JObj [ ("event", JObj [("type", JStr "string")]);
                                              ("handler", JObj [("type", JStr "string")])
                                            ]) ]) ] ]);
              ("functions", JList []) ].
Proof.
  split; reflexivity.
Qed.

(** C6, as the code has it: the listExposed payload is an object with the
    two fields data and functions and reflects the registry exactly: data
    holds one entry per registered data endpoint, in registry order, with
    its name, description, visibility and schema and no other field;
    functions holds one entry per registered function with its name,
    description, visibility, parameters and returns and no other field.
    Neither the payload object nor any entry has a handler field, the
    payload is the same whatever the handlers of the registry are, and a
    field named handler occurs somewhere inside the payload exactly when a
    schema, parameters or returns document of the registry has one: these
    documents are passed on as they are. *)
Theorem list_exposed_reflects_registry :
  forall (server : Server),
    (exists ds fs,
        handle_list_exposed server = JObj [("data", JList ds); ("functions", JList fs)]
        /\ Forall2 reflects_data (dict_values (_exposed_data server)) ds
        /\ Forall2 reflects_function (dict_values (_exposed_functions server)) fs)
    /\ (forall g : Callable -> Callable,
           handle_list_exposed (map_handlers g server) = handle_list_exposed server)
    /\ has_field "handler" (handle_list_exposed server)
       = existsb (fun E => has_field "handler" (JObj (schema_ E)))
                 (dict_values (_exposed_data server))
         || existsb (fun F => has_field "handler" (JObj (parameters F))
                              || has_field "handler" (JObj (returns F)))
                    (dict_values (_exposed_functions server)).
Proof.
  intros server. split; [| split].
  - eexists _, _. split; [reflexivity |]. split.
    + apply Forall2_map_reflects, data_entry_reflects.
    + apply Forall2_map_reflects, function_entry_reflects.
  - intros g. unfold handle_list_exposed, map_handlers.
    cbn [_exposed_data _exposed_functions].
    rewrite (dict_values_map_values (data_with_handler g)).
    rewrite (dict_values_map_values (function_with_handler g)).
    rewrite !map_map. reflexivity.
  - unfold handle_list_exposed.
    cbn [has_field existsb String.eqb Ascii.eqb Bool.eqb orb].
    rewrite orb_false_r.
    rewrite (existsb_map_ext _ _ _ _ data_entry_handler_field).
    rewrite (existsb_map_ext _ _ _ _ function_entry_handler_field).
    reflexivity.
Qed.

(** ** The outbound tools *)

(** The five tools, under their names. *)
Lemma build_interop_tools_names (env : Env) :
  dict_keys (build_interop_tools env)
  = [ "list-skills"; "list-skill-data"; "list-skill-functions";
      "request-skill-data"; "call-skill-function" ].
Proof.
  reflexivity.
Qed.

Lemma run_tool_unfold (env : Env) (args : Dict Json) (h : Trace) :
  run_tool env "list-skills" args h = Some (_list_skills env args h)
  /\ run_tool env "list-skill-data" args h = Some (_list_skill_data env args h)
  /\ run_tool env "list-skill-functions" args h = Some (_list_skill_functions env args h)
  /\ run_tool env "request-skill-data" args h = Some (_request_skill_data env args h)
  /\ run_tool env "call-skill-function" args h = Some (_call_skill_function env args h).
Proof.
  repeat split.
Qed.

(** The three listing tools have no [try]: what the collaborator raises
    leaves the tool. *)
Lemma list_tools_propagate (env : Env) (args : Dict Json) (h : Trace) (e : Exn) :
  (list_skills env h = Raised e ->
   _list_skills env args h = (Raised e, [EvListSkills]))
  /\ (list_exposed_data env (dict_get_default "skill_id" JNull args) h = Raised e ->
      _list_skill_data env args h
      = (Raised e, [EvListExposedData (dict_get_default "skill_id" JNull args)]))
  /\ (list_exposed_functions env (dict_get_default "skill_id" JNull args) h = Raised e ->
      _list_skill_functions env args h
      = (Raised e, [EvListExposedFunctions (dict_get_default "skill_id" JNull args)])).
Proof.
  unfold _list_skills, _list_skill_data, _list_skill_functions.
  repeat split; intros He; run_coroutine; rewrite He; reflexivity.
Qed.

(** What request-skill-data comes to. *)
Lemma request_skill_data_cases (env : Env) (args : Dict Json) (h : Trace) :
  let skill_id := dict_get_default "skill_id" (JStr "") args in
  let data_name := dict_get_default "data_name" (JStr "") args in
  let params := dict_get_default "params" JNull args in
  let reported (e : Exn) : Outcome ToolResult :=
    if derives_Exception e then Ok {| content := exn_text e; is_error := true |}
    else Raised e in
  _request_skill_data env args h
  = if truthy skill_id && truthy data_name then
      (match request_skill_data env skill_id data_name params h with
       | Ok r => match json_dumps env r with
                 | Ok text => Ok {| content := text; is_error := false |}
                 | Raised e => reported e
                 end
       | Raised e => reported e
       end,
       [EvRequestSkillData skill_id data_name params])
    else
      (Ok {| content := "skill_id and data_name are required"; is_error := true |}, []).
Proof.
  cbv zeta. unfold _request_skill_data.
  destruct (truthy (dict_get_default "skill_id" (JStr "") args)); [| reflexivity].
  destruct (truthy (dict_get_default "data_name" (JStr "") args)); [| reflexivity].
  run_coroutine.
  destruct (request_skill_data env _ _ _ h) as [r | e].
  - destruct (json_dumps env r) as [text | e]; [reflexivity |].
    destruct (derives_Exception e); reflexivity.
  - destruct (derives_Exception e); reflexivity.
Qed.

(** What call-skill-function comes to. *)
Lemma call_skill_function_cases (env : Env) (args : Dict Json) (h : Trace) :
  let skill_id := dict_get_default "skill_id" (JStr "") args in
  let function_name := dict_get_default "function_name" (JStr "") args in
  let arguments := dict_get_default "arguments" JNull args in
  let reported (e : Exn) : Outcome ToolResult :=
    if derives_Exception e then Ok {| content := exn_text e; is_error := true |}
    else Raised e in
  _call_skill_function env args h
  = if truthy skill_id && truthy function_name then
      (match call_skill_function env skill_id function_name arguments h with
       | Ok r => match json_dumps env r with
                 | Ok text => Ok {| content := text; is_error := false |}
                 | Raised e => reported e
                 end
       | Raised e => reported e
       end,
       [EvCallSkillFunction skill_id function_name arguments])
    else
      (Ok {| content := "skill_id and function_name are required"; is_error := true |}, []).
Proof.
  cbv zeta. unfold _call_skill_function.
  destruct (truthy (dict_get_default "skill_id" (JStr "") args)); [| reflexivity].
  destruct (truthy (dict_get_default "function_name" (JStr "") args)); [| reflexivity].
  run_coroutine.
  destruct (call_skill_function env _ _ _ h) as [r | e].
  - destruct (json_dumps env r) as [text | e]; [reflexivity |].
    destruct (derives_Exception e); reflexivity.
  - destruct (derives_Exception e); reflexivity.
Qed.

(** The two forwarding tools catch what derives from [Exception]: when the
    collaborator raises such an exception, the result is an error result
    whose content is the text of the exception. *)
Lemma request_skill_data_returns (env : Env) (args : Dict Json) (h : Trace) (e : Exn) :
  truthy (dict_get_default "skill_id" (JStr "") args) = true ->
  truthy (dict_get_default "data_name" (JStr "") args) = true ->
  request_skill_data env (dict_get_default "skill_id" (JStr "") args)
    (dict_get_default "data_name" (JStr "") args)
    (dict_get_default "params" JNull args) h = Raised e ->
  derives_Exception e = true ->
  fst (_request_skill_data env args h) = Ok {| content := exn_text e; is_error := true |}.
Proof.
  intros Hid Hname Hraised Hexc. rewrite request_skill_data_cases. cbv zeta.
  rewrite Hid, Hname, Hraised, Hexc. reflexivity.
Qed.

Lemma call_skill_function_returns (env : Env) (args : Dict Json) (h : Trace) (e : Exn) :
  truthy (dict_get_default "skill_id" (JStr "") args) = true ->
  truthy (dict_get_default "function_name" (JStr "") args) = true ->
  call_skill_function env (dict_get_default "skill_id" (JStr "") args)
    (dict_get_default "function_name" (JStr "") args)
    (dict_get_default "arguments" JNull args) h = Raised e ->
  derives_Exception e = true ->
  fst (_call_skill_function env args h) = Ok {| content := exn_text e; is_error := true |}.
Proof.
  intros Hid Hname Hraised Hexc. rewrite call_skill_function_cases. cbv zeta.
  rewrite Hid, Hname, Hraised, Hexc. reflexivity.
Qed.

(** C7 on the code: with a host that is down, each of the three listing
    tools (list-skills, list-skill-data, list-skill-functions) lets the
    collaborator's exception out instead of returning an error result,
    while request-skill-data and call-skill-function return an error result
    carrying its text. *)
Theorem listing_tools_raise :
  run_tool Doubles.env "list-skills" [] []
  = Some (Raised Doubles.host_down, [EvListSkills])
  /\ run_tool Doubles.env "list-skill-data" [("skill_id", JStr "notes")] []
     = Some (Raised Doubles.host_down, [EvListExposedData (JStr "notes")])
  /\ run_tool Doubles.env "list-skill-functions" [] []
     = Some (Raised Doubles.host_down, [EvListExposedFunctions JNull])
  /\ run_tool Doubles.env "request-skill-data"
       [("skill_id", JStr "notes"); ("data_name", JStr "status")] []
     = Some (Ok {| content := "host unreachable"; is_error := true |},
             [EvRequestSkillData (JStr "notes") (JStr "status") JNull])
  /\ run_tool Doubles.env "call-skill-function"
       [("skill_id", JStr "notes"); ("function_name", JStr "add-note")] []
     = Some (Ok {| content := "host unreachable"; is_error := true |},
             [EvCallSkillFunction (JStr "notes") (JStr "add-note") JNull]).
Proof.
  repeat split.
Qed.

(** C8: request-skill-data called with no ["skill_id"] or no ["data_name"]
    argument, and call-skill-function called with no ["skill_id"] or no
    ["function_name"] argument, return an error result made on the spot,
    and the run makes no call at all, none to the host collaborator in
    particular. *)
Theorem missing_argument_is_local :
  forall (env : Env) (args : Dict Json) (h : Trace),
    (dict_get "skill_id" args = None \/ dict_get "data_name" args = None ->
     run_tool env "request-skill-data" args h
     = Some (Ok {| content := "skill_id and data_name are required"; is_error := true |}, []))
    /\
    (dict_get "skill_id" args = None \/ dict_get "function_name" args = None ->
     run_tool env "call-skill-function" args h
     = Some (Ok {| content := "skill_id and function_name are required";
                   is_error := true |}, [])).
Proof.
  intros env args h. split; intros Hmissing.
  - change (run_tool env "request-skill-data" args h)
      with (Some (_request_skill_data env args h)).
    unfold _request_skill_data.
    destruct Hmissing as [Hm | Hm];
      rewrite (dict_get_default_absent _ (JStr "") _ Hm); cbn [truthy String.eqb negb orb].
    + reflexivity.
    + rewrite orb_true_r. reflexivity.
  - change (run_tool env "call-skill-function" args h)
      with (Some (_call_skill_function env args h)).
    unfold _call_skill_function.
    destruct Hmissing as [Hm | Hm];
      rewrite (dict_get_default_absent _ (JStr "") _ Hm); cbn [truthy String.eqb negb orb].
    + reflexivity.
    + rewrite orb_true_r. reflexivity.
Qed.

(** Calls with one of the required arguments left out, against a host that
    would raise. *)
Lemma missing_argument_kitchen_sink :
  run_tool Doubles.env "request-skill-data" [("skill_id", JStr "notes")] []
  = Some (Ok {| content := "skill_id and data_name are required"; is_error := true |}, [])
  /\ run_tool Doubles.env "call-skill-function" [("function_name", JStr "add-note")] []
     = Some (Ok {| content := "skill_id and function_name are required";
                   is_error := true |}, []).
Proof.
  split.
  - exact (proj1 (missing_argument_is_local
                    Doubles.env [("skill_id", JStr "notes")] [])
                 (or_intror eq_refl)).
  - exact (proj2 (missing_argument_is_local
                    Doubles.env [("function_name", JStr "add-note")] [])
                 (or_introl eq_refl)).
Defined.

(** ** Building the capability set *)

(** C9, as the spec states it, fails: a declaration with two data
    endpoints of one name and two functions of one name is built without
    an error. *)
Lemma duplicate_names_accepted :
  d_name Doubles.status = d_name Doubles.status_again
  /\ f_name KitchenSink.add_note = f_name Doubles.add_note_again
  /\ InteropSchema_init (Some [Doubles.status; Doubles.status_again])
                        (Some [KitchenSink.add_note; Doubles.add_note_again])
     = Ok {| exposed_data := [Doubles.status; Doubles.status_again];
             exposed_functions := [KitchenSink.add_note; Doubles.add_note_again] |}.
Proof.
  repeat split.
Qed.

(** C9, as the code has it: building the capability set never fails, for
    no declaration: the two lists are taken as they are declared, entries
    that share a name included, and a list left out is empty. *)
Theorem interop_schema_always_built :
  forall (data : option (list ExposedDataDefinition))
         (functions : option (list ExposedFunctionDefinition)),
    exists schema,
      InteropSchema_init data functions = Ok schema
      /\ exposed_data schema = match data with Some l => l | None => [] end
      /\ exposed_functions schema = match functions with Some l => l | None => [] end.
Proof.
  intros data functions. eexists. repeat split.
Qed.

(** ** At most one handler per request *)

(** The registry path makes no call, or creates a context and calls one
    handler. *)
Lemma data_registry_run_events env server data_name request_params h :
  snd (data_registry_run env server data_name request_params h) = []
  \/ exists N E,
       data_name = JStr N
       /\ dict_get N (_exposed_data server) = Some E
       /\ snd (data_registry_run env server data_name request_params h)
          = [ EvCreateContext (create_context env h);
              EvHandler (d_handler E) (create_context env h) request_params ].
Proof.
  unfold data_registry_run.
  destruct data_name as [| b | z | N | l | kv]; cbn [hash_key registry_get]; auto.
  destruct (dict_get N (_exposed_data server)) as [E |] eqn:HE; [| auto].
  right. exists N, E. repeat split. exact HE.
Qed.

Lemma function_registry_run_events env server function_name arguments h :
  snd (function_registry_run env server function_name arguments h) = []
  \/ exists N F,
       function_name = JStr N
       /\ dict_get N (_exposed_functions server) = Some F
       /\ snd (function_registry_run env server function_name arguments h)
          = [ EvCreateContext (create_context env h);
              EvHandler (f_handler F) (create_context env h) arguments ].
Proof.
  unfold function_registry_run.
  destruct function_name as [| b | z | N | l | kv]; cbn [hash_key registry_get]; auto.
  destruct (dict_get N (_exposed_functions server)) as [F |] eqn:HF; [| auto].
  right. exists N, F. repeat split. exact HF.
Qed.

(** X1: whatever the request, the hook and the registry are, a run of
    getData or of callFunction invokes at most one handler, consults the
    hook at most once and creates at most two contexts. *)
Theorem handler_invoked_at_most_once :
  forall (env : Env) (server : Server) (params : Dict Json) (h : Trace),
    let data_run := snd (handle_get_data env server params h) in
    let call_run := snd (handle_call_function env server params h) in
    (length (handler_calls data_run) <= 1
     /\ length (hook_calls data_run) <= 1
     /\ length (contexts_created data_run) <= 2)%nat
    /\ (length (handler_calls call_run) <= 1
        /\ length (hook_calls call_run) <= 1
        /\ length (contexts_created call_run) <= 2)%nat.
Proof.
  intros env server params h data_run call_run. subst data_run call_run. split.
  - destruct (get_data_events env server params h) as (tail & -> & Htail).
    unfold data_hook_events.
    destruct (data_hook server), Htail as [-> | (f & c' & ->)]; cbn; lia.
  - destruct (call_function_events env server params h) as (tail & -> & Htail).
    unfold call_hook_events.
    destruct (call_hook server), Htail as [-> | (f & c' & ->)]; cbn; lia.
Qed.

(** X2: the only handler a run can invoke is the one the registry holds
    under the requested name, and it is passed the params (resp. the
    arguments) of the request as the hook left them, which are those of
    the request itself when no hook is registered, the empty map when the
    request has none: getData never reaches a handler of another data
    endpoint, nor callFunction one of another function. *)
Theorem only_requested_handler_invoked :
  forall (env : Env) (server : Server) (params : Dict Json) (h : Trace)
         (f : Callable) (c : Ctx) (p : Json),
    (In (f, c, p) (handler_calls (snd (handle_get_data env server params h))) ->
     exists N E,
       dict_get_default "dataName" (JStr "") params = JStr N
       /\ dict_get N (_exposed_data server) = Some E
       /\ f = d_handler E
       /\ p = data_params_after_hook env server params h
       /\ (data_hook server = None -> p = dict_get_default "params" (JObj []) params))
    /\
    (In (f, c, p) (handler_calls (snd (handle_call_function env server params h))) ->
     exists N F,
       dict_get_default "functionName" (JStr "") params = JStr N
       /\ dict_get N (_exposed_functions server) = Some F
       /\ f = f_handler F
       /\ p = call_arguments_after_hook env server params h
       /\ (call_hook server = None -> p = dict_get_default "arguments" (JObj []) params)).
Proof.
  intros env server params h f c p. split.
  - assert (Hpath : forall q h',
              In (f, c, p)
                 (handler_calls
                    (snd (data_registry_run env server
                            (dict_get_default "dataName" (JStr "") params) q h'))) ->
              exists N E,
                dict_get_default "dataName" (JStr "") params = JStr N
                /\ dict_get N (_exposed_data server) = Some E
                /\ f = d_handler E /\ p = q).
    { intros q h' Hin.
      destruct (data_registry_run_events env server
                  (dict_get_default "dataName" (JStr "") params) q h')
        as [Hnil | (N & E & HN & HE & Hevs)].
      - rewrite Hnil in Hin. destruct Hin.
      - rewrite Hevs in Hin. cbn in Hin. destruct Hin as [[= <- <- <-] | []].
        exists N, E. auto. }
    rewrite get_data_by_hook_answer. cbv zeta.
    destruct (data_hook_answer env server params h) as [[v | e] |] eqn:Hans.
    + destruct (is_None v); cbn [snd].
      * rewrite handler_calls_app, data_hook_events_no_handler. cbn [app].
        intros Hin. destruct (Hpath _ _ Hin) as (N & E & HN & HE & Hf & Hp).
        exists N, E. repeat split; try assumption.
        intros Hnone. unfold data_hook_answer in Hans. rewrite Hnone in Hans. discriminate.
      * rewrite data_hook_events_no_handler. intros [].
    + cbn [snd]. rewrite data_hook_events_no_handler. intros [].
    + assert (Hhook : data_hook server = None).
      { unfold data_hook_answer in Hans. destruct (data_hook server); [discriminate | auto]. }
      intros Hin. destruct (Hpath _ _ Hin) as (N & E & HN & HE & Hf & Hp).
      exists N, E. rewrite (data_params_without_hook env server params h Hhook).
      repeat split; try assumption; intros _; assumption.
  - assert (Hpath : forall q h',
              In (f, c, p)
                 (handler_calls
                    (snd (function_registry_run env server
                            (dict_get_default "functionName" (JStr "") params) q h'))) ->
              exists N F,
                dict_get_default "functionName" (JStr "") params = JStr N
                /\ dict_get N (_exposed_functions server) = Some F
                /\ f = f_handler F /\ p = q).
    { intros q h' Hin.
      destruct (function_registry_run_events env server
                  (dict_get_default "functionName" (JStr "") params) q h')
        as [Hnil | (N & F & HN & HF & Hevs)].
      - rewrite Hnil in Hin. destruct Hin.
      - rewrite Hevs in Hin. cbn in Hin. destruct Hin as [[= <- <- <-] | []].
        exists N, F. auto. }
    rewrite call_function_by_hook_answer. cbv zeta.
    destruct (call_hook_answer env server params h) as [[v | e] |] eqn:Hans.
    + destruct (is_None v); cbn [snd].
      * rewrite handler_calls_app, call_hook_events_no_handler. cbn [app].
        intros Hin. destruct (Hpath _ _ Hin) as (N & F & HN & HF & Hf & Hp).
        exists N, F. repeat split; try assumption.
        intros Hnone. unfold call_hook_answer in Hans. rewrite Hnone in Hans. discriminate.
      * rewrite call_hook_events_no_handler. intros [].
    + cbn [snd]. rewrite call_hook_events_no_handler. intros [].
    + assert (Hhook : call_hook server = None).
      { unfold call_hook_answer in Hans. destruct (call_hook server); [discriminate | auto]. }
      intros Hin. destruct (Hpath _ _ Hin) as (N & F & HN & HF & Hf & Hp).
      exists N, F. rewrite (call_arguments_without_hook env server params h Hhook).
      repeat split; try assumption; intros _; assumption.
Qed.

(** The kitchen-sink skill asked for its notes summary, and the skill
    whose hook writes into the params: the handler reached is the one
    registered under the name asked for, and it is passed what the hook
    left. *)
Lemma only_requested_handler_kitchen_sink :
  (exists N E,
      dict_get_default "dataName" (JStr "") [("dataName", JStr "notes-summary")] = JStr N
      /\ dict_get N (_exposed_data (KitchenSink.server (Some KitchenSink.hooks))) = Some E
      /\ Fn 1 = d_handler E
      /\ JObj [] = data_params_after_hook Doubles.env
                     (KitchenSink.server (Some KitchenSink.hooks))
                     [("dataName", JStr "notes-summary")] [])
  /\ (exists N E,
         dict_get_default "dataName" (JStr "") [("dataName", JStr "echo")] = JStr N
         /\ dict_get N (_exposed_data Doubles.rewriting_server) = Some E
         /\ Fn 31 = d_handler E
         /\ JObj [("injected", JBool true)]
            = data_params_after_hook Doubles.env Doubles.rewriting_server
                [("dataName", JStr "echo")] []).
Proof.
  split.
  - destruct (proj1 (only_requested_handler_invoked
                       Doubles.env (KitchenSink.server (Some KitchenSink.hooks))
                       [("dataName", JStr "notes-summary")] [] (Fn 1) (Context 2) (JObj [])))
      as (N & E & HN & HE & Hf & Hp & _).
    + cbn. left. reflexivity.
    + exists N, E. auto.
  - destruct (proj1 (only_requested_handler_invoked
                       Doubles.env Doubles.rewriting_server
                       [("dataName", JStr "echo")] [] (Fn 31) (Context 2)
                       (JObj [("injected", JBool true)])))
      as (N & E & HN & HE & Hf & Hp & _).
    + cbn. left. reflexivity.
    + exists N, E. auto.
Defined.

(** ** A hook that raises *)

(** X3: when the data-hook (resp. call-hook) raises, getData (resp.
    callFunction) fails with that very exception; the calls made are the
    creation of the hook's context and the hook, so the registry is not
    looked up and no handler is invoked, registered name or not. *)
Theorem hook_failure_propagates :
  forall (env : Env) (server : Server) (params : Dict Json) (h : Trace) (e : Exn),
    (data_hook_answer env server params h = Some (Raised e) ->
     handle_get_data env server params h
     = (Raised e, data_hook_events env server params h)
     /\ handler_calls (snd (handle_get_data env server params h)) = [])
    /\
    (call_hook_answer env server params h = Some (Raised e) ->
     handle_call_function env server params h
     = (Raised e, call_hook_events env server params h)
     /\ handler_calls (snd (handle_call_function env server params h)) = []).
Proof.
  intros env server params h e. split; intros Hans.
  - rewrite get_data_by_hook_answer. cbv zeta. rewrite Hans.
    split; [reflexivity |]. apply data_hook_events_no_handler.
  - rewrite call_function_by_hook_answer. cbv zeta. rewrite Hans.
    split; [reflexivity |]. apply call_hook_events_no_handler.
Qed.

(** The kitchen-sink registries behind hooks that raise: a registered name
    is asked for, and the hook's failure is all there is. *)
Lemma hook_failure_kitchen_sink :
  handle_get_data Doubles.env Online.failing_hooks_server
    [("callerSkillId", JStr "x"); ("dataName", JStr "notes-summary")] []
  = (Raised (mkExn "RuntimeError" "handler failed"),
     [ EvCreateContext (Context 0);
       EvOnInteropData (Fn 20) (Context 0) (JStr "x") (JStr "notes-summary") (JObj []) ])
  /\ fst (handle_call_function Doubles.env Online.failing_hooks_server
            [("callerSkillId", JStr "x"); ("functionName", JStr "add-note")] [])
     = Raised (mkExn "RuntimeError" "handler failed").
Proof.
  split.
  - exact (proj1 (proj1 (hook_failure_propagates
                           Doubles.env Online.failing_hooks_server
                           [("callerSkillId", JStr "x"); ("dataName", JStr "notes-summary")]
                           [] (mkExn "RuntimeError" "handler failed")) eq_refl)).
  - exact (f_equal fst
             (proj1 (proj2 (hook_failure_propagates
                              Doubles.env Online.failing_hooks_server
                              [("callerSkillId", JStr "x"); ("functionName", JStr "add-note")]
                              [] (mkExn "RuntimeError" "handler failed")) eq_refl))).
Defined.

(** ** Dispatch to a registered function *)

(** X4: when no call-hook is registered or the call-hook returns [None],
    callFunction for the name of a registered function F invokes F's
    handler once, after the hook consultation, with a context created for
    it and the arguments of the request as the hook left them, which are
    the request's own when no hook is registered or the hook did not write
    into them; it returns [{"data": r}] when the handler returns r, and
    when the handler raises, the exception leaves callFunction as it is,
    neither wrapped nor replaced. *)
Theorem call_function_invokes_registered_handler :
  forall (env : Env) (server : Server) (params : Dict Json) (h : Trace)
         (F : ExposedFunctionDefinition),
    defers (call_hook_answer env server params h) ->
    dict_get "functionName" params = Some (JStr (f_name F)) ->
    dict_get (f_name F) (_exposed_functions server) = Some F ->
    let consulted := call_hook_events env server params h in
    let ctx := create_context env (h ++ consulted) in
    let arguments := call_arguments_after_hook env server params h in
    let run := handle_call_function env server params h in
    snd run = consulted ++ [EvCreateContext ctx; EvHandler (f_handler F) ctx arguments]
    /\ handler_calls (snd run) = [(f_handler F, ctx, arguments)]
    /\ fst run = match fst (call env (f_handler F) ctx [arguments]
                              (h ++ consulted ++ [EvCreateContext ctx])) with
                 | Ok r => Ok (data_response r)
                 | Raised e => Raised e
                 end
    /\ (call_hook server = None ->
        arguments = dict_get_default "arguments" (JObj []) params).
Proof.
  intros env server params h F Hdefer Hname Hreg consulted ctx arguments run.
  subst run ctx consulted arguments.
  rewrite call_function_by_hook_answer. cbv zeta.
  rewrite (dict_get_default_present _ _ _ _ Hname).
  unfold function_registry_run. cbn [hash_key registry_get]. rewrite Hreg. cbv zeta.
  destruct Hdefer as [Hans | Hans]; rewrite Hans.
  - assert (Hhook : call_hook server = None).
    { unfold call_hook_answer in Hans. destruct (call_hook server); [discriminate | auto]. }
    rewrite (call_arguments_without_hook env server params h Hhook).
    unfold call_hook_events. rewrite Hhook. cbn [app]. rewrite app_nil_r.
    repeat split.
  - cbn [is_None fst snd]. rewrite handler_calls_app, call_hook_events_no_handler.
    rewrite <- app_assoc.
    repeat split. apply call_arguments_without_hook.
Qed.

(** The kitchen-sink skill with its deferring hooks: a note is added. *)
Lemma call_function_add_note_kitchen_sink :
  handle_call_function Doubles.env (KitchenSink.server (Some KitchenSink.hooks))
    [ ("callerSkillId", JStr "x"); ("functionName", JStr "add-note");
      ("arguments", JObj [("title", JStr "t")]) ] []
  = (Ok (JObj [("data", JObj [("note_id", JStr "note_1"); ("title", JStr "t")])]),
     [ EvCreateContext (Context 0);
       EvOnInteropCall (Fn 5) (Context 0) (JStr "x") (JStr "add-note")
         (JObj [("title", JStr "t")]);
       EvCreateContext (Context 2);
       EvHandler (Fn 3) (Context 2) (JObj [("title", JStr "t")]) ]).
Proof.
  pose proof (call_function_invokes_registered_handler
                Doubles.env (KitchenSink.server (Some KitchenSink.hooks))
                [ ("callerSkillId", JStr "x"); ("functionName", JStr "add-note");
                  ("arguments", JObj [("title", JStr "t")]) ]
                [] KitchenSink.add_note (or_intror eq_refl) eq_refl eq_refl)
    as [Hevs [_ [Hres _]]].
  apply injective_projections; [exact Hres | exact Hevs].
Defined.

(** ** Names that are not strings *)

(** X5: when no hook is registered or the hook returns [None], a request
    whose dataName (resp. functionName) is not a string fails whatever the
    registry holds, and no handler is invoked: a list or an object cannot
    be looked up ([TypeError]); [null], a boolean or a number is a name the
    registry does not hold ([ValueError]). *)
Theorem non_string_name_fails :
  forall (env : Env) (server : Server) (params : Dict Json) (h : Trace) (name : Json),
    (forall s, name <> JStr s) ->
    (defers (data_hook_answer env server params h) ->
     dict_get "dataName" params = Some name ->
     exists e,
       fst (handle_get_data env server params h) = Raised e
       /\ handler_calls (snd (handle_get_data env server params h)) = []
       /\ exn_class e = match name with
                        | JList _ | JObj _ => "TypeError"
                        | _ => "ValueError"
                        end)
    /\
    (defers (call_hook_answer env server params h) ->
     dict_get "functionName" params = Some name ->
     exists e,
       fst (handle_call_function env server params h) = Raised e
       /\ handler_calls (snd (handle_call_function env server params h)) = []
       /\ exn_class e = match name with
                        | JList _ | JObj _ => "TypeError"
                        | _ => "ValueError"
                        end).
Proof.
  intros env server params h name Hname. split; intros Hdefer Hget.
  - rewrite get_data_by_hook_answer. cbv zeta.
    rewrite (dict_get_default_present _ _ _ _ Hget).
    unfold data_registry_run.
    destruct name as [| b | z | s | l | kv];
      try (exfalso; exact (Hname s eq_refl));
      cbn [hash_key registry_get];
      (destruct Hdefer as [Hans | Hans]; rewrite Hans; cbn [is_None fst snd];
       try rewrite app_nil_r;
       eexists; (split; [reflexivity |]);
       (split; [try reflexivity; apply data_hook_events_no_handler | reflexivity])).
  - rewrite call_function_by_hook_answer. cbv zeta.
    rewrite (dict_get_default_present _ _ _ _ Hget).
    unfold function_registry_run.
    destruct name as [| b | z | s | l | kv];
      try (exfalso; exact (Hname s eq_refl));
      cbn [hash_key registry_get];
      (destruct Hdefer as [Hans | Hans]; rewrite Hans; cbn [is_None fst snd];
       try rewrite app_nil_r;
       eexists; (split; [reflexivity |]);
       (split; [try reflexivity; apply call_hook_events_no_handler | reflexivity])).
Qed.

(** The kitchen-sink skill asked for a number and for a list. *)
Lemma non_string_name_kitchen_sink :
  (exists e,
      fst (handle_get_data Doubles.env (KitchenSink.server (Some KitchenSink.hooks))
             [("callerSkillId", JStr "x"); ("dataName", JNum 5)] []) = Raised e
      /\ handler_calls
           (snd (handle_get_data Doubles.env (KitchenSink.server (Some KitchenSink.hooks))
                   [("callerSkillId", JStr "x"); ("dataName", JNum 5)] [])) = []
      /\ exn_class e = "ValueError")
  /\ (exists e,
         fst (handle_call_function Doubles.env (KitchenSink.server None)
                [("functionName", JList [JStr "add-note"])] []) = Raised e
         /\ handler_calls
              (snd (handle_call_function Doubles.env (KitchenSink.server None)
                      [("functionName", JList [JStr "add-note"])] [])) = []
         /\ exn_class e = "TypeError").
Proof.
  split.
  - refine (proj1 (non_string_name_fails
                     Doubles.env (KitchenSink.server (Some KitchenSink.hooks))
                     [("callerSkillId", JStr "x"); ("dataName", JNum 5)] [] (JNum 5) _)
                  (or_intror eq_refl) eq_refl).
    intros s; discriminate.
  - refine (proj2 (non_string_name_fails
                     Doubles.env (KitchenSink.server None)
                     [("functionName", JList [JStr "add-note"])] []
                     (JList [JStr "add-note"]) _)
                  (or_introl eq_refl) eq_refl).
    intros s; discriminate.
Defined.

(** ** What a run does not depend on *)

(** X6: getData reads the data-hook and the data registry only, and
    callFunction the call-hook and the function registry only: two servers
    that agree on these give the same run, whatever functions and call-hook
    (resp. data endpoints and data-hook) each one has. *)
Theorem dispatch_reads_its_own_registry :
  forall (env : Env) (server server' : Server) (params : Dict Json) (h : Trace),
    (data_hook server = data_hook server' ->
     _exposed_data server = _exposed_data server' ->
     handle_get_data env server params h = handle_get_data env server' params h)
    /\
    (call_hook server = call_hook server' ->
     _exposed_functions server = _exposed_functions server' ->
     handle_call_function env server params h = handle_call_function env server' params h).
Proof.
  intros env server server' params h. split; intros Hhook Hreg.
  - unfold handle_get_data. rewrite Hhook, Hreg. reflexivity.
  - unfold handle_call_function. rewrite Hhook, Hreg. reflexivity.
Qed.

(** The kitchen-sink data endpoints next to other functions and another
    call-hook: getData runs as on the kitchen-sink server. *)
Lemma dispatch_reads_its_own_registry_kitchen_sink :
  handle_get_data Doubles.env (KitchenSink.server (Some KitchenSink.hooks))
    [("callerSkillId", JStr "x"); ("dataName", JStr "connection-status")] []
  = handle_get_data Doubles.env Online.other_functions_server
      [("callerSkillId", JStr "x"); ("dataName", JStr "connection-status")] []
  /\ handle_call_function Doubles.env (KitchenSink.server None)
       [("functionName", JStr "add-note")] []
     = handle_call_function Doubles.env
         {| _hooks := Some {| on_interop_data := Some (Fn 8); on_interop_call := None |};
            _exposed_data := [];
            _exposed_functions := [("add-note", KitchenSink.add_note)] |}
         [("functionName", JStr "add-note")] [].
Proof.
  split.
  - exact (proj1 (dispatch_reads_its_own_registry
                    Doubles.env (KitchenSink.server (Some KitchenSink.hooks))
                    Online.other_functions_server
                    [("callerSkillId", JStr "x"); ("dataName", JStr "connection-status")] [])
                 eq_refl eq_refl).
  - exact (proj2 (dispatch_reads_its_own_registry
                    Doubles.env (KitchenSink.server None)
                    {| _hooks := Some {| on_interop_data := Some (Fn 8);
                                         on_interop_call := None |};
                       _exposed_data := [];
                       _exposed_functions := [("add-note", KitchenSink.add_note)] |}
                    [("functionName", JStr "add-note")] [])
                 eq_refl eq_refl).
Defined.

(** X7: with no hook registered, the caller identity and every other field
    of the payload but the name and the params (resp. the arguments) have
    no part in the run: two payloads that agree on these two fields are
    dispatched alike. *)
Theorem caller_ignored_without_hook :
  forall (env : Env) (server : Server) (params params' : Dict Json) (h : Trace),
    (data_hook server = None ->
     dict_get "dataName" params = dict_get "dataName" params' ->
     dict_get "params" params = dict_get "params" params' ->
     handle_get_data env server params h = handle_get_data env server params' h)
    /\
    (call_hook server = None ->
     dict_get "functionName" params = dict_get "functionName" params' ->
     dict_get "arguments" params = dict_get "arguments" params' ->
     handle_call_function env server params h = handle_call_function env server params' h).
Proof.
  intros env server params params' h. split; intros Hhook Hname Hargs.
  - rewrite !get_data_registry_path by assumption.
    unfold dict_get_default. rewrite Hname, Hargs. reflexivity.
  - rewrite !call_function_registry_path by assumption.
    unfold dict_get_default. rewrite Hname, Hargs. reflexivity.
Qed.

(** The private endpoint, asked for by two callers, one of them
    anonymous. *)
Lemma caller_ignored_private_server :
  handle_get_data Doubles.env Doubles.private_server
    [("callerSkillId", JStr "intruder"); ("dataName", JStr "secret")] []
  = handle_get_data Doubles.env Doubles.private_server
      [("dataName", JStr "secret"); ("trace", JBool true)] []
  /\ handle_call_function Doubles.env Doubles.private_server
       [("callerSkillId", JStr "intruder"); ("functionName", JStr "wipe")] []
     = handle_call_function Doubles.env Doubles.private_server
         [("callerSkillId", JStr "frontend"); ("functionName", JStr "wipe")] [].
Proof.
  split.
  - exact (proj1 (caller_ignored_without_hook
                    Doubles.env Doubles.private_server
                    [("callerSkillId", JStr "intruder"); ("dataName", JStr "secret")]
                    [("dataName", JStr "secret"); ("trace", JBool true)] [])
                 eq_refl eq_refl eq_refl).
  - exact (proj2 (caller_ignored_without_hook
                    Doubles.env Doubles.private_server
                    [("callerSkillId", JStr "intruder"); ("functionName", JStr "wipe")]
                    [("callerSkillId", JStr "frontend"); ("functionName", JStr "wipe")] [])
                 eq_refl eq_refl eq_refl).
Defined.

(** ** Discovery and dispatch agree *)

Lemma entry_names_data (l : list ExposedDataDefinition) :
  entry_names (map data_entry l) = map d_name l.
Proof.
  induction l as [| E l IH]; [reflexivity |].
  cbn [map]. change (entry_names (data_entry E :: map data_entry l))
    with (d_name E :: entry_names (map data_entry l)).
  rewrite IH. reflexivity.
Qed.

Lemma entry_names_functions (l : list ExposedFunctionDefinition) :
  entry_names (map function_entry l) = map f_name l.
Proof.
  induction l as [| F l IH]; [reflexivity |].
  cbn [map]. change (entry_names (function_entry F :: map function_entry l))
    with (f_name F :: entry_names (map function_entry l)).
  rewrite IH. reflexivity.
Qed.

Lemma listed_data_names (server : Server) :
  listed_names "data" (handle_list_exposed server)
  = map d_name (dict_values (_exposed_data server)).
Proof.
  unfold handle_list_exposed, listed_names. cbn [dict_get String.eqb Ascii.eqb Bool.eqb].
  apply entry_names_data.
Qed.

Lemma listed_function_names (server : Server) :
  listed_names "functions" (handle_list_exposed server)
  = map f_name (dict_values (_exposed_functions server)).
Proof.
  unfold handle_list_exposed, listed_names. cbn [dict_get String.eqb Ascii.eqb Bool.eqb].
  apply entry_names_functions.
Qed.

Lemma dict_get_in_keys {V : Type} (k : string) (d : Dict V) :
  In k (dict_keys d) <-> exists v, dict_get k d = Some v.
Proof.
  induction d as [| [k' v'] d IH]; cbn.
  - split; [intros [] | intros [v Hv]; discriminate].
  - destruct (String.eqb_spec k' k) as [-> | Hne].
    + split; [intros _; eexists; reflexivity | intros _; left; reflexivity].
    + rewrite <- IH. split; [intros [Heq | Hin]; [contradiction | exact Hin] | auto].
Qed.

Lemma data_names_are_keys (reg : Dict ExposedDataDefinition) :
  data_keyed_by_name reg -> map d_name (dict_values reg) = dict_keys reg.
Proof.
  unfold data_keyed_by_name, dict_values, dict_keys.
  induction 1 as [| kv reg Hkv _ IH]; cbn; [reflexivity |].
  rewrite IH, Hkv. reflexivity.
Qed.

Lemma function_names_are_keys (reg : Dict ExposedFunctionDefinition) :
  functions_keyed_by_name reg -> map f_name (dict_values reg) = dict_keys reg.
Proof.
  unfold functions_keyed_by_name, dict_values, dict_keys.
  induction 1 as [| kv reg Hkv _ IH]; cbn; [reflexivity |].
  rewrite IH, Hkv. reflexivity.
Qed.

(** X8: on a server whose registries hold every entry under its own name,
    the names that listExposed lists are the names that dispatch serves:
    when no hook is registered or the hook returns [None], getData for a
    name N invokes a handler if and only if N is among the names listed
    under data, and fails with "Unknown data endpoint: N" otherwise;
    likewise callFunction and the names listed under functions. *)
Theorem listed_names_are_served :
  forall (env : Env) (server : Server) (params : Dict Json) (h : Trace) (N : string),
    (data_keyed_by_name (_exposed_data server) ->
     defers (data_hook_answer env server params h) ->
     dict_get "dataName" params = Some (JStr N) ->
     let run := handle_get_data env server params h in
     (In N (listed_names "data" (handle_list_exposed server))
      <-> length (handler_calls (snd run)) = 1%nat)
     /\ (~ In N (listed_names "data" (handle_list_exposed server))
         <-> fst run = Raised (ValueError ("Unknown data endpoint: " ++ N)%string)
             /\ handler_calls (snd run) = []))
    /\
    (functions_keyed_by_name (_exposed_functions server) ->
     defers (call_hook_answer env server params h) ->
     dict_get "functionName" params = Some (JStr N) ->
     let run := handle_call_function env server params h in
     (In N (listed_names "functions" (handle_list_exposed server))
      <-> length (handler_calls (snd run)) = 1%nat)
     /\ (~ In N (listed_names "functions" (handle_list_exposed server))
         <-> fst run = Raised (ValueError ("Unknown function: " ++ N)%string)
             /\ handler_calls (snd run) = [])).
Proof.
  intros env server params h N. split.
  - intros Hkeyed Hdefer Hname run. subst run.
    rewrite listed_data_names, (data_names_are_keys _ Hkeyed), dict_get_in_keys.
    destruct (dict_get N (_exposed_data server)) as [E |] eqn:HE.
    + assert (HN : N = d_name E).
      { clear - Hkeyed HE. unfold data_keyed_by_name in Hkeyed.
        induction Hkeyed as [| [k v] reg Hkv _ IH]; cbn in HE; [discriminate |].
        destruct (String.eqb_spec k N) as [<- | Hne]; [| exact (IH HE)].
        injection HE as <-. exact Hkv. }
      subst N.
      assert (Hone : length (handler_calls (snd (handle_get_data env server params h)))
                     = 1%nat).
      { rewrite get_data_by_hook_answer. cbv zeta.
        rewrite (dict_get_default_present _ _ _ _ Hname).
        unfold data_registry_run. cbn [hash_key registry_get]. rewrite HE. cbv zeta.
        destruct Hdefer as [Hans | Hans]; rewrite Hans; cbn [is_None fst snd];
          [| rewrite handler_calls_app, data_hook_events_no_handler]; reflexivity. }
      split; split.
      * intros _. exact Hone.
      * intros _. eexists; reflexivity.
      * intros Hnot. exfalso. apply Hnot. eexists; reflexivity.
      * intros [_ Hnil]. rewrite Hnil in Hone. discriminate.
    + pose proof (proj1 (unregistered_name_fails_general env server params h N)
                    Hdefer Hname HE) as Hrun.
      assert (Hres : fst (handle_get_data env server params h)
                     = Raised (ValueError ("Unknown data endpoint: " ++ N)%string))
        by (rewrite Hrun; reflexivity).
      assert (Hnil : handler_calls (snd (handle_get_data env server params h)) = [])
        by (rewrite Hrun; apply data_hook_events_no_handler).
      clear Hrun.
      split; split.
      * intros [v Hv]; discriminate.
      * rewrite Hnil. discriminate.
      * intros _. split; assumption.
      * intros _ [v Hv]; discriminate.
  - intros Hkeyed Hdefer Hname run. subst run.
    rewrite listed_function_names, (function_names_are_keys _ Hkeyed), dict_get_in_keys.
    destruct (dict_get N (_exposed_functions server)) as [F |] eqn:HF.
    + assert (HN : N = f_name F).
      { clear - Hkeyed HF. unfold functions_keyed_by_name in Hkeyed.
        induction Hkeyed as [| [k v] reg Hkv _ IH]; cbn in HF; [discriminate |].
        destruct (String.eqb_spec k N) as [<- | Hne]; [| exact (IH HF)].
        injection HF as <-. exact Hkv. }
      subst N.
      assert (Hone : length (handler_calls (snd (handle_call_function env server params h)))
                     = 1%nat).
      { rewrite call_function_by_hook_answer. cbv zeta.
        rewrite (dict_get_default_present _ _ _ _ Hname).
        unfold function_registry_run. cbn [hash_key registry_get]. rewrite HF. cbv zeta.
        destruct Hdefer as [Hans | Hans]; rewrite Hans; cbn [is_None fst snd];
          [| rewrite handler_calls_app, call_hook_events_no_handler]; reflexivity. }
      split; split.
      * intros _. exact Hone.
      * intros _. eexists; reflexivity.
      * intros Hnot. exfalso. apply Hnot. eexists; reflexivity.
      * intros [_ Hnil]. rewrite Hnil in Hone. discriminate.
    + pose proof (proj2 (unregistered_name_fails_general env server params h N)
                    Hdefer Hname HF) as Hrun.
      assert (Hres : fst (handle_call_function env server params h)
                     = Raised (ValueError ("Unknown function: " ++ N)%string))
        by (rewrite Hrun; reflexivity).
      assert (Hnil : handler_calls (snd (handle_call_function env server params h)) = [])
        by (rewrite Hrun; apply call_hook_events_no_handler).
      clear Hrun.
      split; split.
      * intros [v Hv]; discriminate.
      * rewrite Hnil. discriminate.
      * intros _. split; assumption.
      * intros _ [v Hv]; discriminate.
Qed.

(** The kitchen-sink skill: what it lists is what it serves. *)
Lemma listed_names_kitchen_sink :
  listed_names "data" (handle_list_exposed (KitchenSink.server (Some KitchenSink.hooks)))
  = ["notes-summary"; "connection-status"]
  /\ length (handler_calls
               (snd (handle_get_data Doubles.env (KitchenSink.server (Some KitchenSink.hooks))
                       [("dataName", JStr "connection-status")] []))) = 1%nat
  /\ fst (handle_call_function Doubles.env (KitchenSink.server (Some KitchenSink.hooks))
            [("functionName", JStr "notes-summary")] [])
     = Raised (ValueError "Unknown function: notes-summary").
Proof.
  assert (Hdata : data_keyed_by_name
                    (_exposed_data (KitchenSink.server (Some KitchenSink.hooks))))
    by (repeat constructor).
  assert (Hfun : functions_keyed_by_name
                   (_exposed_functions (KitchenSink.server (Some KitchenSink.hooks))))
    by (repeat constructor).
  split; [reflexivity |]. split.
  - apply (proj1 (proj1 (listed_names_are_served
                           Doubles.env (KitchenSink.server (Some KitchenSink.hooks))
                           [("dataName", JStr "connection-status")] [] "connection-status")
                        Hdata (or_intror eq_refl) eq_refl)).
    right; left; reflexivity.
  - apply (proj2 (proj2 (listed_names_are_served
                           Doubles.env (KitchenSink.server (Some KitchenSink.hooks))
                           [("functionName", JStr "notes-summary")] [] "notes-summary")
                        Hfun (or_intror eq_refl) eq_refl)).
    intros [Heq | []]. discriminate.
Defined.

(** ** The outbound tools, case by case *)

(** What a listing tool comes to. *)
Lemma listing_cases (env : Env) (answer : Trace -> Outcome Json) (ev : Event) (h : Trace) :
  (result <- perform answer ev;; dumped env result) h
  = (match answer h with
     | Ok r => match json_dumps env r with
               | Ok text => Ok {| content := text; is_error := false |}
               | Raised e => Raised e
               end
     | Raised e => Raised e
     end, [ev]).
Proof.
  run_coroutine.
  destruct (answer h) as [r | e]; [| reflexivity].
  destruct (json_dumps env r); reflexivity.
Qed.


(** X9: request-skill-data and call-skill-function make at most one call
    on every input and in every environment.  They return a result, or
    they raise an exception that [except Exception] does not catch
    (a cancellation, a keyboard interrupt), which then is the one the
    collaborator or the serialisation raised; an exception derived from
    [Exception] never leaves them.  A result that is not an error result
    comes from exactly one collaborator call that returned, and its
    content is the JSON text of what the collaborator returned. *)
Theorem forwarding_tools_return_or_propagate :
  forall (env : Env) (args : Dict Json) (h : Trace),
    ((length (snd (_request_skill_data env args h)) <= 1)%nat
     /\ match fst (_request_skill_data env args h) with
        | Ok result =>
            is_error result = false ->
            exists skill_id data_name params r,
              snd (_request_skill_data env args h)
              = [EvRequestSkillData skill_id data_name params]
              /\ request_skill_data env skill_id data_name params h = Ok r
              /\ json_dumps env r = Ok (content result)
        | Raised e =>
            derives_Exception e = false
            /\ exists skill_id data_name params,
                 snd (_request_skill_data env args h)
                 = [EvRequestSkillData skill_id data_name params]
                 /\ (request_skill_data env skill_id data_name params h = Raised e
                     \/ exists r,
                          request_skill_data env skill_id data_name params h = Ok r
                          /\ json_dumps env r = Raised e)
        end)
    /\
    ((length (snd (_call_skill_function env args h)) <= 1)%nat
     /\ match fst (_call_skill_function env args h) with
        | Ok result =>
            is_error result = false ->
            exists skill_id function_name arguments r,
              snd (_call_skill_function env args h)
              = [EvCallSkillFunction skill_id function_name arguments]
              /\ call_skill_function env skill_id function_name arguments h = Ok r
              /\ json_dumps env r = Ok (content result)
        | Raised e =>
            derives_Exception e = false
            /\ exists skill_id function_name arguments,
                 snd (_call_skill_function env args h)
                 = [EvCallSkillFunction skill_id function_name arguments]
                 /\ (call_skill_function env skill_id function_name arguments h = Raised e
                     \/ exists r,
                          call_skill_function env skill_id function_name arguments h = Ok r
                          /\ json_dumps env r = Raised e)
        end).
Proof.
  intros env args h. split.
  - rewrite request_skill_data_cases. cbv zeta.
    destruct (truthy _ && truthy _); [| split; [cbn; lia | discriminate]].
    split; [cbn; lia |]. cbn [fst snd].
    destruct (request_skill_data env _ _ _ h) as [r | e] eqn:Hr.
    + destruct (json_dumps env r) as [text | e] eqn:Ht.
      * intros _. eexists _, _, _, r. split; [reflexivity |]. split; [exact Hr | exact Ht].
      * destruct (derives_Exception e) eqn:He; [discriminate |].
        split; [exact He |]. eexists _, _, _. split; [reflexivity |].
        right. exists r. split; [exact Hr | exact Ht].
    + destruct (derives_Exception e) eqn:He; [discriminate |].
      split; [exact He |]. eexists _, _, _. split; [reflexivity |]. left. exact Hr.
  - rewrite call_skill_function_cases. cbv zeta.
    destruct (truthy _ && truthy _); [| split; [cbn; lia | discriminate]].
    split; [cbn; lia |]. cbn [fst snd].
    destruct (call_skill_function env _ _ _ h) as [r | e] eqn:Hr.
    + destruct (json_dumps env r) as [text | e] eqn:Ht.
      * intros _. eexists _, _, _, r. split; [reflexivity |]. split; [exact Hr | exact Ht].
      * destruct (derives_Exception e) eqn:He; [discriminate |].
        split; [exact He |]. eexists _, _, _. split; [reflexivity |].
        right. exists r. split; [exact Hr | exact Ht].
    + destruct (derives_Exception e) eqn:He; [discriminate |].
      split; [exact He |]. eexists _, _, _. split; [reflexivity |]. left. exact Hr.
Qed.

(** Against a host that answers: a request that went through, and one
    during which the task is cancelled. *)
Lemma forwarding_tools_online_and_cancelled :
  (is_error {| content := "{...}"; is_error := false |} = false ->
   exists skill_id data_name params r,
     snd (_request_skill_data Online.env
            [("skill_id", JStr "notes"); ("data_name", JStr "status")] [])
     = [EvRequestSkillData skill_id data_name params]
     /\ request_skill_data Online.env skill_id data_name params [] = Ok r
     /\ json_dumps Online.env r = Ok "{...}")
  /\ fst (_request_skill_data Online.env
            [("skill_id", JStr "notes"); ("data_name", JStr "cancelled")] [])
     = Raised CancelledError
  /\ derives_Exception CancelledError = false.
Proof.
  split; [| split; [reflexivity |]].
  - exact (proj2 (proj1 (forwarding_tools_return_or_propagate
                           Online.env
                           [("skill_id", JStr "notes"); ("data_name", JStr "status")] []))).
  - exact (proj1 (proj2 (proj1 (forwarding_tools_return_or_propagate
                                  Online.env
                                  [("skill_id", JStr "notes");
                                   ("data_name", JStr "cancelled")] [])))).
Defined.

(** X10: a required argument that is present but falsy counts as missing:
    when skill_id or data_name (resp. function_name) is the empty string,
    [None], [False], zero, an empty list or an empty object,
    request-skill-data (resp. call-skill-function) returns its fixed error
    result and makes no call. *)
Theorem falsy_argument_is_local :
  forall (env : Env) (args : Dict Json) (h : Trace),
    (truthy (dict_get_default "skill_id" (JStr "") args) = false
     \/ truthy (dict_get_default "data_name" (JStr "") args) = false ->
     _request_skill_data env args h
     = (Ok {| content := "skill_id and data_name are required"; is_error := true |}, []))
    /\
    (truthy (dict_get_default "skill_id" (JStr "") args) = false
     \/ truthy (dict_get_default "function_name" (JStr "") args) = false ->
     _call_skill_function env args h
     = (Ok {| content := "skill_id and function_name are required"; is_error := true |},
        [])).
Proof.
  intros env args h. split; intros Hfalsy.
  - rewrite request_skill_data_cases. cbv zeta.
    destruct Hfalsy as [-> | ->]; [| rewrite andb_false_r]; reflexivity.
  - rewrite call_skill_function_cases. cbv zeta.
    destruct Hfalsy as [-> | ->]; [| rewrite andb_false_r]; reflexivity.
Qed.

(** An empty skill id, and a function name that is null, against a host
    that would answer. *)
Lemma falsy_argument_online :
  _request_skill_data Online.env
    [("skill_id", JStr ""); ("data_name", JStr "status")] []
  = (Ok {| content := "skill_id and data_name are required"; is_error := true |}, [])
  /\ _call_skill_function Online.env
       [("skill_id", JStr "notes"); ("function_name", JNull)] []
     = (Ok {| content := "skill_id and function_name are required"; is_error := true |},
        []).
Proof.
  split.
  - exact (proj1 (falsy_argument_is_local
                    Online.env [("skill_id", JStr ""); ("data_name", JStr "status")] [])
                 (or_introl eq_refl)).
  - exact (proj2 (falsy_argument_is_local
                    Online.env [("skill_id", JStr "notes"); ("function_name", JNull)] [])
                 (or_intror eq_refl)).
Defined.


(** X11: with a skill id and a name that are both truthy,
    request-skill-data (resp. call-skill-function) makes exactly one call,
    the collaborator's, passing the skill id, the name and the params
    (resp. arguments) of the call, [None] for params left out; what the
    collaborator returns is given back as JSON text; a failure of the
    collaborator or of the serialisation with an exception derived from
    [Exception] becomes an error result whose content is the text of the
    exception, and any other exception (a cancellation) leaves the tool as
    it is. *)
Theorem forwarding_tools_forward :
  forall (env : Env) (args : Dict Json) (h : Trace),
    truthy (dict_get_default "skill_id" (JStr "") args) = true ->
    let skill_id := dict_get_default "skill_id" (JStr "") args in
    (truthy (dict_get_default "data_name" (JStr "") args) = true ->
     let data_name := dict_get_default "data_name" (JStr "") args in
     let params := dict_get_default "params" JNull args in
     let run := _request_skill_data env args h in
     snd run = [EvRequestSkillData skill_id data_name params]
     /\ (forall r text,
            request_skill_data env skill_id data_name params h = Ok r ->
            json_dumps env r = Ok text ->
            fst run = Ok {| content := text; is_error := false |})
     /\ (forall e,
            request_skill_data env skill_id data_name params h = Raised e
            \/ (exists r, request_skill_data env skill_id data_name params h = Ok r
                          /\ json_dumps env r = Raised e) ->
            fst run = if derives_Exception e
                      then Ok {| content := exn_text e; is_error := true |}
                      else Raised e))
    /\
    (truthy (dict_get_default "function_name" (JStr "") args) = true ->
     let function_name := dict_get_default "function_name" (JStr "") args in
     let arguments := dict_get_default "arguments" JNull args in
     let run := _call_skill_function env args h in
     snd run = [EvCallSkillFunction skill_id function_name arguments]
     /\ (forall r text,
            call_skill_function env skill_id function_name arguments h = Ok r ->
            json_dumps env r = Ok text ->
            fst run = Ok {| content := text; is_error := false |})
     /\ (forall e,
            call_skill_function env skill_id function_name arguments h = Raised e
            \/ (exists r, call_skill_function env skill_id function_name arguments h = Ok r
                          /\ json_dumps env r = Raised e) ->
            fst run = if derives_Exception e
                      then Ok {| content := exn_text e; is_error := true |}
                      else Raised e)).
Proof.
  intros env args h Hid skill_id. subst skill_id. split; intros Hname.
  - cbv zeta. rewrite request_skill_data_cases. cbv zeta. rewrite Hid, Hname.
    cbn [andb fst snd]. split; [reflexivity |]. split.
    + intros r text -> ->. reflexivity.
    + intros e [-> | [r [-> ->]]]; reflexivity.
  - cbv zeta. rewrite call_skill_function_cases. cbv zeta. rewrite Hid, Hname.
    cbn [andb fst snd]. split; [reflexivity |]. split.
    + intros r text -> ->. reflexivity.
    + intros e [-> | [r [-> ->]]]; reflexivity.
Qed.

(** Against a host that answers: a request that goes through, one whose
    answer has no JSON form, one that is cancelled, and a call with its
    arguments. *)
Lemma forwarding_tools_online :
  _request_skill_data Online.env
    [("skill_id", JStr "notes"); ("data_name", JStr "status")] []
  = (Ok {| content := "{...}"; is_error := false |},
     [EvRequestSkillData (JStr "notes") (JStr "status") JNull])
  /\ fst (_request_skill_data Online.env
            [("skill_id", JStr "notes"); ("data_name", JStr "unserialisable")] [])
     = Ok {| content := "Object of type set is not JSON serializable"; is_error := true |}
  /\ fst (_request_skill_data Online.env
            [("skill_id", JStr "notes"); ("data_name", JStr "cancelled")] [])
     = Raised CancelledError
  /\ snd (_call_skill_function Online.env
            [ ("skill_id", JStr "notes"); ("function_name", JStr "add-note");
              ("arguments", JObj [("title", JStr "t")]) ] [])
     = [EvCallSkillFunction (JStr "notes") (JStr "add-note") (JObj [("title", JStr "t")])].
Proof.
  split; [| split; [| split]].
  - destruct (proj1 (forwarding_tools_forward
                       Online.env
                       [("skill_id", JStr "notes"); ("data_name", JStr "status")] []
                       eq_refl) eq_refl) as [Hevs [Hok _]].
    apply injective_projections; [| exact Hevs].
    exact (Hok _ _ eq_refl eq_refl).
  - destruct (proj1 (forwarding_tools_forward
                       Online.env
                       [("skill_id", JStr "notes"); ("data_name", JStr "unserialisable")] []
                       eq_refl) eq_refl) as [_ [_ Hfail]].
    apply (Hfail (TypeError "Object of type set is not JSON serializable")).
    right. exists (JNum 13). split; reflexivity.
  - destruct (proj1 (forwarding_tools_forward
                       Online.env
                       [("skill_id", JStr "notes"); ("data_name", JStr "cancelled")] []
                       eq_refl) eq_refl) as [_ [_ Hfail]].
    apply (Hfail CancelledError). left. reflexivity.
  - exact (proj1 (proj2 (forwarding_tools_forward
                           Online.env
                           [ ("skill_id", JStr "notes"); ("function_name", JStr "add-note");
                             ("arguments", JObj [("title", JStr "t")]) ] []
                           eq_refl) eq_refl)).
Defined.

(** X12: a listing tool (list-skills, list-skill-data,
    list-skill-functions) makes exactly one call on every input, the
    collaborator's, passing the skill_id argument or [None] when there is
    none; it never returns an error result: when it returns, the flag is
    off and the content is the JSON text of what the collaborator
    returned.  list-skills reads none of its arguments, the two others only
    skill_id. *)
Theorem listing_tools_never_flag_errors :
  forall (env : Env) (args : Dict Json) (h : Trace),
    let skill_id := dict_get_default "skill_id" JNull args in
    (snd (_list_skills env args h) = [EvListSkills]
     /\ snd (_list_skill_data env args h) = [EvListExposedData skill_id]
     /\ snd (_list_skill_functions env args h) = [EvListExposedFunctions skill_id])
    /\ (forall result,
           fst (_list_skills env args h) = Ok result ->
           is_error result = false
           /\ exists r, list_skills env h = Ok r /\ json_dumps env r = Ok (content result))
    /\ (forall result,
           fst (_list_skill_data env args h) = Ok result ->
           is_error result = false
           /\ exists r, list_exposed_data env skill_id h = Ok r
                        /\ json_dumps env r = Ok (content result))
    /\ (forall result,
           fst (_list_skill_functions env args h) = Ok result ->
           is_error result = false
           /\ exists r, list_exposed_functions env skill_id h = Ok r
                        /\ json_dumps env r = Ok (content result))
    /\ (forall args',
           _list_skills env args' h = _list_skills env args h
           /\ (dict_get "skill_id" args' = dict_get "skill_id" args ->
               _list_skill_data env args' h = _list_skill_data env args h
               /\ _list_skill_functions env args' h = _list_skill_functions env args h)).
Proof.
  intros env args h skill_id. subst skill_id.
  unfold _list_skills, _list_skill_data, _list_skill_functions.
  rewrite !listing_cases. cbn [fst snd].
  split; [repeat split |]. split; [| split; [| split]].
  - intros result Hres.
    destruct (list_skills env h) as [r | e]; [| discriminate].
    destruct (json_dumps env r) as [text | e] eqn:Ht; [| discriminate].
    injection Hres as <-. split; [reflexivity |]. exists r. split; [reflexivity | exact Ht].
  - intros result Hres.
    destruct (list_exposed_data env _ h) as [r | e]; [| discriminate].
    destruct (json_dumps env r) as [text | e] eqn:Ht; [| discriminate].
    injection Hres as <-. split; [reflexivity |]. exists r. split; [reflexivity | exact Ht].
  - intros result Hres.
    destruct (list_exposed_functions env _ h) as [r | e]; [| discriminate].
    destruct (json_dumps env r) as [text | e] eqn:Ht; [| discriminate].
    injection Hres as <-. split; [reflexivity |]. exists r. split; [reflexivity | exact Ht].
  - intros args'. split; [reflexivity |].
    intros Hsame. unfold dict_get_default. rewrite !listing_cases, Hsame.
    split; reflexivity.
Qed.

(** Against a host that answers: the listing of one skill's data. *)
Lemma listing_tools_online :
  is_error {| content := "[...]"; is_error := false |} = false
  /\ (exists r, list_exposed_data Online.env (JStr "notes") [] = Ok r
                /\ json_dumps Online.env r = Ok "[...]")
  /\ _list_skill_functions Online.env [("verbose", JBool true)] []
     = _list_skill_functions Online.env [] [].
Proof.
  pose proof (listing_tools_never_flag_errors
                Online.env [("skill_id", JStr "notes")] []) as (_ & _ & Hdata & _).
  destruct (Hdata {| content := "[...]"; is_error := false |} eq_refl) as [Hflag Hr].
  split; [exact Hflag |]. split; [exact Hr |].
  pose proof (listing_tools_never_flag_errors Online.env [] [])
    as (_ & _ & _ & _ & Hargs).
  exact (proj2 (proj2 (Hargs [("verbose", JBool true)]) eq_refl)).
Defined.

(** ** The tool table *)

Lemma dict_get_In {V : Type} (k : string) (v : V) (d : Dict V) :
  dict_get k d = Some v -> In (k, v) d.
Proof.
  induction d as [| [k' v'] d IH]; cbn; [discriminate |].
  destruct (String.eqb_spec k' k) as [-> | Hne].
  - intros [= ->]. left; reflexivity.
  - intros Hget. right. exact (IH Hget).
Qed.

Lemma truthy_default_None (a : string) (args : Dict Json) :
  truthy (dict_get_default a JNull args) = true ->
  truthy (dict_get_default a (JStr "") args) = true.
Proof.
  unfold dict_get_default. destruct (dict_get a args); [auto | discriminate].
Qed.

Lemma build_interop_tools_consistent (env : Env) :
  Forall (fun kv => tool_consistent (fst kv) (snd kv)) (build_interop_tools env).
Proof.
  unfold build_interop_tools. cbn [dict_set String.eqb Ascii.eqb Bool.eqb].
  repeat apply Forall_cons; [| | | | | apply Forall_nil];
    unfold tool_consistent; cbn [fst snd definition execute td_name];
    (split; [reflexivity |]); (split; [cbn; tauto |]); split.
  - cbn. tauto.
  - intros args h _. unfold _list_skills. rewrite listing_cases. reflexivity.
  - cbn. tauto.
  - intros args h _. unfold _list_skill_data. rewrite listing_cases. reflexivity.
  - cbn. tauto.
  - intros args h _. unfold _list_skill_functions. rewrite listing_cases. reflexivity.
  - intros a args h Hin Habs. cbn in Hin.
    rewrite request_skill_data_cases. cbv zeta.
    destruct Hin as [<- | [<- | []]];
      rewrite (dict_get_default_absent _ (JStr "") _ Habs); cbn [truthy String.eqb negb andb];
      [| rewrite andb_false_r]; eexists; reflexivity.
  - intros args h Hreq.
    rewrite request_skill_data_cases. cbv zeta.
    rewrite (truthy_default_None "skill_id" args), (truthy_default_None "data_name" args);
      [reflexivity | apply Hreq; cbn; tauto | apply Hreq; cbn; tauto].
  - intros a args h Hin Habs. cbn in Hin.
    rewrite call_skill_function_cases. cbv zeta.
    destruct Hin as [<- | [<- | []]];
      rewrite (dict_get_default_absent _ (JStr "") _ Habs); cbn [truthy String.eqb negb andb];
      [| rewrite andb_false_r]; eexists; reflexivity.
  - intros args h Hreq.
    rewrite call_skill_function_cases. cbv zeta.
    rewrite (truthy_default_None "skill_id" args), (truthy_default_None "function_name" args);
      [reflexivity | apply Hreq; cbn; tauto | apply Hreq; cbn; tauto].
Qed.

(** X13: every tool that [build_interop_tools] registers keeps what its
    definition announces: it is registered under the name of its
    definition; the arguments it declares as required are among its
    declared properties; a call that lacks a required argument is answered
    by an error result without any call being made; and a call in which
    every required argument is truthy makes exactly one call to the host
    collaborator (a listing tool, which requires nothing, on every
    call). *)
Theorem tools_keep_their_definition :
  forall (env : Env) (name : string) (tool : SkillTool),
    dict_get name (build_interop_tools env) = Some tool ->
    td_name (definition tool) = name
    /\ (forall a, In a (required_arguments (definition tool)) ->
                  In a (declared_arguments (definition tool)))
    /\ (forall a args h,
           In a (required_arguments (definition tool)) ->
           dict_get a args = None ->
           exists msg, execute tool args h = (Ok {| content := msg; is_error := true |}, []))
    /\ (forall args h,
           (forall a, In a (required_arguments (definition tool)) ->
                      truthy (dict_get_default a JNull args) = true) ->
           length (collaborator_calls (snd (execute tool args h))) = 1%nat).
Proof.
  intros env name tool Hget.
  pose proof (build_interop_tools_consistent env) as Hall.
  rewrite Forall_forall in Hall.
  exact (Hall (name, tool) (dict_get_In _ _ _ Hget)).
Qed.

(** The forwarding tools, looked up in the table. *)
Lemma tools_keep_their_definition_online :
  (exists tool,
      dict_get "request-skill-data" (build_interop_tools Online.env) = Some tool
      /\ td_name (definition tool) = "request-skill-data"
      /\ required_arguments (definition tool) = ["skill_id"; "data_name"]
      /\ exists msg,
           execute tool [("skill_id", JStr "notes")] []
           = (Ok {| content := msg; is_error := true |}, []))
  /\ (exists tool,
         dict_get "list-skills" (build_interop_tools Online.env) = Some tool
         /\ required_arguments (definition tool) = []
         /\ length (collaborator_calls (snd (execute tool [] []))) = 1%nat).
Proof.
  split.
  - eexists. split; [reflexivity |].
    pose proof (tools_keep_their_definition Online.env "request-skill-data" _ eq_refl)
      as (Hname & _ & Hmissing & _).
    split; [exact Hname |]. split; [reflexivity |].
    apply (Hmissing "data_name"); [right; left; reflexivity | reflexivity].
  - eexists. split; [reflexivity |]. split; [reflexivity |].
    pose proof (tools_keep_their_definition Online.env "list-skills" _ eq_refl)
      as (_ & _ & _ & Hcalls).
    apply Hcalls. intros a [].
Defined.

(** ** The kitchen-sink handlers *)



(** What the notes summary comes to. *)
Lemma get_notes_summary_cases (ops : ContextOps) (params : Json) (h : list CtxEvent) :
  Handlers._get_notes_summary ops params h
  = (match get_state ops h with
     | Ok got =>
         match py_get (py_or got (JObj [])) "notes_index" (JList []) with
         | Ok notes =>
             match py_len notes with
             | Ok count => Ok (JObj [("count", JNum (Z.of_nat count)); ("notes", notes)])
             | Raised e => Raised e
             end
         | Raised e => Raised e
         end
     | Raised e => Raised e
     end, [CtxGetState]).
Proof.
  unfold Handlers._get_notes_summary. run_context.
  destruct (get_state ops h) as [got | e]; [| reflexivity].
  destruct (py_get _ _ _) as [notes | e]; [| reflexivity].
  destruct (py_len notes); reflexivity.
Qed.

(** X14: the notes-summary endpoint only reads: whatever the state and
    the params are, its one call is [get_state], and the params have no
    part in the run.  Whenever it returns, the count it reports is the
    length of the notes it reports; for a state whose index is the list l
    it reports l and its length, for a state whose index is a text it
    reports the text and its number of characters (not of bytes), and for
    no state, or a state without an index, no notes and the count 0. *)
Theorem notes_summary_counts_its_notes :
  forall (ops : ContextOps) (params : Json) (h : list CtxEvent),
    let run := Handlers._get_notes_summary ops params h in
    snd run = [CtxGetState]
    /\ (forall params', Handlers._get_notes_summary ops params' h = run)
    /\ (forall r, fst run = Ok r ->
          exists count notes,
            r = JObj [("count", JNum (Z.of_nat count)); ("notes", notes)]
            /\ py_len notes = Ok count)
    /\ (forall got kv l,
          get_state ops h = Ok got ->
          py_or got (JObj []) = JObj kv ->
          dict_get_default "notes_index" (JList []) kv = JList l ->
          fst run = Ok (JObj [("count", JNum (Z.of_nat (length l))); ("notes", JList l)]))
    /\ (forall got kv s,
          get_state ops h = Ok got ->
          py_or got (JObj []) = JObj kv ->
          dict_get_default "notes_index" (JList []) kv = JStr s ->
          fst run = Ok (JObj [("count", JNum (Z.of_nat (characters s))); ("notes", JStr s)])).
Proof.
  intros ops params h run. subst run. rewrite get_notes_summary_cases. cbn [fst snd].
  split; [reflexivity |]. split; [| split; [| split]].
  - intros params'. apply get_notes_summary_cases.
  - intros r Hr.
    destruct (get_state ops h) as [got | e]; [| discriminate].
    destruct (py_get _ _ _) as [notes | e]; [| discriminate].
    destruct (py_len notes) as [count | e] eqn:Hlen; [| discriminate].
    injection Hr as <-. exists count, notes. split; [reflexivity | exact Hlen].
  - intros got kv l -> -> Hidx. cbn [py_get]. rewrite Hidx. reflexivity.
  - intros got kv s -> -> Hidx. cbn [py_get]. rewrite Hidx. reflexivity.
Qed.

(** A store with two notes, a store never written to, and a store whose
    index is a text of one character that takes two bytes. *)
Lemma notes_summary_store :
  fst (Handlers._get_notes_summary (Store.ops Store.two_notes) (JObj []) [])
  = Ok (JObj [ ("count", JNum 2);
               ("notes",
                JList [ JObj [("id", JStr "note_1"); ("title", JStr "a")];
                        JObj [("id", JStr "note_2"); ("title", JStr "b")] ]) ])
  /\ fst (Handlers._get_notes_summary (Store.ops JNull) (JObj []) [])
     = Ok (JObj [("count", JNum 0); ("notes", JList [])])
  /\ String.length Store.e_acute = 2%nat
  /\ fst (Handlers._get_notes_summary (Store.ops Store.text_index) (JObj []) [])
     = Ok (JObj [("count", JNum 1); ("notes", JStr Store.e_acute)]).
Proof.
  split; [| split; [| split; [reflexivity |]]].
  - exact (proj1 (proj2 (proj2 (proj2 (notes_summary_counts_its_notes
                                         (Store.ops Store.two_notes) (JObj []) []))))
                 _ _ _ eq_refl eq_refl eq_refl).
  - exact (proj1 (proj2 (proj2 (proj2 (notes_summary_counts_its_notes
                                         (Store.ops JNull) (JObj []) []))))
                 _ _ _ eq_refl eq_refl eq_refl).
  - exact (proj2 (proj2 (proj2 (proj2 (notes_summary_counts_its_notes
                                         (Store.ops Store.text_index) (JObj []) []))))
                 _ _ _ eq_refl eq_refl eq_refl).
Defined.

(** What the status comes to. *)
Lemma get_status_cases (ops : ContextOps) (params : Json) (h : list CtxEvent) :
  Handlers._get_status ops params h
  = (match get_state ops h with
     | Ok got =>
         match py_get (py_or got (JObj [])) "config" JNull with
         | Ok config =>
             match (if truthy config then py_get config "username" JNull else Ok JNull) with
             | Ok username =>
                 match py_get (py_or got (JObj [])) "tick_count" (JNum 0) with
                 | Ok tick_count =>
                     Ok (JObj [ ("configured", JBool (negb (is_None config)));
                                ("username", username);
                                ("tick_count", tick_count) ])
                 | Raised e => Raised e
                 end
             | Raised e => Raised e
             end
         | Raised e => Raised e
         end
     | Raised e => Raised e
     end, [CtxGetState]).
Proof.
  unfold Handlers._get_status. run_context.
  destruct (get_state ops h) as [got | e]; [| reflexivity].
  destruct (py_get (py_or got (JObj [])) "config" JNull) as [config | e]; [| reflexivity].
  destruct (truthy config).
  - run_context. destruct (py_get config "username" JNull) as [username | e];
      [| reflexivity].
    destruct (py_get _ "tick_count" _); reflexivity.
  - run_context. destruct (py_get _ "tick_count" _); reflexivity.
Qed.

(** X15: the connection-status endpoint only reads: its one call is
    [get_state], and the params have no part in the run.  On a state that
    is absent or a dict, with a config that is falsy or a dict, it reports
    configured as soon as the config is not [None], the username only of
    a config that is truthy, and the tick count, 0 when there is none: a
    config that is an empty object is reported as configured with no
    username. *)
Theorem status_reports_config :
  forall (ops : ContextOps) (params : Json) (h : list CtxEvent),
    let run := Handlers._get_status ops params h in
    snd run = [CtxGetState]
    /\ (forall params', Handlers._get_status ops params' h = run)
    /\ (forall got kv,
          get_state ops h = Ok got ->
          py_or got (JObj []) = JObj kv ->
          let config := dict_get_default "config" JNull kv in
          (truthy config = false \/ exists c, config = JObj c) ->
          fst run
          = Ok (JObj [ ("configured", JBool (negb (is_None config)));
                       ("username",
                        match config with
                        | JObj c =>
                            if truthy config then dict_get_default "username" JNull c
                            else JNull
                        | _ => JNull
                        end);
                       ("tick_count", dict_get_default "tick_count" (JNum 0) kv) ])).
Proof.
  intros ops params h run. subst run. rewrite get_status_cases. cbn [fst snd].
  split; [reflexivity |]. split.
  - intros params'. apply get_status_cases.
  - intros got kv -> -> Hconfig. cbn [py_get].
    destruct Hconfig as [Hfalsy | [c Hc]].
    + rewrite Hfalsy.
      destruct (dict_get_default "config" JNull kv) as [| b | z | s | l | [| p c]];
        try reflexivity; discriminate.
    + rewrite Hc. destruct c as [| p c]; reflexivity.
Qed.

(** A config that is an empty object, and a store never written to. *)
Lemma status_store :
  fst (Handlers._get_status (Store.ops Store.empty_config) (JObj []) [])
  = Ok (JObj [ ("configured", JBool true); ("username", JNull); ("tick_count", JNum 0) ])
  /\ fst (Handlers._get_status (Store.ops JNull) (JObj []) [])
     = Ok (JObj [ ("configured", JBool false); ("username", JNull);
                  ("tick_count", JNum 0) ]).
Proof.
  split.
  - exact (proj2 (proj2 (status_reports_config (Store.ops Store.empty_config) (JObj []) []))
                 _ _ eq_refl eq_refl (or_introl eq_refl)).
  - exact (proj2 (proj2 (status_reports_config (Store.ops JNull) (JObj []) []))
                 _ _ eq_refl eq_refl (or_introl eq_refl)).
Defined.

(** What adding a note comes to, for arguments that are a dict and a
    state whose index is a list. *)
Lemma add_note_cases (ops : ContextOps) (a : Dict Json) (h : list CtxEvent)
    (got : Json) (kv : Dict Json) (l : list Json) :
  get_state ops h = Ok got ->
  py_or got (JObj []) = JObj kv ->
  dict_get_default "notes_index" (JList []) kv = JList l ->
  let title := dict_get_default "title" (JStr "Untitled") a in
  let body := dict_get_default "body" (JStr "") a in
  let note_id := ("note_" ++ py_str (HNum (Z.of_nat (length l) + 1)))%string in
  let note := JObj [ ("id", JStr note_id); ("title", title); ("body", body);
                     ("created_at", JStr (now_isoformat ops (h ++ [CtxGetState]))) ] in
  let entry := JObj [("id", JStr note_id); ("title", title)] in
  let update := JObj [("notes_index", JList (l ++ [entry]))] in
  Handlers._add_note ops (JObj a) h
  = match dumps ops note with
    | Raised e => (Raised e, [CtxGetState])
    | Ok text =>
        let written := CtxWriteData (note_id ++ ".json")%string text in
        match write_data ops (note_id ++ ".json")%string text (h ++ [CtxGetState]) with
        | Raised e => (Raised e, [CtxGetState; written])
        | Ok _ =>
            (match set_state ops update (h ++ [CtxGetState; written]) with
             | Ok _ => Ok (JObj [("note_id", JStr note_id); ("title", title)])
             | Raised e => Raised e
             end,
             [CtxGetState; written; CtxSetState update])
        end
    end.
Proof.
  intros Hgot Hstate Hidx. cbv zeta.
  unfold Handlers._add_note. run_context.
  rewrite Hgot. run_context. rewrite Hstate. cbn [py_get]. rewrite Hidx.
  run_context.
  destruct (dumps ops _) as [text | e]; [| reflexivity].
  run_context.
  destruct (write_data ops _ _ _) as [[] | e]; [| reflexivity].
  run_context. rewrite <- !app_assoc. cbn [app].
  destruct (set_state ops _ _) as [[] | e]; reflexivity.
Qed.

(** A run of add-note that returns went through a dict of arguments and a
    state whose index is a list. *)
Lemma add_note_returns_inv (ops : ContextOps) (args : Json) (h : list CtxEvent) (r : Json) :
  fst (Handlers._add_note ops args h) = Ok r ->
  exists a got kv l,
    args = JObj a
    /\ get_state ops h = Ok got
    /\ py_or got (JObj []) = JObj kv
    /\ dict_get_default "notes_index" (JList []) kv = JList l.
Proof.
  unfold Handlers._add_note. intros Hr.
  destruct args as [| b | z | s | l0 | a]; try discriminate.
  run_context_in Hr.
  destruct (get_state ops h) as [got | e] eqn:Hgot; [| discriminate].
  run_context_in Hr.
  destruct (py_or got (JObj [])) as [| b | z | s | l0 | kv] eqn:Hstate; try discriminate.
  cbn [py_get] in Hr.
  destruct (dict_get_default "notes_index" (JList []) kv) as [| b | z | s | l | kv0] eqn:Hidx.
  - discriminate.
  - discriminate.
  - discriminate.
  - exfalso. run_context_in Hr.
    destruct (dumps ops _); [| discriminate]. run_context_in Hr.
    destruct (write_data ops _ _ _); discriminate.
  - exists a, got, kv, l. repeat split; assumption.
  - exfalso. run_context_in Hr.
    destruct (dumps ops _); [| discriminate]. run_context_in Hr.
    destruct (write_data ops _ _ _); discriminate.
Qed.

(** X16: whenever add-note returns, its arguments were a dict and the
    index of the state a list l, and the three things it produced agree:
    the note id is "note_" followed by the length of l plus one; the file
    written is "<id>.json" and holds the JSON text of the note (id, title,
    body and the time of the call); the state update carries the index l
    with one entry more, made of that id and the title; and the result is
    that id and that title.  The title is "Untitled" and the body empty
    when the arguments have none. *)
Theorem add_note_returns_what_it_stored :
  forall (ops : ContextOps) (args : Json) (h : list CtxEvent) (r : Json),
    fst (Handlers._add_note ops args h) = Ok r ->
    exists a l text,
      args = JObj a
      /\ (exists got kv,
             get_state ops h = Ok got
             /\ py_or got (JObj []) = JObj kv
             /\ dict_get_default "notes_index" (JList []) kv = JList l)
      /\ let title := dict_get_default "title" (JStr "Untitled") a in
         let body := dict_get_default "body" (JStr "") a in
         let note_id := ("note_" ++ py_str (HNum (Z.of_nat (length l) + 1)))%string in
         r = JObj [("note_id", JStr note_id); ("title", title)]
         /\ dumps ops (JObj [ ("id", JStr note_id); ("title", title); ("body", body);
                              ("created_at",
                               JStr (now_isoformat ops (h ++ [CtxGetState]))) ])
            = Ok text
         /\ snd (Handlers._add_note ops args h)
            = [ CtxGetState;
                CtxWriteData (note_id ++ ".json")%string text;
                CtxSetState
                  (JObj [("notes_index",
                          JList (l ++ [JObj [("id", JStr note_id); ("title", title)]]))]) ].
Proof.
  intros ops args h r Hr.
  destruct (add_note_returns_inv ops args h r Hr) as (a & got & kv & l & -> & Hgot & Hst & Hidx).
  rewrite (add_note_cases ops a h got kv l Hgot Hst Hidx) in Hr |- *. cbv zeta in Hr |- *.
  destruct (dumps ops _) as [text | e] eqn:Hdumps; [| discriminate].
  destruct (write_data ops _ _ _) as [[] | e]; [| discriminate].
  cbn [fst snd] in Hr |- *.
  destruct (set_state ops _ _) as [[] | e]; [| discriminate].
  injection Hr as <-.
  exists a, l, text. split; [reflexivity |]. split; [exists got, kv; auto |].
  repeat split. exact Hdumps.
Qed.

(** The first note of a store never written to. *)
Lemma add_note_store :
  exists a l text,
    JObj [("title", JStr "t")] = JObj a
    /\ (exists got kv,
           get_state (Store.ops JNull) [] = Ok got
           /\ py_or got (JObj []) = JObj kv
           /\ dict_get_default "notes_index" (JList []) kv = JList l)
    /\ JObj [("note_id", JStr "note_1"); ("title", JStr "t")]
       = JObj [ ("note_id",
                 JStr ("note_" ++ py_str (HNum (Z.of_nat (length l) + 1)))%string);
                ("title", dict_get_default "title" (JStr "Untitled") a) ]
    /\ snd (Handlers._add_note (Store.ops JNull) (JObj [("title", JStr "t")]) [])
       = [ CtxGetState;
           CtxWriteData
             (("note_" ++ py_str (HNum (Z.of_nat (length l) + 1))) ++ ".json")%string text;
           CtxSetState
             (JObj [("notes_index",
                     JList (l ++ [JObj [ ("id",
                                          JStr ("note_"
                                                ++ py_str (HNum (Z.of_nat (length l) + 1)))
                                               %string);
                                         ("title",
                                          dict_get_default "title" (JStr "Untitled") a) ]]))])
         ].
Proof.
  destruct (add_note_returns_what_it_stored
              (Store.ops JNull) (JObj [("title", JStr "t")]) []
              (JObj [("note_id", JStr "note_1"); ("title", JStr "t")]) eq_refl)
    as (a & l & text & Hargs & Hstate & Hres & _ & Hevs).
  exists a, l, text. repeat split; assumption.
Defined.

(** X17: add-note touches the context in one order only: it reads the
    state, then writes the note file, then updates the state, and stops at
    the first step that fails.  So the index is updated only after the
    note file was written with success, never before and never without
    it; and arguments that are not a dict make it fail before any call. *)
Theorem add_note_writes_before_it_indexes :
  forall (ops : ContextOps) (args : Json) (h : list CtxEvent),
    let evs := snd (Handlers._add_note ops args h) in
    (exists filename text update,
        evs = []
        \/ evs = [CtxGetState]
        \/ evs = [CtxGetState; CtxWriteData filename text]
        \/ evs = [CtxGetState; CtxWriteData filename text; CtxSetState update])
    /\ (forall update,
           In (CtxSetState update) evs ->
           exists filename text,
             evs = [CtxGetState; CtxWriteData filename text; CtxSetState update]
             /\ write_data ops filename text (h ++ [CtxGetState]) = Ok tt)
    /\ ((forall a, args <> JObj a) ->
        evs = [] /\ exists e, fst (Handlers._add_note ops args h) = Raised e).
Proof.
  intros ops args h evs. subst evs.
  destruct args as [| b | z | s | l0 | a];
    try (split; [exists "", "", JNull; left; reflexivity |];
         split; [intros update []
                | intros _; split; [reflexivity | eexists; reflexivity]]).
  unfold Handlers._add_note. run_context.
  destruct (get_state ops h) as [got | e]; [| stopped_early a].
  run_context.
  destruct (py_get (py_or got (JObj [])) "notes_index" (JList [])) as [notes | e];
    [| stopped_early a].
  run_context.
  destruct (py_len notes) as [count | e]; [| stopped_early a].
  run_context.
  destruct (dumps ops _) as [text | e]; [| stopped_early a].
  run_context.
  destruct (write_data ops _ _ _) as [[] | e] eqn:Hwrite; [| stopped_early a].
  run_context.
  destruct (py_append notes _) as [notes' | e]; [| stopped_early a].
  run_context.
  destruct (set_state ops _ _) as [[] | e]; cbn [snd].
  - split; [eexists _, _, _; right; right; right; reflexivity |].
    split; [| intros Hnot; exfalso; exact (Hnot a eq_refl)].
    intros update [Heq | [Heq | [Heq | []]]]; try discriminate.
    injection Heq as <-. eexists _, _. split; [reflexivity | exact Hwrite].
  - split; [eexists _, _, _; right; right; right; reflexivity |].
    split; [| intros Hnot; exfalso; exact (Hnot a eq_refl)].
    intros update [Heq | [Heq | [Heq | []]]]; try discriminate.
    injection Heq as <-. eexists _, _. split; [reflexivity | exact Hwrite].
Qed.

(** The third note of a store with two, on a disk that is full: the file
    is not written and the index is left as it was. *)
Lemma add_note_disk_full :
  Handlers._add_note (Store.ops Store.two_notes) (JObj [("title", JStr "c")]) []
  = (Raised (mkExn "OSError" "No space left on device"),
     [CtxGetState; CtxWriteData "note_3.json" "{...}"])
  /\ (forall update,
         In (CtxSetState update)
            (snd (Handlers._add_note (Store.ops Store.two_notes)
                    (JObj [("title", JStr "c")]) [])) ->
         exists filename text,
           snd (Handlers._add_note (Store.ops Store.two_notes)
                  (JObj [("title", JStr "c")]) [])
           = [CtxGetState; CtxWriteData filename text; CtxSetState update]
           /\ write_data (Store.ops Store.two_notes) filename text ([] ++ [CtxGetState])
              = Ok tt)
  /\ snd (Handlers._add_note (Store.ops JNull) (JList []) []) = [].
Proof.
  split; [reflexivity |]. split.
  - exact (proj1 (proj2 (add_note_writes_before_it_indexes
                           (Store.ops Store.two_notes) (JObj [("title", JStr "c")]) []))).
  - refine (proj1 (proj2 (proj2 (add_note_writes_before_it_indexes
                                   (Store.ops JNull) (JList []) [])) _)).
    intros a; discriminate.
Defined.




(** ** The kitchen-sink tools *)

(** What the status check comes to, once the context is found. *)
Lemma check_skill_status_cases (ops : ContextOps) (args : Dict Arg) (h : list CtxEvent)
    (ctx : Arg) :
  dict_get "__context__" args = Some ctx ->
  let skill_id := dict_get_default "skill_id" (Value (JStr "")) args in
  let failed (e : Exn) :=
    {| content := ("Failed to get status from '" ++ format_arg ops skill_id
                   ++ "': " ++ exn_text e)%string;
       is_error := true |} in
  let reported (e : Exn) : Outcome ToolResult :=
    if derives_Exception e then Ok (failed e) else Raised e in
  Tools.execute_check_skill_status ops args h
  = if arg_truthy skill_id then
      match ctx with
      | Value j => (Ok (failed (AttributeError j "skills")), [])
      | ContextObject =>
          (match skills_request_data ops skill_id "connection-status" h with
           | Ok r => match dumps ops r with
                     | Ok text => Ok {| content := text; is_error := false |}
                     | Raised e => reported e
                     end
           | Raised e => reported e
           end,
           [CtxSkillsRequestData skill_id "connection-status"])
      end
    else (Ok {| content := "skill_id is required"; is_error := true |}, []).
Proof.
  intros Hctx. cbv zeta. unfold Tools.execute_check_skill_status, Tools.pop_context.
  rewrite Hctx. run_context.
  destruct (arg_truthy _); [| reflexivity].
  destruct ctx as [j |]; run_context; [reflexivity |].
  destruct (skills_request_data ops _ _ h) as [r | e].
  - run_context. destruct (dumps ops r) as [text | e]; [reflexivity |].
    run_context. destruct (derives_Exception e); reflexivity.
  - run_context. destruct (derives_Exception e); reflexivity.
Qed.

(** X19: execute_check_skill_status raises a [KeyError] and calls nothing
    when its arguments carry no ["__context__"].  With one, it makes at
    most one call, which asks the skill given as skill_id for the endpoint
    "connection-status" and for no other; a skill_id that is absent or
    falsy gives the error result "skill_id is required" without a call.
    With the context object and a truthy skill_id the call is made: when
    the skills manager returns r and r has the JSON text t, the result is t
    with the error flag off; when the skills manager or the serialisation
    raises an exception derived from [Exception], the error result reads
    "Failed to get status from '<skill_id>': <text of the exception>"; any
    other exception (a cancellation) leaves the tool as it is, and no
    exception derived from [Exception] ever does.  A result that is not an
    error result holds the JSON text of what the skills manager
    returned. *)
Theorem check_skill_status_contract :
  forall (ops : ContextOps) (args : Dict Arg) (h : list CtxEvent),
    let run := Tools.execute_check_skill_status ops args h in
    let skill_id := dict_get_default "skill_id" (Value (JStr "")) args in
    let asked := [CtxSkillsRequestData skill_id "connection-status"] in
    let failed (e : Exn) :=
      {| content := ("Failed to get status from '" ++ format_arg ops skill_id
                     ++ "': " ++ exn_text e)%string;
         is_error := true |} in
    (dict_get "__context__" args = None ->
     run = (Raised (mkExn "KeyError" "'__context__'"), []))
    /\
    (forall ctx,
        dict_get "__context__" args = Some ctx ->
        (snd run = [] \/ snd run = asked)
        /\ (arg_truthy skill_id = false ->
            run = (Ok {| content := "skill_id is required"; is_error := true |}, []))
        /\ (forall j,
               arg_truthy skill_id = true ->
               ctx = Value j ->
               run = (Ok (failed (AttributeError j "skills")), []))
        /\ (arg_truthy skill_id = true ->
            ctx = ContextObject ->
            snd run = asked
            /\ (forall r text,
                   skills_request_data ops skill_id "connection-status" h = Ok r ->
                   dumps ops r = Ok text ->
                   fst run = Ok {| content := text; is_error := false |})
            /\ (forall e,
                   skills_request_data ops skill_id "connection-status" h = Raised e
                   \/ (exists r,
                          skills_request_data ops skill_id "connection-status" h = Ok r
                          /\ dumps ops r = Raised e) ->
                   fst run = if derives_Exception e then Ok (failed e) else Raised e))
        /\ (forall result,
               fst run = Ok result ->
               is_error result = false ->
               ctx = ContextObject
               /\ exists r,
                    skills_request_data ops skill_id "connection-status" h = Ok r
                    /\ dumps ops r = Ok (content result))
        /\ (forall e, fst run = Raised e -> derives_Exception e = false)).
Proof.
  intros ops args h run skill_id asked failed. subst run skill_id asked failed. split.
  - intros Habs. unfold Tools.execute_check_skill_status, Tools.pop_context.
    rewrite Habs. reflexivity.
  - intros ctx Hctx. rewrite (check_skill_status_cases ops args h ctx Hctx). cbv zeta.
    destruct (arg_truthy (dict_get_default "skill_id" (Value (JStr "")) args)).
    + destruct ctx as [j |].
      * split; [left; reflexivity |]. split; [discriminate |].
        split; [intros j' _ [= <-]; reflexivity |].
        split; [intros _ Hj; discriminate |].
        split; [intros result [= <-] Hflag; discriminate | intros e He; discriminate].
      * split; [right; reflexivity |]. split; [discriminate |].
        split; [intros j _ Hj; discriminate |]. cbn [fst snd].
        split; [intros _ _; split; [reflexivity |]; split |]; [| | split].
        -- intros r text -> ->. reflexivity.
        -- intros e [-> | [r [-> ->]]]; reflexivity.
        -- intros result Hres Hflag. split; [reflexivity |].
           destruct (skills_request_data ops _ _ h) as [r | e].
           ++ destruct (dumps ops r) as [text | e] eqn:Ht.
              ** injection Hres as <-. exists r. split; [reflexivity | exact Ht].
              ** destruct (derives_Exception e); [| discriminate].
                 injection Hres as <-. discriminate.
           ++ destruct (derives_Exception e); [| discriminate].
              injection Hres as <-. discriminate.
        -- intros e He.
           destruct (skills_request_data ops _ _ h) as [r | e'].
           ++ destruct (dumps ops r) as [text | e']; [discriminate |].
              destruct (derives_Exception e') eqn:Hd; [discriminate |].
              injection He as <-. exact Hd.
           ++ destruct (derives_Exception e') eqn:Hd; [discriminate |].
              injection He as <-. exact Hd.
    + split; [left; reflexivity |]. split; [reflexivity |].
      split; [intros j Ht; discriminate |]. split; [intros Ht; discriminate |].
      split; [intros result [= <-] Hflag; discriminate | intros e He; discriminate].
Qed.

(** A call without a context, a skill that answers, a skill the skills
    manager does not know, a call without a skill id, and a call during
    which the task is cancelled. *)
Lemma check_skill_status_store :
  Tools.execute_check_skill_status (Store.ops JNull) [("skill_id", Value (JStr "ghost"))] []
  = (Raised (mkExn "KeyError" "'__context__'"), [])
  /\ Tools.execute_check_skill_status (Store.ops JNull)
       [("__context__", ContextObject); ("skill_id", Value (JStr "notes"))] []
     = (Ok {| content := "{...}"; is_error := false |},
        [CtxSkillsRequestData (Value (JStr "notes")) "connection-status"])
  /\ fst (Tools.execute_check_skill_status (Store.ops JNull)
            [("__context__", ContextObject); ("skill_id", Value (JStr "ghost"))] [])
     = Ok {| content := "Failed to get status from 'ghost': Unknown skill: ghost";
             is_error := true |}
  /\ Tools.execute_check_skill_status (Store.ops JNull) [("__context__", ContextObject)] []
     = (Ok {| content := "skill_id is required"; is_error := true |}, [])
  /\ fst (Tools.execute_check_skill_status (Store.cancelled JNull)
            [("__context__", ContextObject); ("skill_id", Value (JStr "notes"))] [])
     = Raised CancelledError.
Proof.
  split; [| split; [| split; [| split]]].
  - exact (proj1 (check_skill_status_contract
                    (Store.ops JNull) [("skill_id", Value (JStr "ghost"))] []) eq_refl).
  - destruct (proj2 (check_skill_status_contract
                       (Store.ops JNull)
                       [("__context__", ContextObject); ("skill_id", Value (JStr "notes"))] [])
                    ContextObject eq_refl) as (_ & _ & _ & Hcall & _).
    destruct (Hcall eq_refl eq_refl) as (Hevs & Hok & _).
    apply injective_projections; [| exact Hevs].
    exact (Hok (JObj [("configured", JBool true)]) "{...}" eq_refl eq_refl).
  - destruct (proj2 (check_skill_status_contract
                       (Store.ops JNull)
                       [("__context__", ContextObject); ("skill_id", Value (JStr "ghost"))] [])
                    ContextObject eq_refl) as (_ & _ & _ & Hcall & _).
    destruct (Hcall eq_refl eq_refl) as (_ & _ & Hfail).
    exact (Hfail (mkExn "ValueError" "Unknown skill: ghost") (or_introl eq_refl)).
  - exact (proj1 (proj2 (proj2 (check_skill_status_contract
                                  (Store.ops JNull) [("__context__", ContextObject)] [])
                               ContextObject eq_refl)) eq_refl).
  - destruct (proj2 (check_skill_status_contract
                       (Store.cancelled JNull)
                       [("__context__", ContextObject); ("skill_id", Value (JStr "notes"))] [])
                    ContextObject eq_refl) as (_ & _ & _ & Hcall & _).
    destruct (Hcall eq_refl eq_refl) as (_ & _ & Hfail).
    exact (Hfail CancelledError (or_introl eq_refl)).
Defined.

(** What the discovery comes to, once the context object is found. *)
Lemma discover_skills_cases (ops : ContextOps) (args : Dict Arg) (h : list CtxEvent) :
  dict_get "__context__" args = Some ContextObject ->
  let failed (e : Exn) :=
    {| content := ("Discovery failed: " ++ exn_text e)%string; is_error := true |} in
  let reported (e : Exn) : Outcome ToolResult :=
    if derives_Exception e then Ok (failed e) else Raised e in
  Tools.execute_discover_skills ops args h
  = match skills_list_skills ops h with
    | Raised e => (reported e, [CtxSkillsListSkills])
    | Ok listed =>
        match skills_list_data ops (h ++ [CtxSkillsListSkills]) with
        | Raised e => (reported e, [CtxSkillsListSkills; CtxSkillsListData])
        | Ok data_endpoints =>
            (match skills_list_functions ops
                     (h ++ [CtxSkillsListSkills; CtxSkillsListData]) with
             | Raised e => reported e
             | Ok functions =>
                 match dumps ops (JObj [ ("skills", listed);
                                         ("available_data_endpoints", data_endpoints);
                                         ("available_functions", functions) ]) with
                 | Ok text => Ok {| content := text; is_error := false |}
                 | Raised e => reported e
                 end
             end,
             [CtxSkillsListSkills; CtxSkillsListData; CtxSkillsListFunctions])
        end
    end.
Proof.
  intros Hctx. cbv zeta. unfold Tools.execute_discover_skills, Tools.pop_context.
  rewrite Hctx. run_context.
  destruct (skills_list_skills ops h) as [listed | e];
    [| run_context; destruct (derives_Exception e); reflexivity].
  run_context.
  destruct (skills_list_data ops _) as [data_endpoints | e];
    [| run_context; destruct (derives_Exception e); reflexivity].
  run_context. rewrite <- !app_assoc. cbn [app].
  destruct (skills_list_functions ops _) as [functions | e];
    [| run_context; destruct (derives_Exception e); reflexivity].
  run_context. destruct (dumps ops _) as [text | e]; [reflexivity |].
  run_context. destruct (derives_Exception e); reflexivity.
Qed.

(** X20: execute_discover_skills raises a [KeyError] and calls nothing
    when its arguments carry no ["__context__"], and returns an error
    result without a call when what it finds there is not a context.  With
    the context object, it asks the skills manager for the skills, then
    for the data endpoints, then for the functions, and stops asking at
    the first of these calls that raises.  When the three calls return,
    the result holds the JSON text of the three answers under the keys
    skills, available_data_endpoints and available_functions, with the
    error flag off.  When one of the calls or the serialisation raises an
    exception derived from [Exception], the error result reads "Discovery
    failed: <text of the exception>"; any other exception (a cancellation)
    leaves the tool as it is, and no exception derived from [Exception]
    ever does.  A result that is not an error result comes from three
    calls that all returned. *)
Theorem discover_skills_contract :
  forall (ops : ContextOps) (args : Dict Arg) (h : list CtxEvent),
    let run := Tools.execute_discover_skills ops args h in
    let asked := [CtxSkillsListSkills; CtxSkillsListData; CtxSkillsListFunctions] in
    let failed (e : Exn) :=
      {| content := ("Discovery failed: " ++ exn_text e)%string; is_error := true |} in
    let reported (e : Exn) : Outcome ToolResult :=
      if derives_Exception e then Ok (failed e) else Raised e in
    (dict_get "__context__" args = None ->
     run = (Raised (mkExn "KeyError" "'__context__'"), []))
    /\
    (forall j,
        dict_get "__context__" args = Some (Value j) ->
        run = (Ok (failed (AttributeError j "skills")), []))
    /\
    (dict_get "__context__" args = Some ContextObject ->
     (exists n, (1 <= n <= 3)%nat /\ snd run = firstn n asked)
     /\ (forall e,
            skills_list_skills ops h = Raised e ->
            run = (reported e, firstn 1 asked))
     /\ (forall e,
            (exists listed, skills_list_skills ops h = Ok listed) ->
            skills_list_data ops (h ++ firstn 1 asked) = Raised e ->
            run = (reported e, firstn 2 asked))
     /\ (forall e,
            (exists listed, skills_list_skills ops h = Ok listed) ->
            (exists data_endpoints,
                skills_list_data ops (h ++ firstn 1 asked) = Ok data_endpoints) ->
            skills_list_functions ops (h ++ firstn 2 asked) = Raised e ->
            run = (reported e, asked))
     /\ (forall listed data_endpoints functions,
            skills_list_skills ops h = Ok listed ->
            skills_list_data ops (h ++ firstn 1 asked) = Ok data_endpoints ->
            skills_list_functions ops (h ++ firstn 2 asked) = Ok functions ->
            run = (match dumps ops (JObj [ ("skills", listed);
                                           ("available_data_endpoints", data_endpoints);
                                           ("available_functions", functions) ]) with
                   | Ok text => Ok {| content := text; is_error := false |}
                   | Raised e => reported e
                   end, asked))
     /\ (forall result,
            fst run = Ok result ->
            is_error result = false ->
            snd run = asked
            /\ exists listed data_endpoints functions,
                 skills_list_skills ops h = Ok listed
                 /\ skills_list_data ops (h ++ firstn 1 asked) = Ok data_endpoints
                 /\ skills_list_functions ops (h ++ firstn 2 asked) = Ok functions
                 /\ dumps ops (JObj [ ("skills", listed);
                                      ("available_data_endpoints", data_endpoints);
                                      ("available_functions", functions) ])
                    = Ok (content result))
     /\ (forall e, fst run = Raised e -> derives_Exception e = false)).
Proof.
  intros ops args h run asked failed reported. subst run asked failed reported.
  split; [| split].
  - intros Habs. unfold Tools.execute_discover_skills, Tools.pop_context.
    rewrite Habs. reflexivity.
  - intros j Hctx. unfold Tools.execute_discover_skills, Tools.pop_context.
    rewrite Hctx. reflexivity.
  - intros Hctx. rewrite (discover_skills_cases ops args h Hctx). cbv zeta. cbn [firstn].
    destruct (skills_list_skills ops h) as [listed | e1].
    + destruct (skills_list_data ops _) as [data_endpoints | e2].
      * split; [exists 3%nat; split; [lia | reflexivity] |].
        split; [discriminate |]. split; [discriminate |].
        split; [intros e _ _ ->; reflexivity |].
        split; [intros l d f [= <-] [= <-] ->; reflexivity |].
        cbn [fst snd].
        destruct (skills_list_functions ops _) as [functions | e3].
        -- destruct (dumps ops _) as [text | e4] eqn:Ht.
           ++ split; [| discriminate].
              intros result [= <-] _. split; [reflexivity |].
              exists listed, data_endpoints, functions. repeat split. exact Ht.
           ++ destruct (derives_Exception e4) eqn:Hd; split.
              ** intros result [= <-] Hflag. discriminate.
              ** discriminate.
              ** discriminate.
              ** intros e [= <-]. exact Hd.
        -- destruct (derives_Exception e3) eqn:Hd; split.
           ++ intros result [= <-] Hflag. discriminate.
           ++ discriminate.
           ++ discriminate.
           ++ intros e [= <-]. exact Hd.
      * split; [exists 2%nat; split; [lia | reflexivity] |].
        split; [discriminate |].
        split; [intros e _ [= ->]; reflexivity |].
        split; [intros e _ [d Hd]; discriminate |].
        split; [discriminate |]. cbn [fst snd].
        destruct (derives_Exception e2) eqn:Hd; split.
        -- intros result [= <-] Hflag. discriminate.
        -- discriminate.
        -- discriminate.
        -- intros e [= <-]. exact Hd.
    + split; [exists 1%nat; split; [lia | reflexivity] |].
      split; [intros e [= ->]; reflexivity |].
      split; [intros e [listed Hs]; discriminate |].
      split; [intros e [listed Hs]; discriminate |].
      split; [discriminate |]. cbn [fst snd].
      destruct (derives_Exception e1) eqn:Hd; split.
      * intros result [= <-] Hflag. discriminate.
      * discriminate.
      * discriminate.
      * intros e [= <-]. exact Hd.
Qed.

(** A call without a context; the skills manager answers for the skills
    and fails for the data endpoints, so that the functions are not asked
    for; a host that answers the three calls; and a task cancelled while
    the data endpoints are asked for. *)
Lemma discover_skills_store :
  Tools.execute_discover_skills (Store.ops JNull) [] []
  = (Raised (mkExn "KeyError" "'__context__'"), [])
  /\ Tools.execute_discover_skills (Store.ops JNull) [("__context__", ContextObject)] []
     = (Ok {| content := "Discovery failed: host unreachable"; is_error := true |},
        [CtxSkillsListSkills; CtxSkillsListData])
  /\ Tools.execute_discover_skills (Store.reachable JNull) [("__context__", ContextObject)] []
     = (Ok {| content := "{...}"; is_error := false |},
        [CtxSkillsListSkills; CtxSkillsListData; CtxSkillsListFunctions])
  /\ Tools.execute_discover_skills (Store.cancelled JNull) [("__context__", ContextObject)] []
     = (Raised CancelledError, [CtxSkillsListSkills; CtxSkillsListData]).
Proof.
  split; [| split; [| split]].
  - exact (proj1 (discover_skills_contract (Store.ops JNull) [] []) eq_refl).
  - destruct (proj2 (proj2 (discover_skills_contract
                              (Store.ops JNull) [("__context__", ContextObject)] [])) eq_refl)
      as (_ & _ & Hdata & _).
    exact (Hdata (mkExn "RuntimeError" "host unreachable")
                 (ex_intro _ (JList [JStr "notes"]) eq_refl) eq_refl).
  - destruct (proj2 (proj2 (discover_skills_contract
                              (Store.reachable JNull) [("__context__", ContextObject)] []))
                    eq_refl)
      as (_ & _ & _ & _ & Hall & _).
    exact (Hall (JList [JStr "notes"]) (JList [JStr "connection-status"]) (JList [])
                eq_refl eq_refl eq_refl).
  - destruct (proj2 (proj2 (discover_skills_contract
                              (Store.cancelled JNull) [("__context__", ContextObject)] []))
                    eq_refl)
      as (_ & _ & Hdata & _).
    exact (Hdata CancelledError (ex_intro _ (JList [JStr "notes"]) eq_refl) eq_refl).
Defined.
